(** * flask-uploader-ationet: the idempotent batch-submission pipeline

    A shallow embedding of [csv_processor.py], [ationet_service.py] and
    [vehicle_processor.py], and the properties of the pipeline they
    implement: record identity, the processed and failed ledgers, the
    classification of remote answers, retry with backoff, batching with
    pacing, and the status report.

    Modelling conventions.
    - Python [str] is [string], holding the UTF-8 bytes of the text.
      [upper], [lower] and [strip] work on the code points those bytes
      encode, with the case mappings and the whitespace of the Unicode
      Character Database (version 14.0) as CPython's [str] has them:
      one code point can become several ("ß" gives "SS"), and a
      capital sigma is lower-cased by its place in the word. Substring
      tests and [replace] work on the bytes, which for UTF-8 text is
      the same as working on the code points.
    - Python [float] is IEEE 754 binary64, given by the Standard Library's
      [spec_float] with precision 53 and maximal exponent 1024.
    - An exception is a value [Exn] (its class and its [str]); code that
      can raise returns a [Result], and code that also reads or changes
      the outside world runs in the monad [Py].
    - The outside world is explicit: the three files (the CSV and the two
      ledgers, at three different paths as with the default
      configuration), the remote endpoint (an oracle giving the outcome
      of the n-th POST), the wall clock read for the ledger timestamps,
      and the trace of the observable calls the program makes
      ([requests.post], [time.sleep], the ledger writes, and the log line
      that opens a batch). Other log lines and the elapsed-time field of
      the run summary (a wall-clock measurement) are left out.
    - Writing a ledger file succeeds; reading one may fail. A ledger
      file is missing, or cannot be opened or parsed as JSON
      ([Unreadable]), or holds a JSON object whose lists, where
      present, have the shape this program writes ([Parsed]). A file
      that parses to anything else is outside the model; in
      particular a processed ledger with a value that is not a list
      under "processed_ids" (which [get_processed_records] would hand
      to its callers as it is) has no counterpart here: what is
      proved for every [Files] is proved for the ledgers just
      described.
    - The values of a CSV row can be serialised to JSON. *)

From Stdlib Require Import String Ascii List ZArith NArith Bool Lia.
From Stdlib Require Import DecimalString SpecFloat.
Import ListNotations.
Local Open Scope string_scope.
Local Open Scope nat_scope.

Set Implicit Arguments.

(* ================================================================== *)
(** * Python values: exceptions, strings, numbers *)
(* ================================================================== *)

Inductive ExnClass :=
| FileNotFoundError | ValueError | KeyError | TypeError
| Timeout | ConnectionError | JSONDecodeError | OtherError.

(** An exception object: its class and what [str(e)] gives. *)
Record Exn := mkExn { exn_class : ExnClass; exn_msg : string }.

Inductive Result (A : Type) :=
| Ok (a : A)
| Raise (e : Exn).
Arguments Ok {A} a.
Arguments Raise {A} e.

Module PyStr.

(** A [str] is held as the UTF-8 bytes of its text; the methods that
    depend on the characters work on the code points those bytes
    encode. *)

Definition code (c : ascii) : N := N_of_ascii c.
Definition byte (n : N) : ascii := ascii_of_N n.

(** A continuation byte of a UTF-8 sequence. *)
Definition is_cont (c : ascii) : bool :=
  ((128 <=? code c) && (code c <? 192))%N.

Definition low6 (c : ascii) : N := (code c - 128)%N.

(** What stands for a byte that begins no UTF-8 sequence. No text has
    such a byte; it is carried through unchanged. *)
Definition stray (c : ascii) : N := (1114112 + code c)%N.

(** The code points of a text. *)
Fixpoint decode (s : string) : list N :=
  match s with
  | EmptyString => []
  | String b0 s1 =>
      let n0 := code b0 in
      if (n0 <? 128)%N then n0 :: decode s1
      else if (n0 <? 192)%N then stray b0 :: decode s1
      else
        match s1 with
        | String b1 s2 =>
            if negb (is_cont b1) then stray b0 :: decode s1
            else if (n0 <? 224)%N then
              ((n0 - 192) * 64 + low6 b1)%N :: decode s2
            else
              match s2 with
              | String b2 s3 =>
                  if negb (is_cont b2) then stray b0 :: decode s1
                  else if (n0 <? 240)%N then
                    ((n0 - 224) * 4096 + low6 b1 * 64 + low6 b2)%N
                    :: decode s3
                  else
                    match s3 with
                    | String b3 s4 =>
                        if is_cont b3 && (n0 <? 248)%N then
                          ((n0 - 240) * 262144 + low6 b1 * 4096
                           + low6 b2 * 64 + low6 b3)%N
                          :: decode s4
                        else stray b0 :: decode s1
                    | EmptyString => stray b0 :: decode s1
                    end
              | EmptyString => stray b0 :: decode s1
              end
        | EmptyString => stray b0 :: decode s1
        end
  end.

(** The UTF-8 sequence of a code point. *)
Definition encode_point (n : N) : string :=
  (if n <? 128 then String (byte n) ""
   else if n <? 2048 then
     String (byte (192 + n / 64)) (String (byte (128 + n mod 64)) "")
   else if n <? 65536 then
     String (byte (224 + n / 4096))
       (String (byte (128 + (n / 64) mod 64))
          (String (byte (128 + n mod 64)) ""))
   else if n <? 1114112 then
     String (byte (240 + n / 262144))
       (String (byte (128 + (n / 4096) mod 64))
          (String (byte (128 + (n / 64) mod 64))
             (String (byte (128 + n mod 64)) "")))
   else String (byte (n - 1114112)) "")%N.

Fixpoint encode (l : list N) : string :=
  match l with
  | [] => ""
  | n :: l' => encode_point n ++ encode l'
  end.

(** [s.isascii()] *)
Fixpoint isascii (s : string) : bool :=
  match s with
  | EmptyString => true
  | String c s' => (code c <? 128)%N && isascii s'
  end.

(** ** The character tables

    The case mappings and the character classes that CPython's [str]
    methods take from the Unicode Character Database (version 14.0).
    The ASCII letters are mapped by arithmetic; the tables of the case
    mappings hold the code points from 128 on. *)

(** [(lo, hi, step, delta)]: each of [lo], [lo + step], ..., [hi] is
    mapped to itself plus [delta]. *)
Definition Shift : Type := (N * N * N * Z)%type.

Fixpoint shifted (t : list Shift) (n : N) : option N :=
  match t with
  | [] => None
  | (lo, hi, step, delta) :: t' =>
      if ((lo <=? n) && (n <=? hi) && ((n - lo) mod step =? 0))%N
      then Some (Z.to_N (Z.of_N n + delta))
      else shifted t' n
  end.

Fixpoint expansion (t : list (N * list N)) (n : N) : option (list N) :=
  match t with
  | [] => None
  | (m, l) :: t' => if (m =? n)%N then Some l else expansion t' n
  end.

Fixpoint within (t : list (N * N)) (n : N) : bool :=
  match t with
  | [] => false
  | (lo, hi) :: t' => ((lo <=? n) && (n <=? hi))%N || within t' n
  end.

(** The code points from 128 on that [upper] changes to one code point. *)
Definition upper_shifts : list Shift :=
  [
   (181, 181, 1, 743%Z); (224, 246, 1, (-32)%Z); (248, 254, 1, (-32)%Z);
   (255, 255, 1, 121%Z); (257, 303, 2, (-1)%Z); (305, 305, 1, (-232)%Z);
   (307, 311, 2, (-1)%Z); (314, 328, 2, (-1)%Z); (331, 375, 2, (-1)%Z);
   (378, 382, 2, (-1)%Z); (383, 383, 1, (-300)%Z); (384, 384, 1, 195%Z);
   (387, 389, 2, (-1)%Z); (392, 392, 1, (-1)%Z); (396, 396, 1, (-1)%Z);
   (402, 402, 1, (-1)%Z); (405, 405, 1, 97%Z); (409, 409, 1, (-1)%Z);
   (410, 410, 1, 163%Z); (414, 414, 1, 130%Z); (417, 421, 2, (-1)%Z);
   (424, 424, 1, (-1)%Z); (429, 429, 1, (-1)%Z); (432, 432, 1, (-1)%Z);
   (436, 438, 2, (-1)%Z); (441, 441, 1, (-1)%Z); (445, 445, 1, (-1)%Z);
   (447, 447, 1, 56%Z); (453, 453, 1, (-1)%Z); (454, 454, 1, (-2)%Z);
   (456, 456, 1, (-1)%Z); (457, 457, 1, (-2)%Z); (459, 459, 1, (-1)%Z);
   (460, 460, 1, (-2)%Z); (462, 476, 2, (-1)%Z); (477, 477, 1, (-79)%Z);
   (479, 495, 2, (-1)%Z); (498, 498, 1, (-1)%Z); (499, 499, 1, (-2)%Z);
   (501, 501, 1, (-1)%Z); (505, 543, 2, (-1)%Z); (547, 563, 2, (-1)%Z);
   (572, 572, 1, (-1)%Z); (575, 576, 1, 10815%Z); (578, 578, 1, (-1)%Z);
   (583, 591, 2, (-1)%Z); (592, 592, 1, 10783%Z); (593, 593, 1, 10780%Z);
   (594, 594, 1, 10782%Z); (595, 595, 1, (-210)%Z); (596, 596, 1, (-206)%Z);
   (598, 599, 1, (-205)%Z); (601, 601, 1, (-202)%Z); (603, 603, 1, (-203)%Z);
   (604, 604, 1, 42319%Z); (608, 608, 1, (-205)%Z); (609, 609, 1, 42315%Z);
   (611, 611, 1, (-207)%Z); (613, 613, 1, 42280%Z); (614, 614, 1, 42308%Z);
   (616, 616, 1, (-209)%Z); (617, 617, 1, (-211)%Z); (618, 618, 1, 42308%Z);
   (619, 619, 1, 10743%Z); (620, 620, 1, 42305%Z); (623, 623, 1, (-211)%Z);
   (625, 625, 1, 10749%Z); (626, 626, 1, (-213)%Z); (629, 629, 1, (-214)%Z);
   (637, 637, 1, 10727%Z); (640, 640, 1, (-218)%Z); (642, 642, 1, 42307%Z);
   (643, 643, 1, (-218)%Z); (647, 647, 1, 42282%Z); (648, 648, 1, (-218)%Z);
   (649, 649, 1, (-69)%Z); (650, 651, 1, (-217)%Z); (652, 652, 1, (-71)%Z);
   (658, 658, 1, (-219)%Z); (669, 669, 1, 42261%Z); (670, 670, 1, 42258%Z);
   (837, 837, 1, 84%Z); (881, 883, 2, (-1)%Z); (887, 887, 1, (-1)%Z);
   (891, 893, 1, 130%Z); (940, 940, 1, (-38)%Z); (941, 943, 1, (-37)%Z);
   (945, 961, 1, (-32)%Z); (962, 962, 1, (-31)%Z); (963, 971, 1, (-32)%Z);
   (972, 972, 1, (-64)%Z); (973, 974, 1, (-63)%Z); (976, 976, 1, (-62)%Z);
   (977, 977, 1, (-57)%Z); (981, 981, 1, (-47)%Z); (982, 982, 1, (-54)%Z);
   (983, 983, 1, (-8)%Z); (985, 1007, 2, (-1)%Z); (1008, 1008, 1, (-86)%Z);
   (1009, 1009, 1, (-80)%Z); (1010, 1010, 1, 7%Z); (1011, 1011, 1, (-116)%Z);
   (1013, 1013, 1, (-96)%Z); (1016, 1016, 1, (-1)%Z); (1019, 1019, 1, (-1)%Z);
   (1072, 1103, 1, (-32)%Z); (1104, 1119, 1, (-80)%Z); (1121, 1153, 2, (-1)%Z);
   (1163, 1215, 2, (-1)%Z); (1218, 1230, 2, (-1)%Z); (1231, 1231, 1, (-15)%Z);
   (1233, 1327, 2, (-1)%Z); (1377, 1414, 1, (-48)%Z); (4304, 4346, 1, 3008%Z);
   (4349, 4351, 1, 3008%Z); (5112, 5117, 1, (-8)%Z); (7296, 7296, 1, (-6254)%Z);
   (7297, 7297, 1, (-6253)%Z); (7298, 7298, 1, (-6244)%Z); (7299, 7300, 1, (-6242)%Z);
   (7301, 7301, 1, (-6243)%Z); (7302, 7302, 1, (-6236)%Z); (7303, 7303, 1, (-6181)%Z);
   (7304, 7304, 1, 35266%Z); (7545, 7545, 1, 35332%Z); (7549, 7549, 1, 3814%Z);
   (7566, 7566, 1, 35384%Z); (7681, 7829, 2, (-1)%Z); (7835, 7835, 1, (-59)%Z);
   (7841, 7935, 2, (-1)%Z); (7936, 7943, 1, 8%Z); (7952, 7957, 1, 8%Z);
   (7968, 7975, 1, 8%Z); (7984, 7991, 1, 8%Z); (8000, 8005, 1, 8%Z);
   (8017, 8023, 2, 8%Z); (8032, 8039, 1, 8%Z); (8048, 8049, 1, 74%Z);
   (8050, 8053, 1, 86%Z); (8054, 8055, 1, 100%Z); (8056, 8057, 1, 128%Z);
   (8058, 8059, 1, 112%Z); (8060, 8061, 1, 126%Z); (8112, 8113, 1, 8%Z);
   (8126, 8126, 1, (-7205)%Z); (8144, 8145, 1, 8%Z); (8160, 8161, 1, 8%Z);
   (8165, 8165, 1, 7%Z); (8526, 8526, 1, (-28)%Z); (8560, 8575, 1, (-16)%Z);
   (8580, 8580, 1, (-1)%Z); (9424, 9449, 1, (-26)%Z); (11312, 11359, 1, (-48)%Z);
   (11361, 11361, 1, (-1)%Z); (11365, 11365, 1, (-10795)%Z); (11366, 11366, 1, (-10792)%Z);
   (11368, 11372, 2, (-1)%Z); (11379, 11379, 1, (-1)%Z); (11382, 11382, 1, (-1)%Z);
   (11393, 11491, 2, (-1)%Z); (11500, 11502, 2, (-1)%Z); (11507, 11507, 1, (-1)%Z);
   (11520, 11557, 1, (-7264)%Z); (11559, 11559, 1, (-7264)%Z); (11565, 11565, 1, (-7264)%Z);
   (42561, 42605, 2, (-1)%Z); (42625, 42651, 2, (-1)%Z); (42787, 42799, 2, (-1)%Z);
   (42803, 42863, 2, (-1)%Z); (42874, 42876, 2, (-1)%Z); (42879, 42887, 2, (-1)%Z);
   (42892, 42892, 1, (-1)%Z); (42897, 42899, 2, (-1)%Z); (42900, 42900, 1, 48%Z);
   (42903, 42921, 2, (-1)%Z); (42933, 42947, 2, (-1)%Z); (42952, 42954, 2, (-1)%Z);
   (42961, 42961, 1, (-1)%Z); (42967, 42969, 2, (-1)%Z); (42998, 42998, 1, (-1)%Z);
   (43859, 43859, 1, (-928)%Z); (43888, 43967, 1, (-38864)%Z); (65345, 65370, 1, (-32)%Z);
   (66600, 66639, 1, (-40)%Z); (66776, 66811, 1, (-40)%Z); (66967, 66977, 1, (-39)%Z);
   (66979, 66993, 1, (-39)%Z); (66995, 67001, 1, (-39)%Z); (67003, 67004, 1, (-39)%Z);
   (68800, 68850, 1, (-64)%Z); (71872, 71903, 1, (-32)%Z); (93792, 93823, 1, (-32)%Z);
   (125218, 125251, 1, (-34)%Z)
  ]%N.

(** The code points that [upper] changes to several. *)
Definition upper_expansions : list (N * list N) :=
  [
   (223, [83; 83]); (329, [700; 78]); (496, [74; 780]);
   (912, [921; 776; 769]); (944, [933; 776; 769]); (1415, [1333; 1362]);
   (7830, [72; 817]); (7831, [84; 776]); (7832, [87; 778]);
   (7833, [89; 778]); (7834, [65; 702]); (8016, [933; 787]);
   (8018, [933; 787; 768]); (8020, [933; 787; 769]); (8022, [933; 787; 834]);
   (8064, [7944; 921]); (8065, [7945; 921]); (8066, [7946; 921]);
   (8067, [7947; 921]); (8068, [7948; 921]); (8069, [7949; 921]);
   (8070, [7950; 921]); (8071, [7951; 921]); (8072, [7944; 921]);
   (8073, [7945; 921]); (8074, [7946; 921]); (8075, [7947; 921]);
   (8076, [7948; 921]); (8077, [7949; 921]); (8078, [7950; 921]);
   (8079, [7951; 921]); (8080, [7976; 921]); (8081, [7977; 921]);
   (8082, [7978; 921]); (8083, [7979; 921]); (8084, [7980; 921]);
   (8085, [7981; 921]); (8086, [7982; 921]); (8087, [7983; 921]);
   (8088, [7976; 921]); (8089, [7977; 921]); (8090, [7978; 921]);
   (8091, [7979; 921]); (8092, [7980; 921]); (8093, [7981; 921]);
   (8094, [7982; 921]); (8095, [7983; 921]); (8096, [8040; 921]);
   (8097, [8041; 921]); (8098, [8042; 921]); (8099, [8043; 921]);
   (8100, [8044; 921]); (8101, [8045; 921]); (8102, [8046; 921]);
   (8103, [8047; 921]); (8104, [8040; 921]); (8105, [8041; 921]);
   (8106, [8042; 921]); (8107, [8043; 921]); (8108, [8044; 921]);
   (8109, [8045; 921]); (8110, [8046; 921]); (8111, [8047; 921]);
   (8114, [8122; 921]); (8115, [913; 921]); (8116, [902; 921]);
   (8118, [913; 834]); (8119, [913; 834; 921]); (8124, [913; 921]);
   (8130, [8138; 921]); (8131, [919; 921]); (8132, [905; 921]);
   (8134, [919; 834]); (8135, [919; 834; 921]); (8140, [919; 921]);
   (8146, [921; 776; 768]); (8147, [921; 776; 769]); (8150, [921; 834]);
   (8151, [921; 776; 834]); (8162, [933; 776; 768]); (8163, [933; 776; 769]);
   (8164, [929; 787]); (8166, [933; 834]); (8167, [933; 776; 834]);
   (8178, [8186; 921]); (8179, [937; 921]); (8180, [911; 921]);
   (8182, [937; 834]); (8183, [937; 834; 921]); (8188, [937; 921]);
   (64256, [70; 70]); (64257, [70; 73]); (64258, [70; 76]);
   (64259, [70; 70; 73]); (64260, [70; 70; 76]); (64261, [83; 84]);
   (64262, [83; 84]); (64275, [1348; 1350]); (64276, [1348; 1333]);
   (64277, [1348; 1339]); (64278, [1358; 1350]); (64279, [1348; 1341])
  ]%N.

(** The code points from 128 on that [lower] changes to one code point. *)
Definition lower_shifts : list Shift :=
  [
   (192, 214, 1, 32%Z); (216, 222, 1, 32%Z); (256, 302, 2, 1%Z);
   (306, 310, 2, 1%Z); (313, 327, 2, 1%Z); (330, 374, 2, 1%Z);
   (376, 376, 1, (-121)%Z); (377, 381, 2, 1%Z); (385, 385, 1, 210%Z);
   (386, 388, 2, 1%Z); (390, 390, 1, 206%Z); (391, 391, 1, 1%Z);
   (393, 394, 1, 205%Z); (395, 395, 1, 1%Z); (398, 398, 1, 79%Z);
   (399, 399, 1, 202%Z); (400, 400, 1, 203%Z); (401, 401, 1, 1%Z);
   (403, 403, 1, 205%Z); (404, 404, 1, 207%Z); (406, 406, 1, 211%Z);
   (407, 407, 1, 209%Z); (408, 408, 1, 1%Z); (412, 412, 1, 211%Z);
   (413, 413, 1, 213%Z); (415, 415, 1, 214%Z); (416, 420, 2, 1%Z);
   (422, 422, 1, 218%Z); (423, 423, 1, 1%Z); (425, 425, 1, 218%Z);
   (428, 428, 1, 1%Z); (430, 430, 1, 218%Z); (431, 431, 1, 1%Z);
   (433, 434, 1, 217%Z); (435, 437, 2, 1%Z); (439, 439, 1, 219%Z);
   (440, 440, 1, 1%Z); (444, 444, 1, 1%Z); (452, 452, 1, 2%Z);
   (453, 453, 1, 1%Z); (455, 455, 1, 2%Z); (456, 456, 1, 1%Z);
   (458, 458, 1, 2%Z); (459, 475, 2, 1%Z); (478, 494, 2, 1%Z);
   (497, 497, 1, 2%Z); (498, 500, 2, 1%Z); (502, 502, 1, (-97)%Z);
   (503, 503, 1, (-56)%Z); (504, 542, 2, 1%Z); (544, 544, 1, (-130)%Z);
   (546, 562, 2, 1%Z); (570, 570, 1, 10795%Z); (571, 571, 1, 1%Z);
   (573, 573, 1, (-163)%Z); (574, 574, 1, 10792%Z); (577, 577, 1, 1%Z);
   (579, 579, 1, (-195)%Z); (580, 580, 1, 69%Z); (581, 581, 1, 71%Z);
   (582, 590, 2, 1%Z); (880, 882, 2, 1%Z); (886, 886, 1, 1%Z);
   (895, 895, 1, 116%Z); (902, 902, 1, 38%Z); (904, 906, 1, 37%Z);
   (908, 908, 1, 64%Z); (910, 911, 1, 63%Z); (913, 929, 1, 32%Z);
   (931, 939, 1, 32%Z); (975, 975, 1, 8%Z); (984, 1006, 2, 1%Z);
   (1012, 1012, 1, (-60)%Z); (1015, 1015, 1, 1%Z); (1017, 1017, 1, (-7)%Z);
   (1018, 1018, 1, 1%Z); (1021, 1023, 1, (-130)%Z); (1024, 1039, 1, 80%Z);
   (1040, 1071, 1, 32%Z); (1120, 1152, 2, 1%Z); (1162, 1214, 2, 1%Z);
   (1216, 1216, 1, 15%Z); (1217, 1229, 2, 1%Z); (1232, 1326, 2, 1%Z);
   (1329, 1366, 1, 48%Z); (4256, 4293, 1, 7264%Z); (4295, 4295, 1, 7264%Z);
   (4301, 4301, 1, 7264%Z); (5024, 5103, 1, 38864%Z); (5104, 5109, 1, 8%Z);
   (7312, 7354, 1, (-3008)%Z); (7357, 7359, 1, (-3008)%Z); (7680, 7828, 2, 1%Z);
   (7838, 7838, 1, (-7615)%Z); (7840, 7934, 2, 1%Z); (7944, 7951, 1, (-8)%Z);
   (7960, 7965, 1, (-8)%Z); (7976, 7983, 1, (-8)%Z); (7992, 7999, 1, (-8)%Z);
   (8008, 8013, 1, (-8)%Z); (8025, 8031, 2, (-8)%Z); (8040, 8047, 1, (-8)%Z);
   (8072, 8079, 1, (-8)%Z); (8088, 8095, 1, (-8)%Z); (8104, 8111, 1, (-8)%Z);
   (8120, 8121, 1, (-8)%Z); (8122, 8123, 1, (-74)%Z); (8124, 8124, 1, (-9)%Z);
   (8136, 8139, 1, (-86)%Z); (8140, 8140, 1, (-9)%Z); (8152, 8153, 1, (-8)%Z);
   (8154, 8155, 1, (-100)%Z); (8168, 8169, 1, (-8)%Z); (8170, 8171, 1, (-112)%Z);
   (8172, 8172, 1, (-7)%Z); (8184, 8185, 1, (-128)%Z); (8186, 8187, 1, (-126)%Z);
   (8188, 8188, 1, (-9)%Z); (8486, 8486, 1, (-7517)%Z); (8490, 8490, 1, (-8383)%Z);
   (8491, 8491, 1, (-8262)%Z); (8498, 8498, 1, 28%Z); (8544, 8559, 1, 16%Z);
   (8579, 8579, 1, 1%Z); (9398, 9423, 1, 26%Z); (11264, 11311, 1, 48%Z);
   (11360, 11360, 1, 1%Z); (11362, 11362, 1, (-10743)%Z); (11363, 11363, 1, (-3814)%Z);
   (11364, 11364, 1, (-10727)%Z); (11367, 11371, 2, 1%Z); (11373, 11373, 1, (-10780)%Z);
   (11374, 11374, 1, (-10749)%Z); (11375, 11375, 1, (-10783)%Z); (11376, 11376, 1, (-10782)%Z);
   (11378, 11378, 1, 1%Z); (11381, 11381, 1, 1%Z); (11390, 11391, 1, (-10815)%Z);
   (11392, 11490, 2, 1%Z); (11499, 11501, 2, 1%Z); (11506, 11506, 1, 1%Z);
   (42560, 42604, 2, 1%Z); (42624, 42650, 2, 1%Z); (42786, 42798, 2, 1%Z);
   (42802, 42862, 2, 1%Z); (42873, 42875, 2, 1%Z); (42877, 42877, 1, (-35332)%Z);
   (42878, 42886, 2, 1%Z); (42891, 42891, 1, 1%Z); (42893, 42893, 1, (-42280)%Z);
   (42896, 42898, 2, 1%Z); (42902, 42920, 2, 1%Z); (42922, 42922, 1, (-42308)%Z);
   (42923, 42923, 1, (-42319)%Z); (42924, 42924, 1, (-42315)%Z); (42925, 42925, 1, (-42305)%Z);
   (42926, 42926, 1, (-42308)%Z); (42928, 42928, 1, (-42258)%Z); (42929, 42929, 1, (-42282)%Z);
   (42930, 42930, 1, (-42261)%Z); (42931, 42931, 1, 928%Z); (42932, 42946, 2, 1%Z);
   (42948, 42948, 1, (-48)%Z); (42949, 42949, 1, (-42307)%Z); (42950, 42950, 1, (-35384)%Z);
   (42951, 42953, 2, 1%Z); (42960, 42960, 1, 1%Z); (42966, 42968, 2, 1%Z);
   (42997, 42997, 1, 1%Z); (65313, 65338, 1, 32%Z); (66560, 66599, 1, 40%Z);
   (66736, 66771, 1, 40%Z); (66928, 66938, 1, 39%Z); (66940, 66954, 1, 39%Z);
   (66956, 66962, 1, 39%Z); (66964, 66965, 1, 39%Z); (68736, 68786, 1, 64%Z);
   (71840, 71871, 1, 32%Z); (93760, 93791, 1, 32%Z); (125184, 125217, 1, 34%Z)
  ]%N.

(** The code point that [lower] changes to several. *)
Definition lower_expansions : list (N * list N) :=
  [
   (304, [105; 775])
  ]%N.

(** The code points for which [isspace] holds. *)
Definition space_ranges : list (N * N) :=
  [
   (9, 13); (28, 32); (133, 133); (160, 160); (5760, 5760);
   (8192, 8202); (8232, 8233); (8239, 8239); (8287, 8287); (12288, 12288)
  ]%N.

(** The cased code points. *)
Definition cased_ranges : list (N * N) :=
  [
   (65, 90); (97, 122); (170, 170); (181, 181); (186, 186);
   (192, 214); (216, 246); (248, 442); (444, 447); (452, 659);
   (661, 687); (880, 883); (886, 887); (891, 893); (895, 895);
   (902, 902); (904, 906); (908, 908); (910, 929); (931, 1013);
   (1015, 1153); (1162, 1327); (1329, 1366); (1376, 1416); (4256, 4293);
   (4295, 4295); (4301, 4301); (4304, 4346); (4349, 4351); (5024, 5109);
   (5112, 5117); (7296, 7304); (7312, 7354); (7357, 7359); (7424, 7467);
   (7531, 7543); (7545, 7578); (7680, 7957); (7960, 7965); (7968, 8005);
   (8008, 8013); (8016, 8023); (8025, 8025); (8027, 8027); (8029, 8029);
   (8031, 8061); (8064, 8116); (8118, 8124); (8126, 8126); (8130, 8132);
   (8134, 8140); (8144, 8147); (8150, 8155); (8160, 8172); (8178, 8180);
   (8182, 8188); (8450, 8450); (8455, 8455); (8458, 8467); (8469, 8469);
   (8473, 8477); (8484, 8484); (8486, 8486); (8488, 8488); (8490, 8493);
   (8495, 8500); (8505, 8505); (8508, 8511); (8517, 8521); (8526, 8526);
   (8544, 8575); (8579, 8580); (9398, 9449); (11264, 11387); (11390, 11492);
   (11499, 11502); (11506, 11507); (11520, 11557); (11559, 11559); (11565, 11565);
   (42560, 42605); (42624, 42651); (42786, 42863); (42865, 42887); (42891, 42894);
   (42896, 42954); (42960, 42961); (42963, 42963); (42965, 42969); (42997, 42998);
   (43002, 43002); (43824, 43866); (43872, 43880); (43888, 43967); (64256, 64262);
   (64275, 64279); (65313, 65338); (65345, 65370); (66560, 66639); (66736, 66771);
   (66776, 66811); (66928, 66938); (66940, 66954); (66956, 66962); (66964, 66965);
   (66967, 66977); (66979, 66993); (66995, 67001); (67003, 67004); (68736, 68786);
   (68800, 68850); (71840, 71903); (93760, 93823); (119808, 119892); (119894, 119964);
   (119966, 119967); (119970, 119970); (119973, 119974); (119977, 119980); (119982, 119993);
   (119995, 119995); (119997, 120003); (120005, 120069); (120071, 120074); (120077, 120084);
   (120086, 120092); (120094, 120121); (120123, 120126); (120128, 120132); (120134, 120134);
   (120138, 120144); (120146, 120485); (120488, 120512); (120514, 120538); (120540, 120570);
   (120572, 120596); (120598, 120628); (120630, 120654); (120656, 120686); (120688, 120712);
   (120714, 120744); (120746, 120770); (120772, 120779); (122624, 122633); (122635, 122654);
   (125184, 125251); (127280, 127305); (127312, 127337); (127344, 127369)
  ]%N.

(** The case-ignorable code points. *)
Definition ignorable_ranges : list (N * N) :=
  [
   (39, 39); (46, 46); (58, 58); (94, 94); (96, 96);
   (168, 168); (173, 173); (175, 175); (180, 180); (183, 184);
   (688, 879); (884, 885); (890, 890); (900, 901); (903, 903);
   (1155, 1161); (1369, 1369); (1375, 1375); (1425, 1469); (1471, 1471);
   (1473, 1474); (1476, 1477); (1479, 1479); (1524, 1524); (1536, 1541);
   (1552, 1562); (1564, 1564); (1600, 1600); (1611, 1631); (1648, 1648);
   (1750, 1757); (1759, 1768); (1770, 1773); (1807, 1807); (1809, 1809);
   (1840, 1866); (1958, 1968); (2027, 2037); (2042, 2042); (2045, 2045);
   (2070, 2093); (2137, 2139); (2184, 2184); (2192, 2193); (2200, 2207);
   (2249, 2306); (2362, 2362); (2364, 2364); (2369, 2376); (2381, 2381);
   (2385, 2391); (2402, 2403); (2417, 2417); (2433, 2433); (2492, 2492);
   (2497, 2500); (2509, 2509); (2530, 2531); (2558, 2558); (2561, 2562);
   (2620, 2620); (2625, 2626); (2631, 2632); (2635, 2637); (2641, 2641);
   (2672, 2673); (2677, 2677); (2689, 2690); (2748, 2748); (2753, 2757);
   (2759, 2760); (2765, 2765); (2786, 2787); (2810, 2815); (2817, 2817);
   (2876, 2876); (2879, 2879); (2881, 2884); (2893, 2893); (2901, 2902);
   (2914, 2915); (2946, 2946); (3008, 3008); (3021, 3021); (3072, 3072);
   (3076, 3076); (3132, 3132); (3134, 3136); (3142, 3144); (3146, 3149);
   (3157, 3158); (3170, 3171); (3201, 3201); (3260, 3260); (3263, 3263);
   (3270, 3270); (3276, 3277); (3298, 3299); (3328, 3329); (3387, 3388);
   (3393, 3396); (3405, 3405); (3426, 3427); (3457, 3457); (3530, 3530);
   (3538, 3540); (3542, 3542); (3633, 3633); (3636, 3642); (3654, 3662);
   (3761, 3761); (3764, 3772); (3782, 3782); (3784, 3789); (3864, 3865);
   (3893, 3893); (3895, 3895); (3897, 3897); (3953, 3966); (3968, 3972);
   (3974, 3975); (3981, 3991); (3993, 4028); (4038, 4038); (4141, 4144);
   (4146, 4151); (4153, 4154); (4157, 4158); (4184, 4185); (4190, 4192);
   (4209, 4212); (4226, 4226); (4229, 4230); (4237, 4237); (4253, 4253);
   (4348, 4348); (4957, 4959); (5906, 5908); (5938, 5939); (5970, 5971);
   (6002, 6003); (6068, 6069); (6071, 6077); (6086, 6086); (6089, 6099);
   (6103, 6103); (6109, 6109); (6155, 6159); (6211, 6211); (6277, 6278);
   (6313, 6313); (6432, 6434); (6439, 6440); (6450, 6450); (6457, 6459);
   (6679, 6680); (6683, 6683); (6742, 6742); (6744, 6750); (6752, 6752);
   (6754, 6754); (6757, 6764); (6771, 6780); (6783, 6783); (6823, 6823);
   (6832, 6862); (6912, 6915); (6964, 6964); (6966, 6970); (6972, 6972);
   (6978, 6978); (7019, 7027); (7040, 7041); (7074, 7077); (7080, 7081);
   (7083, 7085); (7142, 7142); (7144, 7145); (7149, 7149); (7151, 7153);
   (7212, 7219); (7222, 7223); (7288, 7293); (7376, 7378); (7380, 7392);
   (7394, 7400); (7405, 7405); (7412, 7412); (7416, 7417); (7468, 7530);
   (7544, 7544); (7579, 7679); (8125, 8125); (8127, 8129); (8141, 8143);
   (8157, 8159); (8173, 8175); (8189, 8190); (8203, 8207); (8216, 8217);
   (8228, 8228); (8231, 8231); (8234, 8238); (8288, 8292); (8294, 8303);
   (8305, 8305); (8319, 8319); (8336, 8348); (8400, 8432); (11388, 11389);
   (11503, 11505); (11631, 11631); (11647, 11647); (11744, 11775); (11823, 11823);
   (12293, 12293); (12330, 12333); (12337, 12341); (12347, 12347); (12441, 12446);
   (12540, 12542); (40981, 40981); (42232, 42237); (42508, 42508); (42607, 42610);
   (42612, 42621); (42623, 42623); (42652, 42655); (42736, 42737); (42752, 42785);
   (42864, 42864); (42888, 42890); (42994, 42996); (43000, 43001); (43010, 43010);
   (43014, 43014); (43019, 43019); (43045, 43046); (43052, 43052); (43204, 43205);
   (43232, 43249); (43263, 43263); (43302, 43309); (43335, 43345); (43392, 43394);
   (43443, 43443); (43446, 43449); (43452, 43453); (43471, 43471); (43493, 43494);
   (43561, 43566); (43569, 43570); (43573, 43574); (43587, 43587); (43596, 43596);
   (43632, 43632); (43644, 43644); (43696, 43696); (43698, 43700); (43703, 43704);
   (43710, 43711); (43713, 43713); (43741, 43741); (43756, 43757); (43763, 43764);
   (43766, 43766); (43867, 43871); (43881, 43883); (44005, 44005); (44008, 44008);
   (44013, 44013); (64286, 64286); (64434, 64450); (65024, 65039); (65043, 65043);
   (65056, 65071); (65106, 65106); (65109, 65109); (65279, 65279); (65287, 65287);
   (65294, 65294); (65306, 65306); (65342, 65342); (65344, 65344); (65392, 65392);
   (65438, 65439); (65507, 65507); (65529, 65531); (66045, 66045); (66272, 66272);
   (66422, 66426); (67456, 67461); (67463, 67504); (67506, 67514); (68097, 68099);
   (68101, 68102); (68108, 68111); (68152, 68154); (68159, 68159); (68325, 68326);
   (68900, 68903); (69291, 69292); (69446, 69456); (69506, 69509); (69633, 69633);
   (69688, 69702); (69744, 69744); (69747, 69748); (69759, 69761); (69811, 69814);
   (69817, 69818); (69821, 69821); (69826, 69826); (69837, 69837); (69888, 69890);
   (69927, 69931); (69933, 69940); (70003, 70003); (70016, 70017); (70070, 70078);
   (70089, 70092); (70095, 70095); (70191, 70193); (70196, 70196); (70198, 70199);
   (70206, 70206); (70367, 70367); (70371, 70378); (70400, 70401); (70459, 70460);
   (70464, 70464); (70502, 70508); (70512, 70516); (70712, 70719); (70722, 70724);
   (70726, 70726); (70750, 70750); (70835, 70840); (70842, 70842); (70847, 70848);
   (70850, 70851); (71090, 71093); (71100, 71101); (71103, 71104); (71132, 71133);
   (71219, 71226); (71229, 71229); (71231, 71232); (71339, 71339); (71341, 71341);
   (71344, 71349); (71351, 71351); (71453, 71455); (71458, 71461); (71463, 71467);
   (71727, 71735); (71737, 71738); (71995, 71996); (71998, 71998); (72003, 72003);
   (72148, 72151); (72154, 72155); (72160, 72160); (72193, 72202); (72243, 72248);
   (72251, 72254); (72263, 72263); (72273, 72278); (72281, 72283); (72330, 72342);
   (72344, 72345); (72752, 72758); (72760, 72765); (72767, 72767); (72850, 72871);
   (72874, 72880); (72882, 72883); (72885, 72886); (73009, 73014); (73018, 73018);
   (73020, 73021); (73023, 73029); (73031, 73031); (73104, 73105); (73109, 73109);
   (73111, 73111); (73459, 73460); (78896, 78904); (92912, 92916); (92976, 92982);
   (92992, 92995); (94031, 94031); (94095, 94111); (94176, 94177); (94179, 94180);
   (110576, 110579); (110581, 110587); (110589, 110590); (113821, 113822); (113824, 113827);
   (118528, 118573); (118576, 118598); (119143, 119145); (119155, 119170); (119173, 119179);
   (119210, 119213); (119362, 119364); (121344, 121398); (121403, 121452); (121461, 121461);
   (121476, 121476); (121499, 121503); (121505, 121519); (122880, 122886); (122888, 122904);
   (122907, 122913); (122915, 122916); (122918, 122922); (123184, 123197); (123566, 123566);
   (123628, 123631); (125136, 125142); (125252, 125259); (127995, 127999); (917505, 917505);
   (917536, 917631); (917760, 917999)
  ]%N.

Definition mapped (shifts : list Shift) (expansions : list (N * list N))
    (n : N) : list N :=
  match expansion expansions n with
  | Some l => l
  | None =>
      match shifted shifts n with
      | Some m => [m]
      | None => [n]
      end
  end.

(** What [upper] makes of one code point. *)
Definition to_upper (n : N) : list N :=
  (if n <? 128 then [if (97 <=? n) && (n <=? 122) then n - 32 else n]
   else mapped upper_shifts upper_expansions n)%N.

(** What [lower] makes of one code point, the capital sigma apart. *)
Definition to_lower (n : N) : list N :=
  (if n <? 128 then [if (65 <=? n) && (n <=? 90) then n + 32 else n]
   else mapped lower_shifts lower_expansions n)%N.

(** [c.isspace()] for a code point. *)
Definition isspace (n : N) : bool := within space_ranges n.

Definition cased (n : N) : bool := within cased_ranges n.
Definition ignorable (n : N) : bool := within ignorable_ranges n.

(** The first code point that is not case-ignorable is a cased one. *)
Fixpoint cased_next (l : list N) : bool :=
  match l with
  | [] => false
  | n :: l' => if ignorable n then cased_next l' else cased n
  end.

(** A capital sigma is lower-cased to the final sigma when a cased
    letter comes before it and none after it, case-ignorable code
    points apart; [before] is what precedes it, nearest first. *)
Definition sigma (before after : list N) : N :=
  (if cased_next before && negb (cased_next after) then 962 else 963)%N.

Fixpoint lower_points (before l : list N) : list N :=
  match l with
  | [] => []
  | n :: l' =>
      (if (n =? 931)%N then [sigma before l'] else to_lower n)
      ++ lower_points (n :: before) l'
  end.

(** [s.upper()] and [s.lower()]. *)
Definition upper (s : string) : string :=
  encode (flat_map to_upper (decode s)).
Definition lower (s : string) : string :=
  encode (lower_points [] (decode s)).

Fixpoint lstrip_points (l : list N) : list N :=
  match l with
  | [] => []
  | n :: l' => if isspace n then lstrip_points l' else l
  end.

Fixpoint rstrip_points (l : list N) : list N :=
  match l with
  | [] => []
  | n :: l' =>
      match rstrip_points l' with
      | [] => if isspace n then [] else [n]
      | r => n :: r
      end
  end.

(** [s.strip()]: the whitespace at the two ends is dropped. *)
Definition strip (s : string) : string :=
  encode (rstrip_points (lstrip_points (decode s))).

(** [sep.join(parts)]. *)
Definition join (sep : string) (parts : list string) : string :=
  String.concat sep parts.

(** [needle in s] for strings: [needle] occurs in [s] as a substring. *)
Fixpoint contains (needle s : string) : bool :=
  prefix needle s ||
  match s with
  | EmptyString => false
  | String _ s' => contains needle s'
  end.

(** [x in xs] for a list of strings. *)
Definition mem (x : string) (xs : list string) : bool :=
  existsb (String.eqb x) xs.

(** [str(n)] for an integer. *)
Definition of_Z (z : Z) : string := NilZero.string_of_int (Z.to_int z).

(** [repr] of a list of plain strings, as an f-string prints it. *)
Definition repr_list (xs : list string) : string :=
  "[" ++ join ", " (map (fun x => "'" ++ x ++ "'") xs) ++ "]".

(** Truthiness of an [Optional[str]]. *)
Definition truthy (o : option string) : bool :=
  match o with
  | Some (String _ _) => true
  | _ => false
  end.

(** An [Optional[str]] inside an f-string. *)
Definition fmt_opt (o : option string) : string :=
  match o with
  | Some s => s
  | None => "None"
  end.

End PyStr.

Module PyFloat.

Definition prec : Z := 53.
Definition emax : Z := 1024.

(** A binary64 number. *)
Definition float : Type := spec_float.

(** The float nearest to an integer. *)
Definition of_Z (z : Z) : float := binary_normalize prec emax z 0 false.

(** [a / b] on Python integers with [b <> 0]: the correctly rounded
    quotient. *)
Definition int_truediv (a b : Z) : float :=
  match a, b with
  | Z0, _ => S754_zero false
  | _, Z0 => S754_nan
  | _, _ =>
      SFdiv prec emax
        (S754_finite (a <? 0)%Z (Z.to_pos (Z.abs a)) 0)
        (S754_finite (b <? 0)%Z (Z.to_pos (Z.abs b)) 0)
  end.

(** [x * n] for a float and a Python integer. *)
Definition mul_int (x : float) (n : Z) : float :=
  SFmul prec emax x (of_Z n).

(** The integer nearest to [m * 2^e], ties to the even one. *)
Definition round_half_even (m e : Z) : Z :=
  match e with
  | Zneg p =>
      let d := Z.pow_pos 2 p in
      let q := (m / d)%Z in
      let r := (m mod d)%Z in
      match (2 * r ?= d)%Z with
      | Lt => q
      | Gt => (q + 1)%Z
      | Eq => if Z.even q then q else (q + 1)%Z
      end
  | _ => (m * 2 ^ e)%Z
  end.

(** [round(x, 2)]: the decimal with two places nearest to [x] (ties to
    even), read back as the nearest float. *)
Definition round2 (x : float) : float :=
  match x with
  | S754_finite s m e =>
      match round_half_even (Zpos m * 100) e with
      | Zpos n => SFdiv prec emax (S754_finite s n 0) (S754_finite false 100 0)
      | _ => S754_zero s
      end
  | _ => x
  end.

(** The literal [0.1]. *)
Definition f0_1 : float := Eval vm_compute in int_truediv 1 10.

End PyFloat.

(** A Python number: the program produces both [int] and [float]. *)
Inductive PyNum :=
| PyInt (z : Z)
| PyFlt (f : PyFloat.float).

(* ================================================================== *)
(** * Data model *)
(* ================================================================== *)

(** A value read from a CSV cell (a string or a number, as pandas found
    it), seen through the two conversions the program applies to it. *)
Record Cell := mkCell {
  py_str : string;                        (* str(v) *)
  py_float : Result PyFloat.float         (* float(v) *)
}.

(** A CSV row restricted to the required columns; [None] is a missing
    value (NaN). *)
Record RawRow := mkRawRow {
  raw_IdVehicleType : option Cell;
  raw_Brand : option Cell;
  raw_Model : option Cell;
  raw_TheoricalConsumption : option Cell;
  raw_IdCompany : option Cell;
  raw_IdFuelMaster : option Cell;
  raw_VolumeLimit : option Cell
}.

(** A row that survived [dropna]: the vehicle record. *)
Record Row := mkRow {
  IdVehicleType : Cell;
  Brand : Cell;
  Model : Cell;
  TheoricalConsumption : Cell;
  IdCompany : Cell;
  IdFuelMaster : Cell;
  VolumeLimit : Cell
}.

Record DataFrame := mkDataFrame {
  columns : list string;
  rows : list RawRow
}.

Definition Timestamp : Type := string.

Record ProcessedEntry := mkProcessedEntry {
  pe_id : string;
  pe_data : Row;
  processed_at : Timestamp
}.

(** The JSON object of the processed ledger; a key may be absent. *)
Record ProcessedData := mkProcessedData {
  processed_ids : option (list string);
  records : option (list ProcessedEntry)
}.

Record FailedEntry := mkFailedEntry {
  fe_id : string;
  fe_data : Row;
  fe_error : string;
  failed_at : Timestamp
}.

(** The JSON object of the failed ledger. *)
Record FailedData := mkFailedData {
  failed_records : option (list FailedEntry)
}.

(** What is at a path: nothing, something that cannot be read as the
    expected structure (reading raises [e]), or the structure. *)
Inductive File (A : Type) :=
| Absent
| Unreadable (e : Exn)
| Parsed (a : A).
Arguments Absent {A}.
Arguments Unreadable {A} e.
Arguments Parsed {A} a.

Record Files := mkFiles {
  csv_path : string;
  csv_file : File DataFrame;
  processed_file : File ProcessedData;
  failed_file : File FailedData
}.

Definition set_processed_file (p : File ProcessedData) (fs : Files) : Files :=
  mkFiles (csv_path fs) (csv_file fs) p (failed_file fs).

Definition set_failed_file (f : File FailedData) (fs : Files) : Files :=
  mkFiles (csv_path fs) (csv_file fs) (processed_file fs) f.

(** The wire record posted to the remote API. *)
Record FuelMaster := mkFuelMaster {
  fm_IdFuelMaster : Cell;
  fm_VolumeLimit : PyFloat.float
}.

Record WireRecord := mkWireRecord {
  w_IdVehicleType : Cell;
  w_Brand : Cell;
  w_Model : Cell;
  w_TheoricalConsumption : PyFloat.float;
  w_IdCompany : Cell;
  w_VehiclesClassesFuelsMaster : list FuelMaster
}.

Record Config := mkConfig {
  REQUEST_RETRIES : nat;
  BATCH_SIZE : nat
}.

(** [config.py] *)
Definition default_config : Config := mkConfig 3 10.

(* ================================================================== *)
(** * csv_processor.py *)
(* ================================================================== *)

Module CSVProcessor.

Definition required_columns : list string :=
  ["IdVehicleType"; "Brand"; "Model"; "TheoricalConsumption";
   "IdCompany"; "IdFuelMaster"; "VolumeLimit"].

(** One row under [df.dropna(subset=required_columns)]. *)
Definition notna (r : RawRow) : option Row :=
  match raw_IdVehicleType r, raw_Brand r, raw_Model r,
        raw_TheoricalConsumption r, raw_IdCompany r,
        raw_IdFuelMaster r, raw_VolumeLimit r with
  | Some a, Some b, Some c, Some d, Some e, Some f, Some g =>
      Some (mkRow a b c d e f g)
  | _, _, _, _, _, _, _ => None
  end.

Fixpoint dropna (rs : list RawRow) : list Row :=
  match rs with
  | [] => []
  | r :: rs' =>
      match notna r with
      | Some v => v :: dropna rs'
      | None => dropna rs'
      end
  end.

(** [load_csv_data]: the valid rows, or the exception it re-raises. *)
Definition load_csv_data (fs : Files) : Result (list Row) :=
  match csv_file fs with
  | Absent =>
      Raise (mkExn FileNotFoundError
               ("Archivo CSV no encontrado: " ++ csv_path fs))
  | Unreadable e => Raise e
  | Parsed df =>
      let missing_columns :=
        filter (fun col => negb (PyStr.mem col (columns df)))
               required_columns in
      match missing_columns with
      | _ :: _ =>
          Raise (mkExn ValueError
                   ("Columnas faltantes en el CSV: "
                    ++ PyStr.repr_list missing_columns))
      | [] => Ok (dropna (rows df))
      end
  end.

(** [get_processed_records]: any exception inside is swallowed. *)
Definition get_processed_records (fs : Files) : list string :=
  match processed_file fs with
  | Parsed data =>
      match processed_ids data with
      | Some ids => ids
      | None => []
      end
  | Absent => []
  | Unreadable _ => []
  end.

(** The body of the [try] in [save_processed_record]: the data that is
    written back, or the exception that skips the write. *)
Definition save_processed_body
    (now : Timestamp) (record_id : string) (record_data : Row)
    (fs : Files) : Result ProcessedData :=
  match
    match processed_file fs with
    | Absent => Ok (mkProcessedData (Some []) (Some []))
    | Unreadable e => Raise e
    | Parsed data => Ok data
    end
  with
  | Raise e => Raise e
  | Ok processed_data =>
      match processed_ids processed_data with
      | None => Raise (mkExn KeyError "'processed_ids'")
      | Some ids =>
          if negb (PyStr.mem record_id ids) then
            match records processed_data with
            | None => Raise (mkExn KeyError "'records'")
            | Some recs =>
                Ok (mkProcessedData
                      (Some (ids ++ [record_id])%list)
                      (Some (recs ++
                             [mkProcessedEntry record_id record_data now])%list))
            end
          else Ok processed_data
      end
  end.

(** [save_processed_record]; [now] is [pd.Timestamp.now().isoformat()]. *)
Definition save_processed_record
    (now : Timestamp) (record_id : string) (record_data : Row)
    (fs : Files) : Files :=
  match save_processed_body now record_id record_data fs with
  | Ok processed_data => set_processed_file (Parsed processed_data) fs
  | Raise _ => fs
  end.

Definition save_failed_body
    (now : Timestamp) (record_id : string) (record_data : Row)
    (error_message : string) (fs : Files) : Result FailedData :=
  match
    match failed_file fs with
    | Absent => Ok (mkFailedData (Some []))
    | Unreadable e => Raise e
    | Parsed data => Ok data
    end
  with
  | Raise e => Raise e
  | Ok failed_data =>
      match failed_records failed_data with
      | None => Raise (mkExn KeyError "'failed_records'")
      | Some l =>
          Ok (mkFailedData
                (Some (l ++ [mkFailedEntry record_id record_data
                               error_message now])%list))
      end
  end.

(** [save_failed_record] *)
Definition save_failed_record
    (now : Timestamp) (record_id : string) (record_data : Row)
    (error_message : string) (fs : Files) : Files :=
  match save_failed_body now record_id record_data error_message fs with
  | Ok failed_data => set_failed_file (Parsed failed_data) fs
  | Raise _ => fs
  end.

(** [create_record_id] *)
Definition create_record_id (row : Row) : string :=
  let key_fields :=
    [ py_str (IdVehicleType row);
      PyStr.upper (PyStr.strip (py_str (Brand row)));
      PyStr.upper (PyStr.strip (py_str (Model row)));
      py_str (IdCompany row);
      py_str (IdFuelMaster row) ] in
  PyStr.join "_" key_fields.

(** The loop of [get_unprocessed_records] over the rows of the frame. *)
Fixpoint unprocessed_loop (processed_ids : list string) (rows : list Row)
    : list (string * Row) :=
  match rows with
  | [] => []
  | row :: rest =>
      let record_id := create_record_id row in
      if negb (PyStr.mem record_id processed_ids)
      then (record_id, row) :: unprocessed_loop processed_ids rest
      else unprocessed_loop processed_ids rest
  end.

(** [get_unprocessed_records] *)
Definition get_unprocessed_records (fs : Files)
    : Result (list (string * Row)) :=
  match load_csv_data fs with
  | Raise e => Raise e
  | Ok df =>
      let processed_ids := get_processed_records fs in
      Ok (unprocessed_loop processed_ids df)
  end.

End CSVProcessor.

(* ================================================================== *)
(** * The outside world and the monad of effectful code *)
(* ================================================================== *)

(** What [requests.post] hands back. *)
Record Response := mkResponse {
  status_code : Z;
  text : string;
  json : Result string          (* response.json(): the value, as JSON *)
}.

(** The statement that called [time.sleep]. *)
Inductive SleepSite := Backoff | BetweenRecords | BetweenBatches.

Inductive Event :=
| EvPost (body : WireRecord)
| EvSleep (site : SleepSite) (secs : PyNum)
| EvBatch (batch_number total_batches size : nat)
| EvSaveProcessed (record_id : string)
| EvSaveFailed (record_id : string) (error_message : string).

Record World := mkWorld {
  files : Files;
  endpoint : nat -> WireRecord -> Result Response;  (* n-th POST *)
  posts : nat;                                      (* POSTs so far *)
  clock : nat -> Timestamp;                         (* n-th ledger write *)
  ticks : nat;                                      (* ledger writes so far *)
  trace : list Event                                (* oldest first *)
}.

(** A computation over a mutable state [S] that returns or raises; what
    it did to the state before raising stays done. *)
Definition Py (S A : Type) : Type := S -> Result A * S.

Definition ret {S A : Type} (a : A) : Py S A := fun s => (Ok a, s).

Definition raise {S A : Type} (e : Exn) : Py S A := fun s => (Raise e, s).

Definition bind {S A B : Type} (m : Py S A) (k : A -> Py S B) : Py S B :=
  fun s =>
    match m s with
    | (Ok a, s') => k a s'
    | (Raise e, s') => (Raise e, s')
    end.

(** [try: body / except Exception as e: handler e] *)
Definition try_except {S A : Type} (body : Py S A) (handler : Exn -> Py S A)
    : Py S A :=
  fun s =>
    match body s with
    | (Ok a, s') => (Ok a, s')
    | (Raise e, s') => handler e s'
    end.

Definition lift_result {S A : Type} (r : Result A) : Py S A :=
  fun s => (r, s).

Definition modify {S : Type} (f : S -> S) : Py S unit :=
  fun s => (Ok tt, f s).

(** Code acting on the world, run where a local summary is kept too. *)
Definition on_world {T A : Type} (m : Py World A) : Py (World * T) A :=
  fun st => let (r, w') := m (fst st) in (r, (w', snd st)).

Definition on_summary {T : Type} (f : T -> T) : Py (World * T) unit :=
  fun st => (Ok tt, (fst st, f (snd st))).

Declare Scope py_scope.
Delimit Scope py_scope with py.
Notation "x <- m ;; k" := (bind m (fun x => k))
  (at level 61, m at next level, right associativity) : py_scope.
Notation "m ;; k" := (bind m (fun _ => k))
  (at level 61, right associativity) : py_scope.

(** [for x in xs: body x] *)
Fixpoint for_each {S A : Type} (xs : list A) (body : A -> Py S unit)
    : Py S unit :=
  match xs with
  | [] => ret tt
  | x :: xs' => bind (body x) (fun _ => for_each xs' body)
  end.

(** A [for] loop whose body may [return r] ([Some r]) or go on to the
    next item ([None]). *)
Fixpoint for_return {S A R : Type} (xs : list A)
    (body : A -> Py S (option R)) : Py S (option R) :=
  match xs with
  | [] => ret None
  | x :: xs' =>
      bind (body x) (fun r =>
        match r with
        | Some v => ret (Some v)
        | None => for_return xs' body
        end)
  end.

Fixpoint range_from (fuel start stop step : nat) : list nat :=
  match fuel with
  | O => []
  | S fuel' =>
      if start <? stop
      then start :: range_from fuel' (start + step) stop step
      else []
  end.

(** [range(start, stop, step)] for a step that is not negative. *)
Definition py_range (start stop step : nat) : Result (list nat) :=
  match step with
  | O => Raise (mkExn ValueError "range() arg 3 must not be zero")
  | _ => Ok (range_from stop start stop step)
  end.

Definition emit (e : Event) : Py World unit :=
  modify (fun w =>
    mkWorld (files w) (endpoint w) (posts w) (clock w) (ticks w)
            (trace w ++ [e])).

(** [time.sleep(secs)] *)
Definition time_sleep (site : SleepSite) (secs : PyNum) : Py World unit :=
  emit (EvSleep site secs).

(** [requests.post(url, headers=..., json=body, timeout=...)] *)
Definition requests_post (body : WireRecord) : Py World Response :=
  fun w =>
    (endpoint w (posts w) body,
     mkWorld (files w) (endpoint w) (S (posts w)) (clock w) (ticks w)
             (trace w ++ [EvPost body])).

(** The ledger writes, as the orchestrator performs them. *)
Definition save_processed_record (record_id : string) (record_data : Row)
    : Py World unit :=
  modify (fun w =>
    mkWorld (CSVProcessor.save_processed_record
               (clock w (ticks w)) record_id record_data (files w))
            (endpoint w) (posts w) (clock w) (S (ticks w))
            (trace w ++ [EvSaveProcessed record_id])).

Definition save_failed_record (record_id : string) (record_data : Row)
    (error_message : string) : Py World unit :=
  modify (fun w =>
    mkWorld (CSVProcessor.save_failed_record
               (clock w (ticks w)) record_id record_data error_message
               (files w))
            (endpoint w) (posts w) (clock w) (S (ticks w))
            (trace w ++ [EvSaveFailed record_id error_message])).

Definition get_unprocessed_records : Py World (list (string * Row)) :=
  fun w => (CSVProcessor.get_unprocessed_records (files w), w).

(* ================================================================== *)
(** * ationet_service.py *)
(* ================================================================== *)

Module ATIONETService.

Local Open Scope py_scope.

(** The response of a successful call: what [response.json()] returned
    for the answer (any JSON value; for the body [null] that is
    Python's [None]), or the stand-in [{"status": "success"}]. In the
    triple below, [None] in the second place is the literal [None] of
    the failure returns. *)
Inductive ResponseData :=
| FromBody (data : string)
| StatusSuccess.

(** (éxito, respuesta, error) *)
Definition SendResult : Type :=
  (bool * option ResponseData * option string)%type.

(** One turn of the loop of [send_vehicle_data]: [Some r] returns [r],
    [None] goes on to the next attempt. *)
Definition attempt_body (retries : nat) (vehicle_data : WireRecord)
    (attempt : nat) : Py World (option SendResult) :=
  try_except
    (response <- requests_post vehicle_data ;;
     if ((status_code response =? 200) || (status_code response =? 201))%Z
     then
       try_except
         (response_data <- lift_result (json response) ;;
          ret (Some (true, Some (FromBody response_data), None)))
         (fun e =>
            match exn_class e with
            | JSONDecodeError => ret (Some (true, Some StatusSuccess, None))
            | _ => raise e
            end)
     else if (status_code response =? 409)%Z then
       let error_msg := "Datos duplicados o conflicto: " ++ text response in
       ret (Some (false, None, Some error_msg))
     else if (status_code response >=? 400)%Z then
       let error_msg :=
         "Error del cliente (" ++ PyStr.of_Z (status_code response) ++ "): "
         ++ text response in
       ret (Some (false, None, Some error_msg))
     else
       let error_msg :=
         "Error del servidor (" ++ PyStr.of_Z (status_code response) ++ "): "
         ++ text response in
       if attempt <? retries - 1 then
         let wait_time := (2 ^ Z.of_nat attempt)%Z in
         time_sleep Backoff (PyInt wait_time) ;;
         ret None
       else ret (Some (false, None, Some error_msg)))
    (fun e =>
       match exn_class e with
       | Timeout =>
           if attempt <? retries - 1 then
             time_sleep Backoff (PyInt (2 ^ Z.of_nat attempt)) ;;
             ret None
           else
             ret (Some (false, None,
                        Some "Timeout después de múltiples intentos"))
       | ConnectionError =>
           if attempt <? retries - 1 then
             time_sleep Backoff (PyInt (2 ^ Z.of_nat attempt)) ;;
             ret None
           else
             ret (Some (false, None,
                        Some "Error de conexión después de múltiples intentos"))
       | _ =>
           ret (Some (false, None, Some ("Error inesperado: " ++ exn_msg e)))
       end).

(** [send_vehicle_data] *)
Definition send_vehicle_data (retries : nat) (vehicle_data : WireRecord)
    : Py World SendResult :=
  r <- for_return (seq 0 retries) (attempt_body retries vehicle_data) ;;
  match r with
  | Some result => ret result
  | None => ret (false, None, Some "Error después de múltiples intentos")
  end.

(** [format_vehicle_data] *)
Definition format_vehicle_data (row_data : Row) : Result WireRecord :=
  match
    match py_float (TheoricalConsumption row_data) with
    | Raise e => Raise e
    | Ok theorical_consumption =>
        match py_float (VolumeLimit row_data) with
        | Raise e => Raise e
        | Ok volume_limit =>
            Ok (mkWireRecord
                  (IdVehicleType row_data) (Brand row_data) (Model row_data)
                  theorical_consumption (IdCompany row_data)
                  [mkFuelMaster (IdFuelMaster row_data) volume_limit])
        end
    end
  with
  | Ok formatted_data => Ok formatted_data
  | Raise e =>
      match exn_class e with
      | KeyError | ValueError =>
          Raise (mkExn ValueError
                   ("Error formateando datos de la fila: " ++ exn_msg e))
      | _ => Raise e
      end
  end.

End ATIONETService.

(* ================================================================== *)
(** * vehicle_processor.py *)
(* ================================================================== *)

Module VehicleDataProcessor.

Local Open Scope py_scope.

Record BatchSummary := mkBatchSummary {
  b_processed_successfully : nat;
  b_failed_records : nat;
  b_skipped_duplicates : nat;
  b_errors : list string
}.

Record Summary := mkSummary {
  total_records : nat;
  processed_successfully : nat;
  failed_records : nat;
  skipped_duplicates : nat;
  errors : list string
}.

Definition incr_processed (b : BatchSummary) : BatchSummary :=
  mkBatchSummary (b_processed_successfully b + 1) (b_failed_records b)
                 (b_skipped_duplicates b) (b_errors b).

Definition incr_failed (b : BatchSummary) : BatchSummary :=
  mkBatchSummary (b_processed_successfully b) (b_failed_records b + 1)
                 (b_skipped_duplicates b) (b_errors b).

Definition incr_skipped (b : BatchSummary) : BatchSummary :=
  mkBatchSummary (b_processed_successfully b) (b_failed_records b)
                 (b_skipped_duplicates b + 1) (b_errors b).

Definition append_error (msg : string) (b : BatchSummary) : BatchSummary :=
  mkBatchSummary (b_processed_successfully b) (b_failed_records b)
                 (b_skipped_duplicates b) (b_errors b ++ [msg])%list.

(** [error and ("duplicate" in error.lower() or "conflict" in
    error.lower() or "409" in error)] *)
Definition is_duplicate_error (error : option string) : bool :=
  PyStr.truthy error &&
  match error with
  | Some err =>
      PyStr.contains "duplicate" (PyStr.lower err)
      || PyStr.contains "conflict" (PyStr.lower err)
      || PyStr.contains "409" err
  | None => false
  end.

(** [error or "Error desconocido"] *)
Definition error_or_unknown (error : option string) : string :=
  if PyStr.truthy error then PyStr.fmt_opt error else "Error desconocido".

(** The body of the loop of [_process_batch], for one record. *)
Definition process_record (cfg : Config) (rec : string * Row)
    : Py (World * BatchSummary) unit :=
  let record_id := fst rec in
  let record_data := snd rec in
  try_except
    (formatted_data <-
       lift_result (ATIONETService.format_vehicle_data record_data) ;;
     sent <- on_world (ATIONETService.send_vehicle_data
                         (REQUEST_RETRIES cfg) formatted_data) ;;
     let success := fst (fst sent) in
     let error := snd sent in
     (if success then
        on_world (save_processed_record record_id record_data) ;;
        on_summary incr_processed
      else if is_duplicate_error error then
        on_summary incr_skipped ;;
        on_world (save_processed_record record_id record_data)
      else
        on_summary incr_failed ;;
        let error_msg :=
          "Error procesando " ++ record_id ++ ": " ++ PyStr.fmt_opt error in
        on_summary (append_error error_msg) ;;
        on_world (save_failed_record record_id record_data
                    (error_or_unknown error))) ;;
     on_world (time_sleep BetweenRecords (PyFlt PyFloat.f0_1)))
    (fun e =>
       let error_msg :=
         "Error inesperado procesando " ++ record_id ++ ": " ++ exn_msg e in
       on_summary (append_error error_msg) ;;
       on_summary incr_failed ;;
       on_world (save_failed_record record_id record_data (exn_msg e))).

Definition empty_batch_summary : BatchSummary := mkBatchSummary 0 0 0 [].

(** [_process_batch] *)
Definition process_batch (cfg : Config) (batch : list (string * Row))
    : Py World BatchSummary :=
  fun w =>
    let (r, st) := for_each batch (process_record cfg)
                            (w, empty_batch_summary) in
    match r with
    | Ok _ => (Ok (snd st), fst st)
    | Raise e => (Raise e, fst st)
    end.

Definition set_total (n : nat) (s : Summary) : Summary :=
  mkSummary n (processed_successfully s) (failed_records s)
            (skipped_duplicates s) (errors s).

(** The four updates of the run summary after a batch. *)
Definition add_batch (b : BatchSummary) (s : Summary) : Summary :=
  mkSummary (total_records s)
            (processed_successfully s + b_processed_successfully b)
            (failed_records s + b_failed_records b)
            (skipped_duplicates s + b_skipped_duplicates b)
            (errors s ++ b_errors b)%list.

Definition add_error (msg : string) (s : Summary) : Summary :=
  mkSummary (total_records s) (processed_successfully s) (failed_records s)
            (skipped_duplicates s) (errors s ++ [msg])%list.

(** One turn of the batch loop of [process_all_vehicles]. *)
Definition batch_turn (cfg : Config) (unprocessed_records : list (string * Row))
    (i : nat) : Py (World * Summary) unit :=
  let batch_size := BATCH_SIZE cfg in
  let batch := firstn batch_size (skipn i unprocessed_records) in
  let batch_number := i / batch_size + 1 in
  let total_batches :=
    (length unprocessed_records + batch_size - 1) / batch_size in
  on_world (emit (EvBatch batch_number total_batches (length batch))) ;;
  batch_summary <- on_world (process_batch cfg batch) ;;
  on_summary (add_batch batch_summary) ;;
  if i + batch_size <? length unprocessed_records
  then on_world (time_sleep BetweenBatches (PyInt 1))
  else ret tt.

Definition empty_summary : Summary := mkSummary 0 0 0 0 [].

Definition run_body (cfg : Config) : Py (World * Summary) unit :=
  try_except
    (unprocessed_records <- on_world get_unprocessed_records ;;
     on_summary (set_total (length unprocessed_records)) ;;
     match unprocessed_records with
     | [] => ret tt
     | _ :: _ =>
         indices <- lift_result
                      (py_range 0 (length unprocessed_records)
                                (BATCH_SIZE cfg)) ;;
         for_each indices (batch_turn cfg unprocessed_records)
     end)
    (fun e =>
       let error_msg := "Error en procesamiento general: " ++ exn_msg e in
       on_summary (add_error error_msg)).

(** [process_all_vehicles]: the summary it returns and the world it
    leaves. *)
Definition process_all_vehicles (cfg : Config) (w : World)
    : Summary * World :=
  let st := snd (run_body cfg (w, empty_summary)) in
  (snd st, fst st).

Record Status := mkStatus {
  st_error : option string;
  st_total_records : nat;
  st_processed_records : nat;
  st_pending_records : nat;
  st_completion_percentage : PyNum
}.

(** [round((processed_count / total_records * 100), 2) if total_records
    > 0 else 0] *)
Definition completion_percentage (processed_count total_records : nat)
    : PyNum :=
  if 0 <? total_records then
    PyFlt (PyFloat.round2
             (PyFloat.mul_int
                (PyFloat.int_truediv (Z.of_nat processed_count)
                                     (Z.of_nat total_records))
                100))
  else PyInt 0.

(** [get_processing_status] *)
Definition get_processing_status (fs : Files) : Status :=
  match
    match CSVProcessor.load_csv_data fs with
    | Raise e => Raise e
    | Ok df =>
        let total_records := length df in
        let processed_ids := CSVProcessor.get_processed_records fs in
        let processed_count := length processed_ids in
        match CSVProcessor.get_unprocessed_records fs with
        | Raise e => Raise e
        | Ok unprocessed_records =>
            let pending_count := length unprocessed_records in
            Ok (mkStatus None total_records processed_count pending_count
                  (completion_percentage processed_count total_records))
        end
    end
  with
  | Ok status => status
  | Raise e => mkStatus (Some (exn_msg e)) 0 0 0 (PyInt 0)
  end.

End VehicleDataProcessor.

(* ================================================================== *)
(** * Vocabulary of the properties *)
(* ================================================================== *)


(** Two texts of one length that differ at most where both have a byte
    outside ASCII. *)
Fixpoint alike (s t : string) : bool :=
  match s, t with
  | EmptyString, EmptyString => true
  | String a s', String b t' =>
      (Ascii.eqb a b
       || negb (PyStr.code a <? 128)%N && negb (PyStr.code b <? 128)%N)
      && alike s' t'
  | _, _ => false
  end.

(** All of these code points are ASCII. *)
Definition ascii_points (l : list N) : bool :=
  forallb (fun n => (n <? 128)%N) l.

(** Code points with no whitespace at either end. *)
Definition trimmed (cs : list N) : bool :=
  match cs with
  | [] => true
  | n :: _ => negb (PyStr.isspace n) && negb (PyStr.isspace (last cs n))
  end.


(** The CSV has every required column. *)
Definition has_required_columns (df : DataFrame) : Prop :=
  forall col, In col CSVProcessor.required_columns -> In col (columns df).

(** A CSV row with every required value present. *)
Definition raw_of (r : Row) : RawRow :=
  mkRawRow (Some (IdVehicleType r)) (Some (Brand r)) (Some (Model r))
           (Some (TheoricalConsumption r)) (Some (IdCompany r))
           (Some (IdFuelMaster r)) (Some (VolumeLimit r)).

(** The processed ledger can be read and written: the file is not there
    yet, or holds the object with its two lists. *)
Definition processed_ledger_ok (fs : Files) : Prop :=
  processed_file fs = Absent \/
  exists ids recs,
    processed_file fs = Parsed (mkProcessedData (Some ids) (Some recs)).

(** The entries of the processed ledger. *)
Definition processed_entries (fs : Files) : list ProcessedEntry :=
  match processed_file fs with
  | Parsed data =>
      match records data with
      | Some recs => recs
      | None => []
      end
  | _ => []
  end.

(** The same for the failed ledger. *)
Definition failed_ledger_ok (fs : Files) : Prop :=
  failed_file fs = Absent \/
  exists l, failed_file fs = Parsed (mkFailedData (Some l)).

Definition failed_entries (fs : Files) : list FailedEntry :=
  match failed_file fs with
  | Parsed data =>
      match failed_records data with
      | Some l => l
      | None => []
      end
  | _ => []
  end.

(** How many entries of the failed ledger are about [record_id]. *)
Definition failures_of (record_id : string) (fs : Files) : nat :=
  length (filter (fun e => String.eqb (fe_id e) record_id)
                 (failed_entries fs)).

(** The processed ledger is missing or damaged. *)
Definition processed_ledger_lost (fs : Files) : Prop :=
  processed_file fs = Absent \/ exists e, processed_file fs = Unreadable e.

(** Marking one id again and again, at any times and with any payloads. *)
Definition mark_many (record_id : string) (marks : list (Timestamp * Row))
    (fs : Files) : Files :=
  fold_left
    (fun acc m =>
       CSVProcessor.save_processed_record (fst m) record_id (snd m) acc)
    marks fs.

(** The outline of a run: where each batch opens, which record is
    settled (written to one of the ledgers), and the pauses between
    batches. *)
Inductive Mark :=
| MBatch (batch_number total_batches size : nat)
| MRecord (record_id : string)
| MPause (secs : PyNum).

Definition mark_of (e : Event) : list Mark :=
  match e with
  | EvBatch n t k => [MBatch n t k]
  | EvSaveProcessed record_id => [MRecord record_id]
  | EvSaveFailed record_id _ => [MRecord record_id]
  | EvSleep BetweenBatches secs => [MPause secs]
  | EvSleep _ _ => []
  | EvPost _ => []
  end.

Definition outline (tr : list Event) : list Mark := flat_map mark_of tr.


(** The backoff waits along a trace, in order. *)
Definition backoff_waits (tr : list Event) : list PyNum :=
  flat_map (fun e => match e with
                     | EvSleep Backoff secs => [secs]
                     | _ => []
                     end) tr.

Definition records_marks (batch : list (string * Row)) : list Mark :=
  map (fun rec => MRecord (fst rec)) batch.

(** The pauses between batches along a trace, in order. *)
Definition pauses (tr : list Event) : list PyNum :=
  flat_map (fun m => match m with MPause secs => [secs] | _ => [] end)
           (outline tr).

(** [w'] is [w] after some POSTs and backoff waits and nothing else: the
    files, the clock and the outline of the run are as they were. *)
Definition quiet (w w' : World) : Prop :=
  files w' = files w
  /\ endpoint w' = endpoint w
  /\ clock w' = clock w
  /\ ticks w' = ticks w
  /\ outline (trace w') = outline (trace w).

(** The world after a statement that cannot raise. *)
Definition after {A : Type} (m : Py World A) (w : World) : World :=
  snd (m w).

(** The slice [unprocessed_records[i:i + batch_size]]. *)
Definition batch_at (cfg : Config) (recs : list (string * Row)) (i : nat)
    : list (string * Row) :=
  firstn (BATCH_SIZE cfg) (skipn i recs).

(** What one turn of the batch loop adds to the outline. *)
Definition turn_marks (cfg : Config) (recs : list (string * Row)) (i : nat)
    : list Mark :=
  ([MBatch (i / BATCH_SIZE cfg + 1)
           ((length recs + BATCH_SIZE cfg - 1) / BATCH_SIZE cfg)
           (length (batch_at cfg recs i))]
   ++ records_marks (batch_at cfg recs i)
   ++ (if i + BATCH_SIZE cfg <? length recs
       then [MPause (PyInt 1)] else []))%list.

(** Records counted by a summary, under any of the three counters. *)
Definition b_counted (b : VehicleDataProcessor.BatchSummary) : nat :=
  VehicleDataProcessor.b_processed_successfully b
  + VehicleDataProcessor.b_failed_records b
  + VehicleDataProcessor.b_skipped_duplicates b.

Definition counted (s : VehicleDataProcessor.Summary) : nat :=
  VehicleDataProcessor.processed_successfully s
  + VehicleDataProcessor.failed_records s
  + VehicleDataProcessor.skipped_duplicates s.

(** ** Sample data *)

Module Sample.

Definition text_cell (s : string) : Cell :=
  mkCell s (Raise (mkExn ValueError
                     ("could not convert string to float: '" ++ s ++ "'"))).

Definition number_cell (s : string) (z : Z) : Cell :=
  mkCell s (Ok (PyFloat.of_Z z)).

Definition vehicle (t b m c f : string) : Row :=
  mkRow (text_cell t) (text_cell b) (text_cell m) (number_cell "12" 12)
        (text_cell c) (text_cell f) (number_cell "60" 60).

Definition ford_focus : Row := vehicle "T1" "ford" "Focus" "C1" "F1".
Definition FORD_FOCUS : Row := vehicle "T1" "FORD" "FOCUS" "C1" "F1".
Definition fiat_uno : Row := vehicle "T2" "Fiat" "Uno" "C1" "F1".


(** A row whose consumption is not a number. *)
Definition bad_number : Row :=
  mkRow (text_cell "T3") (text_cell "Seat") (text_cell "Ibiza")
        (text_cell "doce") (text_cell "C1") (text_cell "F1")
        (number_cell "60" 60).

Definition three_rows : DataFrame :=
  mkDataFrame CSVProcessor.required_columns
              [raw_of ford_focus; raw_of FORD_FOCUS; raw_of fiat_uno].

(** The CSV of the end-to-end scenario, and no ledger yet. *)
Definition fresh_files : Files :=
  mkFiles "clases_vehiculos.csv" (Parsed three_rows) Absent Absent.

(** The same CSV beside a processed ledger that cannot be parsed. *)
Definition damaged_files : Files :=
  mkFiles "clases_vehiculos.csv" (Parsed three_rows)
          (Unreadable (mkExn JSONDecodeError
                         "Expecting value: line 1 column 1 (char 0)"))
          Absent.

(** No CSV at all. *)
Definition no_csv : Files :=
  mkFiles "clases_vehiculos.csv" Absent Absent Absent.

Definition marked_files : Files :=
  CSVProcessor.save_processed_record
    "2024-05-01T10:00:00" "T2_FIAT_UNO_C1_F1" fiat_uno fresh_files.

Definition answer (code : Z) (body : string) : Result Response :=
  Ok (mkResponse code body (Ok body)).

(** HTTP 500 on the first two POSTs, HTTP 200 afterwards. *)
Definition down_twice (n : nat) (_ : WireRecord) : Result Response :=
  match n with
  | 0 | 1 => answer 500 "Internal Server Error"
  | _ => answer 200 "{}"
  end.

(** Two timeouts, then HTTP 200. *)
Definition slow_twice (n : nat) (_ : WireRecord) : Result Response :=
  match n with
  | 0 | 1 => Raise (mkExn Timeout "Read timed out.")
  | _ => answer 200 "{}"
  end.

(** The remote side already has every record. *)
Definition always_conflict (_ : nat) (_ : WireRecord) : Result Response :=
  answer 409 "already exists".

Definition always_ok (_ : nat) (_ : WireRecord) : Result Response :=
  answer 200 "{}".

Definition wall_clock (_ : nat) : Timestamp := "2024-05-01T10:00:00".

Definition world_of (fs : Files)
    (ep : nat -> WireRecord -> Result Response) : World :=
  mkWorld fs ep 0 wall_clock 0 [].

Definition wire : WireRecord :=
  mkWireRecord (text_cell "T1") (text_cell "ford") (text_cell "Focus")
               (PyFloat.of_Z 12) (text_cell "C1")
               [mkFuelMaster (text_cell "F1") (PyFloat.of_Z 60)].

(** Twenty-five different vehicles. *)
Definition fleet : list Row :=
  map (fun n => vehicle "T1" "Fiat" (PyStr.of_Z (Z.of_nat n)) "C1" "F1")
      (seq 1 25).

Definition fleet_files : Files :=
  mkFiles "clases_vehiculos.csv"
          (Parsed (mkDataFrame CSVProcessor.required_columns
                               (map raw_of fleet)))
          Absent Absent.

(** Ten vehicles, four of them already in the processed ledger. *)
Definition ten_rows : list Row := firstn 10 fleet.

Definition four_of_ten : Files :=
  mkFiles "clases_vehiculos.csv"
          (Parsed (mkDataFrame CSVProcessor.required_columns
                               (map raw_of ten_rows)))
          (Parsed (mkProcessedData
                     (Some (map CSVProcessor.create_record_id
                                (firstn 4 fleet)))
                     (Some [])))
          Absent.

(** A run with one rejected record, one row that cannot be formatted,
    and one record that goes through. *)
Definition mixed_files : Files :=
  mkFiles "clases_vehiculos.csv"
          (Parsed (mkDataFrame CSVProcessor.required_columns
                     [raw_of ford_focus; raw_of bad_number;
                      raw_of fiat_uno]))
          Absent Absent.

Definition reject_first (n : nat) (_ : WireRecord) : Result Response :=
  match n with
  | 0 => answer 400 "bad request"
  | _ => answer 200 "{}"
  end.

End Sample.

(* ================================================================== *)
(** * The rest of the program: construction and the web routes *)
(* ================================================================== *)

(** The scan of [s.replace(old, new)] for a non-empty [old]: [skip]
    counts the characters of a replaced occurrence still to pass. *)
Fixpoint replace_from (old new : string) (skip : nat) (s : string)
    : string :=
  match s with
  | EmptyString => EmptyString
  | String c s' =>
      match skip with
      | S k => replace_from old new k s'
      | O =>
          if prefix old s
          then new ++ replace_from old new (String.length old - 1) s'
          else String c (replace_from old new 0 s')
      end
  end.

(** [s.replace(old, new)], [old] not empty: every occurrence, from the
    left, without overlap. *)
Definition str_replace (old new s : string) : string :=
  replace_from old new 0 s.

(** [lines[-n:]] *)
Definition py_last {A : Type} (n : nat) (l : list A) : list A :=
  skipn (length l - n) l.

(** The three paths of a [CSVProcessor]. *)
Record Paths := mkPaths {
  p_csv_path : string;
  p_processed_file : string;
  p_failed_file : string
}.

(** [CSVProcessor.__init__]; [csv_path] is the path it settles on (its
    argument, or the configured one). *)
Definition CSVProcessor_init (csv_path : string) : Paths :=
  mkPaths csv_path
          (str_replace ".csv" "_processed.json" csv_path)
          (str_replace ".csv" "_failed.json" csv_path).

(** [config.py], the constants of the service. *)
Definition ATIONET_BASE_URL : string := "https://api-beta.ationet.com".
Definition ATIONET_ENDPOINT : string := "/VehiclesClass/".
Definition REQUEST_TIMEOUT : Z := 30.

Record Service := mkService {
  base_url : string;
  service_endpoint : string;
  token : string;
  timeout : Z;
  retries : nat;
  headers : list (string * string)
}.

(** [ATIONETService.__init__]; [env_token] is [Config.ATIONET_TOKEN]. *)
Definition ATIONETService_init (env_token : option string)
    : Result Service :=
  if negb (PyStr.truthy env_token) then
    Raise (mkExn ValueError
             "ATIONET_TOKEN no encontrado en las variables de entorno")
  else
    Ok (mkService ATIONET_BASE_URL ATIONET_ENDPOINT
                  (PyStr.fmt_opt env_token) REQUEST_TIMEOUT
                  (REQUEST_RETRIES default_config)
                  [("Authorization", "Bearer " ++ PyStr.fmt_opt env_token);
                   ("Content-Type", "application/json");
                   ("Accept", "application/json")]).

(** [VehicleDataProcessor.__init__]: the service (whose construction
    may raise), and the retries and batch size the processor works
    with; the [CSVProcessor] it also builds is given above. *)
Definition VehicleDataProcessor_init (env_token : option string)
    : Result (Service * Config) :=
  match ATIONETService_init env_token with
  | Raise e => Raise e
  | Ok service =>
      Ok (service, mkConfig (retries service) (BATCH_SIZE default_config))
  end.

(** A Python string as a cell value; [float] of it raises (the strings
    used this way are not numerals). *)
Definition text_value (s : string) : Cell :=
  mkCell s (Raise (mkExn ValueError
                     ("could not convert string to float: '" ++ s ++ "'"))).

Module App.

(** What a route returns: the JSON body and the HTTP status. *)
Inductive Body (A : Type) :=
| Json (a : A)
| JsonError (msg : string).
Arguments Json {A} a.
Arguments JsonError {A} msg.

(** [get_status] *)
Definition get_status (env_token : option string) (fs : Files)
    : Body VehicleDataProcessor.Status * Z :=
  match VehicleDataProcessor_init env_token with
  | Ok _ => (Json (VehicleDataProcessor.get_processing_status fs), 200%Z)
  | Raise e => (JsonError (exn_msg e), 500%Z)
  end.

(** [process_vehicles] *)
Definition process_vehicles (env_token : option string) (w : World)
    : (Body VehicleDataProcessor.Summary * Z) * World :=
  match VehicleDataProcessor_init env_token with
  | Ok processor =>
      let out := VehicleDataProcessor.process_all_vehicles (snd processor) w in
      ((Json (fst out), 200%Z), snd out)
  | Raise e => ((JsonError (exn_msg e), 500%Z), w)
  end.

(** [get_logs]: the body's list of log lines (the status is 200 on
    both paths); the argument is the log file as [readlines] gives it. *)
Definition get_logs (log_file : File (list string)) : list string :=
  match log_file with
  | Absent => []
  | Unreadable e => ["Error cargando logs: " ++ exn_msg e]
  | Parsed lines =>
      map PyStr.strip
          (filter (fun line => PyStr.truthy (Some (PyStr.strip line)))
                  (py_last 50 lines))
  end.

Record ConnectionTest := mkConnectionTest {
  connection_test : bool;
  ct_success : option bool;
  ct_response : option ATIONETService.ResponseData;
  ct_error : option string;
  token_configured : bool
}.

Definition test_data : WireRecord :=
  mkWireRecord (text_value "test-id") (text_value "TEST")
               (text_value "TEST") (PyFloat.of_Z 10)
               (text_value "test-company-id")
               [mkFuelMaster (text_value "test-fuel-id") (PyFloat.of_Z 50)].

(** [test_connection] *)
Definition test_connection (env_token : option string) (w : World)
    : (ConnectionTest * Z) * World :=
  match ATIONETService_init env_token with
  | Raise e =>
      ((mkConnectionTest false None None (Some (exn_msg e))
                         (PyStr.truthy env_token), 500%Z), w)
  | Ok service =>
      match ATIONETService.send_vehicle_data (retries service) test_data w
      with
      | (Ok sent, w') =>
          ((mkConnectionTest true (Some (fst (fst sent))) (snd (fst sent))
                             (snd sent) (PyStr.truthy env_token), 200%Z),
           w')
      | (Raise e, w') =>
          ((mkConnectionTest false None None (Some (exn_msg e))
                             (PyStr.truthy env_token), 500%Z), w')
      end
  end.

End App.

(* ================================================================== *)
(** * More vocabulary *)
(* ================================================================== *)

(** A CSV row with none of the required values missing. *)
Definition complete (r : RawRow) : bool :=
  match CSVProcessor.notna r with
  | Some _ => true
  | None => false
  end.

(** The ids of the processed ledger and its entries are in step, and no
    id is there twice. *)
Definition ledger_aligned (fs : Files) : Prop :=
  processed_file fs = Absent \/
  exists ids recs,
    processed_file fs = Parsed (mkProcessedData (Some ids) (Some recs))
    /\ map pe_id recs = ids
    /\ NoDup ids.

(** Across some steps the CSV is the same, a usable processed ledger
    stays usable, and no processed id is lost. *)
Definition grown (fs fs' : Files) : Prop :=
  csv_path fs' = csv_path fs
  /\ csv_file fs' = csv_file fs
  /\ (processed_ledger_ok fs -> processed_ledger_ok fs')
  /\ (forall x, In x (CSVProcessor.get_processed_records fs) ->
                In x (CSVProcessor.get_processed_records fs')).

(** The waits 2^a, 2^(a+1), ... ([k] of them). *)
Definition backoff_series (a k : nat) : list PyNum :=
  map (fun i => PyInt (2 ^ Z.of_nat i)) (seq a k).

(** What [k] attempts in a row leave in the trace, the first of them
    being attempt number [a]: a POST each, and after each POST but the
    last the wait 2^a, 2^(a+1), ... *)
Fixpoint attempts_trace (p : WireRecord) (a k : nat) : list Event :=
  match k with
  | 0 => []
  | S k' =>
      EvPost p
      :: match k' with
         | 0 => []
         | S _ =>
             EvSleep Backoff (PyInt (2 ^ Z.of_nat a))
             :: attempts_trace p (S a) k'
         end
  end.

(** The answers after which [send_vehicle_data] goes on to another
    attempt when one is left: a timeout, a connection error, and a
    status below 400 other than 200, 201 and 409. *)
Definition retryable (r : Result Response) : bool :=
  match r with
  | Ok resp =>
      negb ((status_code resp =? 200) || (status_code resp =? 201))%Z
      && negb (status_code resp =? 409)%Z
      && negb (status_code resp >=? 400)%Z
  | Raise e =>
      match exn_class e with
      | Timeout | ConnectionError => true
      | _ => false
      end
  end.

(** A 200 or 201 answer. *)
Definition accepted (r : Result Response) : bool :=
  match r with
  | Ok resp => ((status_code resp =? 200) || (status_code resp =? 201))%Z
  | Raise _ => false
  end.

(** The POSTs along a trace. *)
Definition posted (tr : list Event) : list WireRecord :=
  flat_map (fun e => match e with EvPost p => [p] | _ => [] end) tr.

(** The batches opened along a trace, in order. *)
Definition batches_opened (tr : list Event) : list Mark :=
  filter (fun m => match m with MBatch _ _ _ => true | _ => false end)
         (outline tr).

(** The number of batches for [n] records in batches of [size]. *)
Definition batch_count (n size : nat) : nat := (n + size - 1) / size.

Module Sample2.

(** Three timeouts in a row. *)
Definition always_timeout (_ : nat) (_ : WireRecord) : Result Response :=
  Raise (mkExn Timeout "Read timed out.").

(** The no-break space U+00A0, in UTF-8. *)
Definition nbsp : string := String "194" (String "160" "").

(** A line as [readlines] gives it, with its newline. *)
Definition log_line (s : string) : string := s ++ String "010" "".

(** A log of 52 lines: two old ones, then 47 that hold a no-break space
    and nothing else, a line, an empty line, and a line with blanks
    before it and blanks and a no-break space after it. *)
Definition long_log : list string :=
  ([log_line "2024-04-30 23:59:58 - app - INFO - old";
    log_line "2024-04-30 23:59:59 - app - INFO - older"]
   ++ repeat (log_line nbsp) 47
   ++ [log_line "2024-05-01 10:00:00 - app - INFO - start";
       log_line "";
       log_line ("   2024-05-01 10:00:01 - app - INFO - done  " ++ nbsp)%string]
  )%list.

(** Seven vehicles, for batches of three. *)
Definition small_fleet_files : Files :=
  mkFiles "clases_vehiculos.csv"
          (Parsed (mkDataFrame CSVProcessor.required_columns
                               (map raw_of (firstn 7 Sample.fleet))))
          Absent Absent.

(** A CSV without the Brand and VolumeLimit columns. *)
Definition short_csv : Files :=
  mkFiles "clases_vehiculos.csv"
          (Parsed (mkDataFrame
                     ["IdVehicleType"; "Model"; "TheoricalConsumption";
                      "IdCompany"; "IdFuelMaster"]
                     []))
          Absent Absent.

(** A row without a Brand between two complete rows. *)
Definition gap_row : RawRow :=
  mkRawRow (Some (Sample.text_cell "T9")) None
           (Some (Sample.text_cell "Uno"))
           (Some (Sample.number_cell "12" 12))
           (Some (Sample.text_cell "C1")) (Some (Sample.text_cell "F1"))
           (Some (Sample.number_cell "60" 60)).

End Sample2.

(* ================================================================== *)
(** * Strings *)
(* ================================================================== *)

Unset Implicit Arguments.


Lemma decode_ascii_cons (c : ascii) (s : string) :
  (PyStr.code c <? 128)%N = true ->
  PyStr.decode (String c s) = PyStr.code c :: PyStr.decode s.
Proof. intros H. cbn [PyStr.decode]. rewrite H. reflexivity. Qed.

Lemma decode_ascii (s : string) :
  PyStr.isascii s = true -> ascii_points (PyStr.decode s) = true.
Proof.
  induction s as [| c s IH]; intros H; [reflexivity |].
  cbn [PyStr.isascii] in H. apply andb_prop in H. destruct H as [Hc Hs].
  rewrite (decode_ascii_cons c s Hc). cbn [ascii_points forallb].
  rewrite Hc. exact (IH Hs).
Qed.

Lemma decode_app_ascii (a b : string) :
  PyStr.isascii a = true ->
  PyStr.decode (a ++ b) = (PyStr.decode a ++ PyStr.decode b)%list.
Proof.
  induction a as [| c a IH]; intros H; [reflexivity |].
  cbn [PyStr.isascii] in H. apply andb_prop in H. destruct H as [Hc Ha].
  change (String c a ++ b) with (String c (a ++ b)).
  rewrite !(decode_ascii_cons c _ Hc), (IH Ha). reflexivity.
Qed.

Lemma encode_app (l1 l2 : list N) :
  PyStr.encode (l1 ++ l2) = PyStr.encode l1 ++ PyStr.encode l2.
Proof.
  induction l1 as [| n l1 IH]; [reflexivity |].
  cbn [app PyStr.encode]. rewrite IH.
  generalize (PyStr.encode_point n). intros p.
  induction p as [| c p IHp]; [reflexivity |].
  cbn [append]. rewrite IHp. reflexivity.
Qed.




Lemma to_lower_not_sigma (n : N) :
  (n <? 128)%N = true -> (n =? 931)%N = false.
Proof.
  intros H. apply N.ltb_lt in H. apply N.eqb_neq. lia.
Qed.





(** ** Texts that differ outside ASCII only *)

Lemma alike_refl (s : string) : alike s s = true.
Proof.
  induction s as [| c s IH]; [reflexivity |].
  cbn [alike]. rewrite Ascii.eqb_refl, IH. reflexivity.
Qed.

Lemma alike_app (s t s' t' : string) :
  alike s t = true -> alike s' t' = true -> alike (s ++ s') (t ++ t') = true.
Proof.
  revert t. induction s as [| a s IH]; intros [| b t] H H';
    try discriminate H; [exact H' |].
  cbn [alike append] in *. apply andb_prop in H. destruct H as [Hh Ht].
  rewrite Hh, (IH t Ht H'). reflexivity.
Qed.

Lemma prefix_alike (needle s t : string) :
  PyStr.isascii needle = true -> alike s t = true ->
  prefix needle s = prefix needle t.
Proof.
  revert s t. induction needle as [| a needle IH]; intros s t Hn H.
  - destruct s, t; reflexivity.
  - cbn [PyStr.isascii] in Hn. apply andb_prop in Hn.
    destruct Hn as [Ha Hn].
    destruct s as [| x s], t as [| y t]; try discriminate H;
      [reflexivity |].
    cbn [alike] in H. apply andb_prop in H. destruct H as [Hh Ht].
    cbn [prefix]. rewrite (IH s t Hn Ht).
    apply orb_prop in Hh. destruct Hh as [Hh | Hh].
    + apply Ascii.eqb_eq in Hh. subst y. reflexivity.
    + apply andb_prop in Hh. destruct Hh as [Hx Hy].
      destruct (ascii_dec a x) as [-> | _];
        [rewrite Ha in Hx; discriminate Hx |].
      destruct (ascii_dec a y) as [-> | _];
        [rewrite Ha in Hy; discriminate Hy |].
      reflexivity.
Qed.

Lemma contains_alike (needle s t : string) :
  PyStr.isascii needle = true -> alike s t = true ->
  PyStr.contains needle s = PyStr.contains needle t.
Proof.
  intros Hn. revert t. induction s as [| x s IH]; intros [| y t] H;
    try discriminate H; [reflexivity |].
  cbn [PyStr.contains]. rewrite (prefix_alike _ _ _ Hn H).
  cbn [alike] in H. apply andb_prop in H. destruct H as [_ Ht].
  rewrite (IH t Ht). reflexivity.
Qed.

(** What comes before a text bears on its lower case at the capital
    sigmas only, and both forms of the small sigma lie outside ASCII. *)
Lemma lower_points_alike (l before before' : list N) :
  alike (PyStr.encode (PyStr.lower_points before l))
        (PyStr.encode (PyStr.lower_points before' l)) = true.
Proof.
  revert before before'. induction l as [| n l IH]; intros before before';
    [reflexivity |].
  cbn [PyStr.lower_points]. rewrite !encode_app.
  apply alike_app; [| apply IH].
  destruct (n =? 931)%N; [| apply alike_refl].
  unfold PyStr.sigma.
  destruct (PyStr.cased_next before && negb (PyStr.cased_next l));
    destruct (PyStr.cased_next before' && negb (PyStr.cased_next l));
    reflexivity.
Qed.

Lemma lower_points_app_ascii (l1 l2 before : list N) :
  ascii_points l1 = true ->
  PyStr.lower_points before (l1 ++ l2)
  = (PyStr.lower_points before l1
     ++ PyStr.lower_points (rev l1 ++ before) l2)%list.
Proof.
  revert before. induction l1 as [| n l1 IH]; intros before H;
    [reflexivity |].
  cbn [ascii_points forallb] in H. apply andb_prop in H.
  destruct H as [Hn Hl].
  cbn [app PyStr.lower_points rev].
  rewrite (to_lower_not_sigma n Hn), (IH _ Hl), <- !app_assoc.
  reflexivity.
Qed.

(** An ASCII needle found in the lower case of a text is found in the
    lower case of that text behind an ASCII prefix. *)
Lemma contains_lower_behind (needle a b : string) :
  PyStr.isascii needle = true -> PyStr.isascii a = true ->
  PyStr.contains needle (PyStr.lower b) = true ->
  exists rest,
    PyStr.lower (a ++ b) = PyStr.lower a ++ rest
    /\ PyStr.contains needle rest = true.
Proof.
  intros Hn Ha H. unfold PyStr.lower in *.
  rewrite (decode_app_ascii a b Ha).
  rewrite (lower_points_app_ascii _ _ [] (decode_ascii a Ha)), encode_app.
  eexists. split; [reflexivity |].
  rewrite <- H. apply contains_alike; [exact Hn |].
  apply lower_points_alike.
Qed.

Lemma lower_ascii_prefix (a b : string) :
  PyStr.isascii a = true ->
  exists rest, PyStr.lower (a ++ b) = PyStr.lower a ++ rest.
Proof.
  intros Ha. unfold PyStr.lower.
  rewrite (decode_app_ascii a b Ha).
  rewrite (lower_points_app_ascii _ _ [] (decode_ascii a Ha)), encode_app.
  eexists. reflexivity.
Qed.

Lemma append_assoc3 (a b c : string) : a ++ b ++ c = (a ++ b) ++ c.
Proof.
  induction a as [| x a IH]; [reflexivity |].
  cbn [append]. rewrite IH. reflexivity.
Qed.

Lemma isascii_app (a b : string) :
  PyStr.isascii a = true -> PyStr.isascii b = true ->
  PyStr.isascii (a ++ b) = true.
Proof.
  induction a as [| c a IH]; intros Ha Hb; [exact Hb |].
  cbn [PyStr.isascii append] in *. apply andb_prop in Ha.
  destruct Ha as [Hc Ha]. rewrite Hc, (IH Ha Hb). reflexivity.
Qed.

Lemma isascii_of_uint (d : Decimal.uint) :
  PyStr.isascii (NilEmpty.string_of_uint d) = true.
Proof.
  induction d; cbn [NilEmpty.string_of_uint PyStr.isascii];
    try rewrite IHd; reflexivity.
Qed.

Lemma isascii_of_uint0 (d : Decimal.uint) :
  PyStr.isascii (NilZero.string_of_uint d) = true.
Proof.
  destruct d; try apply isascii_of_uint. reflexivity.
Qed.

Lemma isascii_of_Z (z : Z) : PyStr.isascii (PyStr.of_Z z) = true.
Proof.
  unfold PyStr.of_Z, NilZero.string_of_int.
  destruct (Z.to_int z) as [d | d].
  - apply isascii_of_uint0.
  - cbn [PyStr.isascii]. rewrite isascii_of_uint0. reflexivity.
Qed.

(** ** Stripping *)

Lemma lstrip_points_spec (l : list N) :
  exists pre,
    l = (pre ++ PyStr.lstrip_points l)%list
    /\ forallb PyStr.isspace pre = true
    /\ match PyStr.lstrip_points l with
       | [] => True
       | n :: _ => PyStr.isspace n = false
       end.
Proof.
  induction l as [| n l [pre [Hl [Hpre Hhd]]]].
  - exists []. repeat split.
  - cbn [PyStr.lstrip_points]. destruct (PyStr.isspace n) eqn:Hn.
    + exists (n :: pre). cbn [app forallb]. rewrite <- Hl, Hn, Hpre.
      repeat split. exact Hhd.
    + exists []. repeat split. exact Hn.
Qed.

Lemma rstrip_points_cons (n : N) (l : list N) :
  PyStr.rstrip_points (n :: l)
  = match PyStr.rstrip_points l with
    | [] => if PyStr.isspace n then [] else [n]
    | r => n :: r
    end.
Proof. reflexivity. Qed.

Lemma last_cons_indep (m : N) (r : list N) (a b : N) :
  last (m :: r) a = last (m :: r) b.
Proof.
  revert m. induction r as [| x r IH]; intros m; [reflexivity |].
  change (last (x :: r) a = last (x :: r) b). apply IH.
Qed.

Lemma rstrip_points_spec (l : list N) :
  exists post,
    l = (PyStr.rstrip_points l ++ post)%list
    /\ forallb PyStr.isspace post = true
    /\ match PyStr.rstrip_points l with
       | [] => True
       | n :: r => PyStr.isspace (last (n :: r) n) = false
       end.
Proof.
  induction l as [| n l [post [Hl [Hpost Hlast]]]].
  - exists []. repeat split.
  - rewrite rstrip_points_cons.
    destruct (PyStr.rstrip_points l) as [| m r] eqn:Hr.
    + destruct (PyStr.isspace n) eqn:Hn.
      * exists (n :: post). cbn [app] in Hl. subst post.
        cbn [app forallb]. rewrite Hn, Hpost. repeat split.
      * exists post. cbn [app] in Hl. subst post.
        split; [reflexivity | split; [exact Hpost | exact Hn]].
    + exists post. split; [cbn [app] in *; rewrite <- Hl; reflexivity |].
      split; [exact Hpost |].
      change (last (n :: m :: r) n) with (last (m :: r) n).
      rewrite (last_cons_indep m r n m). exact Hlast.
Qed.

Lemma rstrip_points_head (n : N) (l : list N) :
  PyStr.isspace n = false ->
  exists r, PyStr.rstrip_points (n :: l) = n :: r.
Proof.
  intros Hn. rewrite rstrip_points_cons.
  destruct (PyStr.rstrip_points l); [rewrite Hn |]; eexists; reflexivity.
Qed.

(** What [strip] keeps of a text: its code points between the
    whitespace at its two ends. *)
Lemma strip_spec (s : string) :
  exists pre cs post,
    PyStr.decode s = (pre ++ cs ++ post)%list
    /\ forallb PyStr.isspace pre = true
    /\ forallb PyStr.isspace post = true
    /\ trimmed cs = true
    /\ PyStr.strip s = PyStr.encode cs.
Proof.
  unfold PyStr.strip.
  destruct (lstrip_points_spec (PyStr.decode s)) as [pre [Hl [Hpre Hhd]]].
  destruct (rstrip_points_spec (PyStr.lstrip_points (PyStr.decode s)))
    as [post [Hr [Hpost Hlast]]].
  exists pre, (PyStr.rstrip_points (PyStr.lstrip_points (PyStr.decode s))),
    post.
  split; [rewrite <- Hr; exact Hl |].
  split; [exact Hpre |]. split; [exact Hpost |].
  split; [| reflexivity].
  destruct (PyStr.lstrip_points (PyStr.decode s)) as [| n l] eqn:Hk;
    [reflexivity |].
  destruct (rstrip_points_head n l Hhd) as [r Hn].
  rewrite Hn in *. cbn [trimmed]. rewrite Hhd, Hlast. reflexivity.
Qed.

Set Implicit Arguments.

Lemma mem_In (x : string) (xs : list string) :
  PyStr.mem x xs = true <-> In x xs.
Proof.
  unfold PyStr.mem. rewrite existsb_exists. split.
  - intros [y [Hy Heq]]. apply String.eqb_eq in Heq. subst. exact Hy.
  - intros H. exists x. split; [exact H | apply String.eqb_refl].
Qed.

Lemma mem_app_last (x : string) (xs : list string) :
  PyStr.mem x (xs ++ [x]) = true.
Proof. apply mem_In, in_or_app. right. left. reflexivity. Qed.

Lemma contains_nonempty (needle s : string) :
  needle <> EmptyString -> PyStr.contains needle s = true ->
  s <> EmptyString.
Proof.
  intros Hn Hc ->. destruct needle; [congruence | discriminate].
Qed.


(* ================================================================== *)
(** * Record identity *)
(* ================================================================== *)





(* ================================================================== *)
(** * The processed ledger *)
(* ================================================================== *)

Lemma set_processed_same (fs : Files) (data : ProcessedData) :
  processed_file fs = Parsed data ->
  set_processed_file (Parsed data) fs = fs.
Proof. destruct fs; simpl; intros ->; reflexivity. Qed.

Lemma save_processed_present
    (fs : Files) (now : Timestamp) (rid : string) (data : Row) :
  In rid (CSVProcessor.get_processed_records fs) ->
  CSVProcessor.save_processed_record now rid data fs = fs.
Proof.
  unfold CSVProcessor.get_processed_records,
    CSVProcessor.save_processed_record, CSVProcessor.save_processed_body.
  destruct (processed_file fs) as [|e|pd] eqn:Hf; simpl;
    try contradiction.
  destruct (processed_ids pd) as [ids|]; simpl; try contradiction.
  intros Hin. apply mem_In in Hin. rewrite Hin. simpl.
  apply set_processed_same. exact Hf.
Qed.

(** After a call the id is in the ledger, or the call changed nothing
    and no later call for that id will. *)
Lemma save_processed_settles
    (fs : Files) (now : Timestamp) (rid : string) (data : Row) :
  In rid (CSVProcessor.get_processed_records
            (CSVProcessor.save_processed_record now rid data fs))
  \/ forall now' data',
       CSVProcessor.save_processed_record now' rid data' fs = fs.
Proof.
  unfold CSVProcessor.save_processed_record,
    CSVProcessor.save_processed_body.
  destruct (processed_file fs) as [|e|pd] eqn:Hf; simpl.
  - left. unfold CSVProcessor.get_processed_records. simpl. left.
    reflexivity.
  - right. intros. reflexivity.
  - destruct (processed_ids pd) as [ids|] eqn:Hi; simpl.
    + destruct (PyStr.mem rid ids) eqn:Hm; simpl.
      * left. unfold CSVProcessor.get_processed_records. simpl.
        rewrite Hi. apply mem_In. exact Hm.
      * destruct (records pd) as [recs|]; simpl.
        -- left. unfold CSVProcessor.get_processed_records. simpl.
           apply in_or_app. right. left. reflexivity.
        -- right. intros. reflexivity.
    + right. intros. reflexivity.
Qed.

Lemma save_processed_twice
    (fs : Files) (now now' : Timestamp) (rid : string) (data data' : Row) :
  CSVProcessor.save_processed_record now' rid data'
    (CSVProcessor.save_processed_record now rid data fs)
  = CSVProcessor.save_processed_record now rid data fs.
Proof.
  destruct (save_processed_settles fs now rid data) as [Hin | Hsame].
  - apply save_processed_present. exact Hin.
  - rewrite (Hsame now data). apply Hsame.
Qed.

Lemma save_processed_grows_by_one
    (fs : Files) (now : Timestamp) (rid : string) (data : Row) :
  length (CSVProcessor.get_processed_records
            (CSVProcessor.save_processed_record now rid data fs))
  <= length (CSVProcessor.get_processed_records fs) + 1
  /\ length (processed_entries
               (CSVProcessor.save_processed_record now rid data fs))
     <= length (processed_entries fs) + 1.
Proof.
  unfold CSVProcessor.save_processed_record,
    CSVProcessor.save_processed_body, CSVProcessor.get_processed_records,
    processed_entries.
  destruct (processed_file fs) as [|e|pd] eqn:Hf; simpl;
    try rewrite Hf; simpl; try lia.
  destruct (processed_ids pd) as [ids|] eqn:Hi; simpl;
    [| rewrite Hf, Hi; simpl; lia].
  destruct (PyStr.mem rid ids); simpl.
  - rewrite Hi. lia.
  - destruct (records pd) as [recs|] eqn:Hr; simpl.
    + rewrite !length_app. simpl. lia.
    + rewrite Hf, Hi, Hr. simpl. lia.
Qed.

Lemma mark_many_fixed
    (rid : string) (marks : list (Timestamp * Row)) (fs : Files) :
  (forall now data,
     CSVProcessor.save_processed_record now rid data fs = fs) ->
  mark_many rid marks fs = fs.
Proof.
  intros Hfix. unfold mark_many.
  induction marks as [|m marks IH]; simpl.
  - reflexivity.
  - rewrite Hfix. exact IH.
Qed.

(** C3. Marking an id that the processed ledger already holds changes
    nothing: no second id, no second timestamped entry. So after the
    first marking of an id any number of further markings leaves the
    ledger as it is, and the first one added at most one id and one
    entry. *)
Theorem C3_mark_processed_again_is_noop (fs : Files) (rid : string) :
  (In rid (CSVProcessor.get_processed_records fs) ->
   forall now data,
     CSVProcessor.save_processed_record now rid data fs = fs)
  /\ (forall now data marks,
        let fs1 := CSVProcessor.save_processed_record now rid data fs in
        mark_many rid marks fs1 = fs1
        /\ length (CSVProcessor.get_processed_records fs1)
           <= length (CSVProcessor.get_processed_records fs) + 1
        /\ length (processed_entries fs1)
           <= length (processed_entries fs) + 1).
Proof.
  split.
  - intros Hin now data. apply save_processed_present. exact Hin.
  - intros now data marks fs1. split.
    + apply mark_many_fixed. intros now' data'.
      apply save_processed_twice.
    + apply save_processed_grows_by_one.
Qed.

Lemma C3_witness :
  In "T2_FIAT_UNO_C1_F1"
     (CSVProcessor.get_processed_records Sample.marked_files)
  /\ CSVProcessor.save_processed_record
       "2024-06-30T23:59:59" "T2_FIAT_UNO_C1_F1" Sample.ford_focus
       Sample.marked_files
     = Sample.marked_files.
Proof.
  assert (H : In "T2_FIAT_UNO_C1_F1"
                 (CSVProcessor.get_processed_records Sample.marked_files))
    by (simpl; left; reflexivity).
  split; [exact H |].
  exact (proj1 (C3_mark_processed_again_is_noop
                  Sample.marked_files "T2_FIAT_UNO_C1_F1")
               H "2024-06-30T23:59:59" Sample.ford_focus).
Defined.

(* ================================================================== *)
(** * The failed ledger *)
(* ================================================================== *)

Lemma save_failed_appends
    (fs : Files) (now : Timestamp) (rid : string) (data : Row)
    (msg : string) :
  failed_ledger_ok fs ->
  let fs' := CSVProcessor.save_failed_record now rid data msg fs in
  failed_entries fs' = (failed_entries fs
                        ++ [mkFailedEntry rid data msg now])%list
  /\ failed_ledger_ok fs'
  /\ processed_file fs' = processed_file fs.
Proof.
  unfold failed_ledger_ok, failed_entries,
    CSVProcessor.save_failed_record, CSVProcessor.save_failed_body.
  intros [Habs | [l Hl]]; [rewrite Habs | rewrite Hl]; simpl;
    (split; [reflexivity | split; [right; eexists; reflexivity
                                  | reflexivity]]).
Qed.

(** When the failed ledger cannot be read the call gives up silently. *)
Lemma save_failed_unreadable
    (fs : Files) (e : Exn) (now : Timestamp) (rid : string) (data : Row)
    (msg : string) :
  failed_file fs = Unreadable e ->
  CSVProcessor.save_failed_record now rid data msg fs = fs.
Proof.
  unfold CSVProcessor.save_failed_record, CSVProcessor.save_failed_body.
  intros ->. reflexivity.
Qed.

Lemma failures_of_app_same
    (rid : string) (l : list FailedEntry) (e : FailedEntry) :
  fe_id e = rid ->
  length (filter (fun x => String.eqb (fe_id x) rid) (l ++ [e]))
  = length (filter (fun x => String.eqb (fe_id x) rid) l) + 1.
Proof.
  intros He. rewrite filter_app, length_app. simpl.
  rewrite He, String.eqb_refl. reflexivity.
Qed.

(** C7. Every call of [save_failed_record] on a readable failed ledger
    appends one entry (id, payload, message, timestamp), whatever either
    ledger already holds: two failures of one id leave two more entries
    for that id, in the order of the calls. *)
Theorem C7_mark_failed_always_appends
    (fs : Files) (rid : string)
    (now1 now2 : Timestamp) (data1 data2 : Row) (msg1 msg2 : string) :
  failed_ledger_ok fs ->
  let fs1 := CSVProcessor.save_failed_record now1 rid data1 msg1 fs in
  let fs2 := CSVProcessor.save_failed_record now2 rid data2 msg2 fs1 in
  failed_entries fs1
  = (failed_entries fs ++ [mkFailedEntry rid data1 msg1 now1])%list
  /\ failed_entries fs2
     = (failed_entries fs
        ++ [mkFailedEntry rid data1 msg1 now1;
            mkFailedEntry rid data2 msg2 now2])%list
  /\ failures_of rid fs1 = failures_of rid fs + 1
  /\ failures_of rid fs2 = failures_of rid fs + 2
  /\ processed_file fs2 = processed_file fs.
Proof.
  intros Hok fs1 fs2.
  destruct (save_failed_appends now1 rid data1 msg1 Hok)
    as [H1 [Hok1 Hp1]].
  destruct (save_failed_appends now2 rid data2 msg2 Hok1)
    as [H2 [_ Hp2]].
  fold fs1 in H1, Hok1, Hp1, H2, Hp2. fold fs2 in H2, Hp2.
  assert (F1 : failures_of rid fs1 = failures_of rid fs + 1).
  { unfold failures_of. rewrite H1. apply failures_of_app_same.
    reflexivity. }
  assert (F2 : failures_of rid fs2 = failures_of rid fs1 + 1).
  { unfold failures_of. rewrite H2. apply failures_of_app_same.
    reflexivity. }
  repeat split.
  - exact H1.
  - rewrite H2, H1, <- app_assoc. reflexivity.
  - exact F1.
  - rewrite F2, F1. lia.
  - rewrite Hp2. exact Hp1.
Qed.

Lemma C7_witness :
  failed_ledger_ok Sample.marked_files
  /\ failures_of "T2_FIAT_UNO_C1_F1"
       (CSVProcessor.save_failed_record
          "2024-05-02T08:00:00" "T2_FIAT_UNO_C1_F1" Sample.fiat_uno
          "Error del cliente (400): bad request"
          (CSVProcessor.save_failed_record
             "2024-05-01T10:00:00" "T2_FIAT_UNO_C1_F1" Sample.fiat_uno
             "Error del cliente (400): bad request"
             Sample.marked_files))
     = failures_of "T2_FIAT_UNO_C1_F1" Sample.marked_files + 2.
Proof.
  assert (Hok : failed_ledger_ok Sample.marked_files)
    by (left; reflexivity).
  split; [exact Hok |].
  exact (proj1 (proj2 (proj2 (proj2
           (@C7_mark_failed_always_appends
              Sample.marked_files "T2_FIAT_UNO_C1_F1"
              "2024-05-01T10:00:00" "2024-05-02T08:00:00"
              Sample.fiat_uno Sample.fiat_uno
              "Error del cliente (400): bad request"
              "Error del cliente (400): bad request" Hok))))).
Defined.

(* ================================================================== *)
(** * Loading the unprocessed records *)
(* ================================================================== *)

Lemma filter_none {A : Type} (f : A -> bool) (l : list A) :
  (forall x, In x l -> f x = false) -> filter f l = [].
Proof.
  induction l as [|a l IH]; simpl; intros H.
  - reflexivity.
  - rewrite (H a (or_introl eq_refl)). apply IH.
    intros x Hx. apply H. right. exact Hx.
Qed.

Lemma load_csv_data_ok (fs : Files) (df : DataFrame) :
  csv_file fs = Parsed df -> has_required_columns df ->
  CSVProcessor.load_csv_data fs = Ok (CSVProcessor.dropna (rows df)).
Proof.
  intros Hf Hcols. unfold CSVProcessor.load_csv_data. rewrite Hf.
  rewrite filter_none; [reflexivity |].
  intros col Hin. apply Hcols in Hin. apply mem_In in Hin.
  rewrite Hin. reflexivity.
Qed.

Lemma notna_raw_of (r : Row) : CSVProcessor.notna (raw_of r) = Some r.
Proof. destruct r; reflexivity. Qed.

Lemma dropna_raw_of (rs : list Row) :
  CSVProcessor.dropna (map raw_of rs) = rs.
Proof.
  induction rs as [|r rs IH]; cbn [map CSVProcessor.dropna].
  - reflexivity.
  - rewrite notna_raw_of, IH. reflexivity.
Qed.

(** With nothing in the ledger every row comes back, under its id. *)
Lemma unprocessed_loop_nil (rs : list Row) :
  CSVProcessor.unprocessed_loop [] rs
  = map (fun r => (CSVProcessor.create_record_id r, r)) rs.
Proof.
  induction rs as [|r rs IH]; simpl.
  - reflexivity.
  - rewrite IH. reflexivity.
Qed.

Lemma has_required_columns_refl (rs : list RawRow) :
  has_required_columns (mkDataFrame CSVProcessor.required_columns rs).
Proof. intros col H. exact H. Qed.

(** C2, as the code has it. Three valid rows of which the first two get
    the same id and the third another one, and nothing in the processed
    ledger: [get_unprocessed_records] returns three entries, one per row
    and in the order of the rows; the two rows that share an id are both
    there, under that id. *)
Theorem C2_rows_with_one_id_are_both_returned
    (fs : Files) (df : DataFrame) (r1 r2 r3 : Row) :
  csv_file fs = Parsed df ->
  has_required_columns df ->
  rows df = [raw_of r1; raw_of r2; raw_of r3] ->
  CSVProcessor.get_processed_records fs = [] ->
  CSVProcessor.create_record_id r1 = CSVProcessor.create_record_id r2 ->
  CSVProcessor.create_record_id r3 <> CSVProcessor.create_record_id r1 ->
  exists l,
    CSVProcessor.get_unprocessed_records fs = Ok l
    /\ l = [(CSVProcessor.create_record_id r1, r1);
            (CSVProcessor.create_record_id r1, r2);
            (CSVProcessor.create_record_id r3, r3)]
    /\ length l = 3.
Proof.
  intros Hf Hcols Hrows Hled Hsame _.
  eexists. split; [| split; [reflexivity | reflexivity]].
  unfold CSVProcessor.get_unprocessed_records.
  rewrite (load_csv_data_ok fs Hf Hcols), Hrows, Hled.
  change [raw_of r1; raw_of r2; raw_of r3] with (map raw_of [r1; r2; r3]).
  rewrite dropna_raw_of, unprocessed_loop_nil. simpl.
  rewrite <- Hsame. reflexivity.
Qed.

Lemma C2_witness :
  exists l,
    CSVProcessor.get_unprocessed_records Sample.fresh_files = Ok l
    /\ l = [("T1_FORD_FOCUS_C1_F1", Sample.ford_focus);
            ("T1_FORD_FOCUS_C1_F1", Sample.FORD_FOCUS);
            ("T2_FIAT_UNO_C1_F1", Sample.fiat_uno)]
    /\ length l = 3.
Proof.
  apply (@C2_rows_with_one_id_are_both_returned
           Sample.fresh_files Sample.three_rows
           Sample.ford_focus Sample.FORD_FOCUS Sample.fiat_uno).
  - reflexivity.
  - apply has_required_columns_refl.
  - reflexivity.
  - reflexivity.
  - reflexivity.
  - vm_compute. discriminate.
Defined.

(** C2 as stated fails on the scenario of the specification: the rows
    (T1, ford, Focus, C1, F1) and (T1, FORD, FOCUS, C1, F1) get one id,
    (T2, Fiat, Uno, C1, F1) another, the ledger is empty, and the result
    does not have two entries. *)
Lemma C2_counterexample :
  CSVProcessor.create_record_id Sample.ford_focus
  = CSVProcessor.create_record_id Sample.FORD_FOCUS
  /\ CSVProcessor.create_record_id Sample.fiat_uno
     <> CSVProcessor.create_record_id Sample.ford_focus
  /\ CSVProcessor.get_processed_records Sample.fresh_files = []
  /\ ~ (exists l,
          CSVProcessor.get_unprocessed_records Sample.fresh_files = Ok l
          /\ length l = 2).
Proof.
  split; [reflexivity |].
  split; [vm_compute; discriminate |].
  split; [reflexivity |].
  intros [l [Hl Hlen]].
  vm_compute in Hl. injection Hl as <-. discriminate Hlen.
Qed.

(** C10. When the processed ledger is missing, or is there but cannot be
    read or parsed, [get_processed_records] returns the empty list; and
    then every valid row of the CSV is returned as unprocessed. *)
Theorem C10_lost_ledger_reads_as_empty (fs : Files) :
  processed_ledger_lost fs ->
  CSVProcessor.get_processed_records fs = []
  /\ forall rs,
       CSVProcessor.load_csv_data fs = Ok rs ->
       CSVProcessor.get_unprocessed_records fs
       = Ok (map (fun r => (CSVProcessor.create_record_id r, r)) rs).
Proof.
  intros Hlost.
  assert (Hnil : CSVProcessor.get_processed_records fs = []).
  { unfold CSVProcessor.get_processed_records.
    destruct Hlost as [-> | [e ->]]; reflexivity. }
  split; [exact Hnil |].
  intros rs Hload. unfold CSVProcessor.get_unprocessed_records.
  rewrite Hload, Hnil, unprocessed_loop_nil. reflexivity.
Qed.

Lemma C10_witness :
  processed_ledger_lost Sample.damaged_files
  /\ CSVProcessor.get_processed_records Sample.damaged_files = []
  /\ CSVProcessor.get_unprocessed_records Sample.damaged_files
     = Ok [("T1_FORD_FOCUS_C1_F1", Sample.ford_focus);
           ("T1_FORD_FOCUS_C1_F1", Sample.FORD_FOCUS);
           ("T2_FIAT_UNO_C1_F1", Sample.fiat_uno)].
Proof.
  assert (Hlost : processed_ledger_lost Sample.damaged_files).
  { right. eexists. reflexivity. }
  destruct (C10_lost_ledger_reads_as_empty Hlost) as [Hnil Hall].
  split; [exact Hlost | split; [exact Hnil |]].
  exact (Hall [Sample.ford_focus; Sample.FORD_FOCUS; Sample.fiat_uno]
              eq_refl).
Defined.

(* ================================================================== *)
(** * The status report *)
(* ================================================================== *)

Lemma get_processing_status_loaded (fs : Files) (rs : list Row) :
  CSVProcessor.load_csv_data fs = Ok rs ->
  VehicleDataProcessor.get_processing_status fs
  = VehicleDataProcessor.mkStatus None
      (length rs)
      (length (CSVProcessor.get_processed_records fs))
      (length (CSVProcessor.unprocessed_loop
                 (CSVProcessor.get_processed_records fs) rs))
      (VehicleDataProcessor.completion_percentage
         (length (CSVProcessor.get_processed_records fs)) (length rs)).
Proof.
  intros Hload.
  unfold VehicleDataProcessor.get_processing_status,
    CSVProcessor.get_unprocessed_records.
  rewrite Hload. reflexivity.
Qed.

Lemma completion_percentage_positive (processed total : nat) :
  0 < total ->
  VehicleDataProcessor.completion_percentage processed total
  = PyFlt (PyFloat.round2
             (PyFloat.mul_int
                (PyFloat.int_truediv (Z.of_nat processed) (Z.of_nat total))
                100)).
Proof.
  intros H. unfold VehicleDataProcessor.completion_percentage.
  apply Nat.ltb_lt in H. rewrite H. reflexivity.
Qed.

(** Some values: 4 of 10 is 40.0, 1 of 3 is 33.33, 2 of 3 is 66.67,
    and 1 of 8 (12.5 exactly) stays 12.5. *)
Example completion_percentage_values :
  VehicleDataProcessor.completion_percentage 4 10
  = PyFlt (PyFloat.of_Z 40)
  /\ VehicleDataProcessor.completion_percentage 1 3
     = PyFlt (PyFloat.int_truediv 3333 100)
  /\ VehicleDataProcessor.completion_percentage 2 3
     = PyFlt (PyFloat.int_truediv 6667 100)
  /\ VehicleDataProcessor.completion_percentage 1 8
     = PyFlt (PyFloat.int_truediv 125 10).
Proof. repeat split; vm_compute; reflexivity. Qed.

(** C9. When the CSV loads, the status carries no error and its
    percentage is [round(processed / total * 100, 2)] if there are rows
    (40.0 for 4 of 10) and 0 if there are none; when the CSV does not
    load, the status carries the message of the error and zero for the
    three counts and for the percentage. Either way a status is
    returned. *)
Theorem C9_status_percentage_and_failure (fs : Files) :
  (forall rs,
     CSVProcessor.load_csv_data fs = Ok rs ->
     let st := VehicleDataProcessor.get_processing_status fs in
     let processed := length (CSVProcessor.get_processed_records fs) in
     VehicleDataProcessor.st_error st = None
     /\ VehicleDataProcessor.st_total_records st = length rs
     /\ VehicleDataProcessor.st_processed_records st = processed
     /\ (0 < length rs ->
         VehicleDataProcessor.st_completion_percentage st
         = PyFlt (PyFloat.round2
                    (PyFloat.mul_int
                       (PyFloat.int_truediv (Z.of_nat processed)
                                            (Z.of_nat (length rs)))
                       100)))
     /\ (length rs = 0 ->
         VehicleDataProcessor.st_completion_percentage st = PyInt 0))
  /\ VehicleDataProcessor.completion_percentage 4 10
     = PyFlt (PyFloat.of_Z 40)
  /\ VehicleDataProcessor.completion_percentage 0 0 = PyInt 0
  /\ (forall e,
        CSVProcessor.load_csv_data fs = Raise e ->
        VehicleDataProcessor.get_processing_status fs
        = VehicleDataProcessor.mkStatus (Some (exn_msg e)) 0 0 0 (PyInt 0)).
Proof.
  split; [| split; [| split]].
  - intros rs Hload st processed. subst st processed.
    rewrite (get_processing_status_loaded fs Hload). simpl.
    repeat split.
    + apply completion_percentage_positive.
    + intros ->. reflexivity.
  - vm_compute. reflexivity.
  - reflexivity.
  - intros e Hload. unfold VehicleDataProcessor.get_processing_status.
    rewrite Hload. reflexivity.
Qed.

Lemma C9_witness :
  CSVProcessor.load_csv_data Sample.four_of_ten = Ok Sample.ten_rows
  /\ VehicleDataProcessor.st_completion_percentage
       (VehicleDataProcessor.get_processing_status Sample.four_of_ten)
     = PyFlt (PyFloat.of_Z 40)
  /\ VehicleDataProcessor.get_processing_status Sample.no_csv
     = VehicleDataProcessor.mkStatus
         (Some "Archivo CSV no encontrado: clases_vehiculos.csv")
         0 0 0 (PyInt 0).
Proof.
  assert (Hload : CSVProcessor.load_csv_data Sample.four_of_ten
                  = Ok Sample.ten_rows) by (vm_compute; reflexivity).
  split; [exact Hload |]. split.
  - destruct (proj1 (C9_status_percentage_and_failure Sample.four_of_ten)
                Sample.ten_rows Hload)
      as [_ [_ [_ [Hpct _]]]].
    rewrite Hpct by (cbn; lia). vm_compute. reflexivity.
  - exact (proj2 (proj2 (proj2
             (C9_status_percentage_and_failure Sample.no_csv)))
             (mkExn FileNotFoundError
                    "Archivo CSV no encontrado: clases_vehiculos.csv")
             eq_refl).
Defined.

(* ================================================================== *)
(** * Sending a record *)
(* ================================================================== *)

Lemma outline_snoc (tr : list Event) (e : Event) :
  outline (tr ++ [e]) = (outline tr ++ mark_of e)%list.
Proof.
  unfold outline. rewrite flat_map_app. simpl. rewrite app_nil_r.
  reflexivity.
Qed.

Lemma quiet_refl (w : World) : quiet w w.
Proof. unfold quiet. repeat split. Qed.

Lemma quiet_trans (w1 w2 w3 : World) :
  quiet w1 w2 -> quiet w2 w3 -> quiet w1 w3.
Proof.
  unfold quiet. intros [A1 [A2 [A3 [A4 A5]]]] [B1 [B2 [B3 [B4 B5]]]].
  repeat split; congruence.
Qed.

Ltac quiet_step :=
  unfold quiet; cbn [files endpoint clock ticks trace];
  rewrite ?outline_snoc; cbn [mark_of]; rewrite ?app_nil_r;
  repeat split; reflexivity.

Ltac run_monad :=
  cbv [bind ret raise try_except lift_result modify emit time_sleep
       requests_post on_world on_summary fst snd].

(** One attempt returns a result or asks for the next attempt; it never
    raises, and it leaves the files and the outline alone. *)
Lemma attempt_body_quiet
    (retries : nat) (p : WireRecord) (attempt : nat) (w : World) :
  exists r w',
    ATIONETService.attempt_body retries p attempt w = (Ok r, w')
    /\ quiet w w'.
Proof.
  unfold ATIONETService.attempt_body. run_monad.
  destruct (endpoint w (posts w) p) as [resp | e]; cbv beta iota.
  - destruct ((status_code resp =? 200) || (status_code resp =? 201))%Z.
    + destruct (json resp) as [d | e]; cbv beta iota.
      * eexists; eexists; split; [reflexivity | quiet_step].
      * destruct e as [cls msg]; cbn [exn_class exn_msg];
          destruct cls; cbv beta iota; cbn [exn_class exn_msg];
          destruct (attempt <? retries - 1);
          eexists; eexists; (split; [reflexivity | quiet_step]).
    + destruct (status_code resp =? 409)%Z;
        [eexists; eexists; split; [reflexivity | quiet_step] |].
      destruct (status_code resp >=? 400)%Z;
        [eexists; eexists; split; [reflexivity | quiet_step] |].
      destruct (attempt <? retries - 1);
        eexists; eexists; (split; [reflexivity | quiet_step]).
  - destruct (exn_class e); cbv beta iota;
      destruct (attempt <? retries - 1);
      eexists; eexists; (split; [reflexivity | quiet_step]).
Qed.

Lemma for_return_attempts_quiet
    (retries : nat) (p : WireRecord) (attempts : list nat) (w : World) :
  exists r w',
    for_return attempts (ATIONETService.attempt_body retries p) w
    = (Ok r, w')
    /\ quiet w w'.
Proof.
  revert w. induction attempts as [|a attempts IH]; intros w.
  - exists None, w. split; [reflexivity | apply quiet_refl].
  - cbn [for_return]. unfold bind at 1.
    destruct (attempt_body_quiet retries p a w) as [r [w1 [Hrun Hq1]]].
    rewrite Hrun. destruct r as [v |].
    + exists (Some v), w1. split; [reflexivity | exact Hq1].
    + destruct (IH w1) as [r' [w2 [Hrest Hq2]]].
      exists r', w2. split; [exact Hrest | ].
      apply (quiet_trans Hq1 Hq2).
Qed.

(** [send_vehicle_data] always returns its triple. *)
Lemma send_vehicle_data_quiet (retries : nat) (p : WireRecord) (w : World) :
  exists res w',
    ATIONETService.send_vehicle_data retries p w = (Ok res, w')
    /\ quiet w w'.
Proof.
  unfold ATIONETService.send_vehicle_data. unfold bind at 1.
  destruct (for_return_attempts_quiet retries p (seq 0 retries) w)
    as [r [w1 [Hrun Hq]]].
  rewrite Hrun. destruct r as [v |]; eexists; eexists;
    (split; [reflexivity | exact Hq]).
Qed.

(** A status of 400 or more other than 409, the 5xx included, ends the
    call at once: one POST, no wait, the client-error message. *)
Lemma send_status_400_up_returns_at_once
    (retries : nat) (p : WireRecord) (w : World) (resp : Response) :
  endpoint w (posts w) p = Ok resp ->
  (400 <= status_code resp)%Z -> status_code resp <> 409%Z ->
  let out := ATIONETService.send_vehicle_data (S retries) p w in
  fst out
  = Ok (false, None,
        Some ("Error del cliente (" ++ PyStr.of_Z (status_code resp)
              ++ "): " ++ text resp))
  /\ posts (snd out) = S (posts w)
  /\ trace (snd out) = (trace w ++ [EvPost p])%list.
Proof.
  intros Hep Hge Hne.
  unfold ATIONETService.send_vehicle_data.
  cbn [seq for_return]. unfold ATIONETService.attempt_body.
  run_monad. rewrite Hep.
  replace ((status_code resp =? 200) || (status_code resp =? 201))%Z
    with false by (symmetry; apply orb_false_iff; split;
                   apply Z.eqb_neq; lia).
  replace (status_code resp =? 409)%Z with false
    by (symmetry; apply Z.eqb_neq; exact Hne).
  replace (status_code resp >=? 400)%Z with true
    by (symmetry; apply Z.geb_le; lia).
  repeat split.
Qed.

(** HTTP 409 ends the call at once as well. *)
Lemma send_status_409_returns_at_once
    (retries : nat) (p : WireRecord) (w : World) (resp : Response) :
  endpoint w (posts w) p = Ok resp ->
  status_code resp = 409%Z ->
  let out := ATIONETService.send_vehicle_data (S retries) p w in
  fst out
  = Ok (false, None, Some ("Datos duplicados o conflicto: " ++ text resp))
  /\ posts (snd out) = S (posts w)
  /\ trace (snd out) = (trace w ++ [EvPost p])%list.
Proof.
  intros Hep Hcode.
  unfold ATIONETService.send_vehicle_data.
  cbn [seq for_return]. unfold ATIONETService.attempt_body.
  run_monad. rewrite Hep, Hcode. cbn. repeat split.
Qed.

(** The backoff itself works where the code reaches it: after two
    timeouts and a 200 the call succeeds on the third POST, having
    waited 1 and then 2 seconds. *)
Example send_retries_after_timeouts :
  let out := ATIONETService.send_vehicle_data 3 Sample.wire
               (Sample.world_of Sample.fresh_files Sample.slow_twice) in
  fst out = Ok (true, Some (ATIONETService.FromBody "{}"), None)
  /\ posts (snd out) = 3
  /\ backoff_waits (trace (snd out)) = [PyInt 1; PyInt 2].
Proof. repeat split. Qed.

(** C1 on the code. With three attempts allowed and an endpoint that
    answers HTTP 500, 500 and then 200, [send_vehicle_data] returns the
    failure of the first answer: one POST, no wait, no success. *)
Theorem C1_http_500_is_returned_without_retry :
  let out := ATIONETService.send_vehicle_data
               (REQUEST_RETRIES default_config) Sample.wire
               (Sample.world_of Sample.fresh_files Sample.down_twice) in
  fst out
  = Ok (false, None,
        Some "Error del cliente (500): Internal Server Error")
  /\ posts (snd out) = 1
  /\ trace (snd out) = [EvPost Sample.wire]
  /\ backoff_waits (trace (snd out)) = [].
Proof. repeat split. Qed.

(* ================================================================== *)
(** * One record *)
(* ================================================================== *)

Lemma save_processed_keeps_failed_file
    (fs : Files) (now : Timestamp) (rid : string) (data : Row) :
  failed_file (CSVProcessor.save_processed_record now rid data fs)
  = failed_file fs.
Proof.
  unfold CSVProcessor.save_processed_record.
  destruct (CSVProcessor.save_processed_body now rid data fs);
    reflexivity.
Qed.

Lemma save_processed_records_id
    (fs : Files) (now : Timestamp) (rid : string) (data : Row) :
  processed_ledger_ok fs ->
  In rid (CSVProcessor.get_processed_records
            (CSVProcessor.save_processed_record now rid data fs)).
Proof.
  unfold processed_ledger_ok, CSVProcessor.save_processed_record,
    CSVProcessor.save_processed_body, CSVProcessor.get_processed_records.
  intros [Habs | [ids [recs Hp]]]; [rewrite Habs | rewrite Hp]; simpl.
  - left. reflexivity.
  - destruct (PyStr.mem rid ids) eqn:Hm; simpl.
    + apply mem_In. exact Hm.
    + apply in_or_app. right. left. reflexivity.
Qed.

Lemma is_duplicate_error_of_text (err : string) :
  PyStr.contains "duplicate" (PyStr.lower err) = true
  \/ PyStr.contains "conflict" (PyStr.lower err) = true
  \/ PyStr.contains "409" err = true ->
  VehicleDataProcessor.is_duplicate_error (Some err) = true.
Proof.
  intros H. unfold VehicleDataProcessor.is_duplicate_error.
  destruct err as [|c err].
  - destruct H as [H | [H | H]]; discriminate H.
  - cbn [PyStr.truthy andb].
    destruct H as [H | [H | H]]; rewrite H;
      rewrite ?orb_true_r; reflexivity.
Qed.

(** A record whose row cannot be formatted. *)
Lemma process_record_unformattable
    (cfg : Config) (rid : string) (data : Row) (w : World)
    (b : VehicleDataProcessor.BatchSummary) (e : Exn) :
  ATIONETService.format_vehicle_data data = Raise e ->
  VehicleDataProcessor.process_record cfg (rid, data) (w, b)
  = (Ok tt,
     (after (save_failed_record rid data (exn_msg e)) w,
      VehicleDataProcessor.incr_failed
        (VehicleDataProcessor.append_error
           ("Error inesperado procesando " ++ rid ++ ": " ++ exn_msg e)
           b))).
Proof.
  intros Hfmt. unfold VehicleDataProcessor.process_record, after.
  run_monad. rewrite Hfmt. reflexivity.
Qed.

(** A record that was formatted and sent. *)
Lemma process_record_sent
    (cfg : Config) (rid : string) (data : Row) (w w1 : World)
    (b : VehicleDataProcessor.BatchSummary) (p : WireRecord)
    (res : ATIONETService.SendResult) :
  ATIONETService.format_vehicle_data data = Ok p ->
  ATIONETService.send_vehicle_data (REQUEST_RETRIES cfg) p w
  = (Ok res, w1) ->
  VehicleDataProcessor.process_record cfg (rid, data) (w, b)
  = (Ok tt,
     if fst (fst res) then
       (after (time_sleep BetweenRecords (PyFlt PyFloat.f0_1))
              (after (save_processed_record rid data) w1),
        VehicleDataProcessor.incr_processed b)
     else if VehicleDataProcessor.is_duplicate_error (snd res) then
       (after (time_sleep BetweenRecords (PyFlt PyFloat.f0_1))
              (after (save_processed_record rid data) w1),
        VehicleDataProcessor.incr_skipped b)
     else
       (after (time_sleep BetweenRecords (PyFlt PyFloat.f0_1))
              (after (save_failed_record rid data
                        (VehicleDataProcessor.error_or_unknown (snd res)))
                     w1),
        VehicleDataProcessor.append_error
          ("Error procesando " ++ rid ++ ": " ++ PyStr.fmt_opt (snd res))
          (VehicleDataProcessor.incr_failed b))).
Proof.
  intros Hfmt Hsend. unfold VehicleDataProcessor.process_record, after.
  run_monad. rewrite Hfmt. cbv beta iota. rewrite Hsend.
  destruct res as [[success resp] err]. cbv beta iota.
  destruct success; [reflexivity |].
  destruct (VehicleDataProcessor.is_duplicate_error err); reflexivity.
Qed.

Lemma outline_after_save_processed
    (rid : string) (data : Row) (w : World) :
  outline (trace (after (time_sleep BetweenRecords (PyFlt PyFloat.f0_1))
                        (after (save_processed_record rid data) w)))
  = (outline (trace w) ++ [MRecord rid])%list.
Proof.
  unfold after. cbn. rewrite !outline_snoc. cbn [mark_of].
  rewrite app_nil_r. reflexivity.
Qed.

Lemma outline_after_save_failed
    (rid : string) (data : Row) (msg : string) (w : World) :
  outline (trace (after (time_sleep BetweenRecords (PyFlt PyFloat.f0_1))
                        (after (save_failed_record rid data msg) w)))
  = (outline (trace w) ++ [MRecord rid])%list.
Proof.
  unfold after. cbn. rewrite !outline_snoc. cbn [mark_of].
  rewrite app_nil_r. reflexivity.
Qed.

(** Whatever happens to a record, the loop body ends normally, the
    record is settled once, one counter goes up by one, and the error
    list grows exactly when the failed counter does. *)
Lemma process_record_step
    (cfg : Config) (rec : string * Row) (w : World)
    (b : VehicleDataProcessor.BatchSummary) :
  exists w' b',
    VehicleDataProcessor.process_record cfg rec (w, b) = (Ok tt, (w', b'))
    /\ outline (trace w') = (outline (trace w) ++ [MRecord (fst rec)])%list
    /\ b_counted b' = b_counted b + 1
    /\ VehicleDataProcessor.b_failed_records b'
       + length (VehicleDataProcessor.b_errors b)
       = VehicleDataProcessor.b_failed_records b
         + length (VehicleDataProcessor.b_errors b').
Proof.
  destruct rec as [rid data]. cbn [fst].
  destruct (ATIONETService.format_vehicle_data data) as [p | e] eqn:Hfmt.
  - destruct (send_vehicle_data_quiet (REQUEST_RETRIES cfg) p w)
      as [res [w1 [Hsend Hq]]].
    rewrite (@process_record_sent cfg rid data w w1 b p res Hfmt Hsend).
    destruct Hq as [_ [_ [_ [_ Hout]]]].
    destruct (fst (fst res));
      [| destruct (VehicleDataProcessor.is_duplicate_error (snd res))];
      eexists; eexists; (split; [reflexivity |]);
      rewrite ?outline_after_save_processed, ?outline_after_save_failed,
        Hout;
      (split; [reflexivity |]);
      unfold b_counted; cbn; rewrite ?length_app; cbn; lia.
  - rewrite (@process_record_unformattable cfg rid data w b e Hfmt).
    eexists; eexists; split; [reflexivity |].
    split.
    + unfold after. cbn. rewrite outline_snoc. reflexivity.
    + unfold b_counted; cbn; rewrite ?length_app; cbn; lia.
Qed.

(** C5. A record that was sent and came back without success, with an
    error text in which "duplicate" or "conflict" occurs in any case, or
    "409" occurs: the orchestrator calls [save_processed_record] for it
    (after which a readable ledger holds its id), adds one to the
    skipped-duplicates counter, leaves the failed and succeeded counters
    and the error list as they were, and does not touch the failed
    ledger. *)
Theorem C5_duplicate_answer_is_marked_processed
    (cfg : Config) (rid : string) (data : Row) (w w1 : World)
    (b : VehicleDataProcessor.BatchSummary) (p : WireRecord)
    (resp : option ATIONETService.ResponseData) (err : string) :
  ATIONETService.format_vehicle_data data = Ok p ->
  ATIONETService.send_vehicle_data (REQUEST_RETRIES cfg) p w
  = (Ok (false, resp, Some err), w1) ->
  PyStr.contains "duplicate" (PyStr.lower err) = true
  \/ PyStr.contains "conflict" (PyStr.lower err) = true
  \/ PyStr.contains "409" err = true ->
  exists w2 b2,
    VehicleDataProcessor.process_record cfg (rid, data) (w, b)
    = (Ok tt, (w2, b2))
    /\ files w2
       = CSVProcessor.save_processed_record
           (clock w (ticks w)) rid data (files w)
    /\ (processed_ledger_ok (files w) ->
        In rid (CSVProcessor.get_processed_records (files w2)))
    /\ failed_file (files w2) = failed_file (files w)
    /\ VehicleDataProcessor.b_skipped_duplicates b2
       = VehicleDataProcessor.b_skipped_duplicates b + 1
    /\ VehicleDataProcessor.b_failed_records b2
       = VehicleDataProcessor.b_failed_records b
    /\ VehicleDataProcessor.b_processed_successfully b2
       = VehicleDataProcessor.b_processed_successfully b
    /\ VehicleDataProcessor.b_errors b2 = VehicleDataProcessor.b_errors b.
Proof.
  intros Hfmt Hsend Htext.
  rewrite (@process_record_sent cfg rid data w w1 b p _ Hfmt Hsend).
  cbn [fst snd]. rewrite (@is_duplicate_error_of_text err Htext).
  destruct (send_vehicle_data_quiet (REQUEST_RETRIES cfg) p w)
    as [res' [w1' [Hsend' Hq]]].
  rewrite Hsend in Hsend'. injection Hsend' as _ <-.
  destruct Hq as [Hfiles [_ [Hclock [Hticks _]]]].
  eexists; eexists; split; [reflexivity |].
  assert (Hw2 : files (after (time_sleep BetweenRecords
                                (PyFlt PyFloat.f0_1))
                         (after (save_processed_record rid data) w1))
                = CSVProcessor.save_processed_record
                    (clock w (ticks w)) rid data (files w)).
  { unfold after. cbn. rewrite Hfiles, Hclock, Hticks. reflexivity. }
  rewrite Hw2. split; [reflexivity |].
  split; [intros Hok; apply save_processed_records_id; exact Hok |].
  split; [apply save_processed_keeps_failed_file |].
  repeat split.
Qed.

Lemma C5_witness :
  exists w2 b2,
    VehicleDataProcessor.process_record default_config
      ("T1_FORD_FOCUS_C1_F1", Sample.ford_focus)
      (Sample.world_of Sample.fresh_files Sample.always_conflict,
       VehicleDataProcessor.empty_batch_summary)
    = (Ok tt, (w2, b2))
    /\ In "T1_FORD_FOCUS_C1_F1"
          (CSVProcessor.get_processed_records (files w2))
    /\ failed_file (files w2) = Absent
    /\ b2 = VehicleDataProcessor.mkBatchSummary 0 0 1 [].
Proof.
  destruct (@C5_duplicate_answer_is_marked_processed
              default_config "T1_FORD_FOCUS_C1_F1" Sample.ford_focus
              (Sample.world_of Sample.fresh_files Sample.always_conflict)
              (after (requests_post Sample.wire)
                     (Sample.world_of Sample.fresh_files
                                      Sample.always_conflict))
              VehicleDataProcessor.empty_batch_summary
              Sample.wire None
              "Datos duplicados o conflicto: already exists")
    as [w2 [b2 [Hrun [_ [Hin [Hfailed [Hs [Hf [Hp He]]]]]]]]].
  - reflexivity.
  - reflexivity.
  - right. left. reflexivity.
  - exists w2, b2. split; [exact Hrun |].
    split; [apply Hin; left; reflexivity |].
    split; [exact Hfailed |].
    destruct b2 as [bp bf bs be]. cbn in Hs, Hf, Hp, He.
    subst. reflexivity.
Defined.

(* ================================================================== *)
(** * A batch, and the run *)
(* ================================================================== *)

Lemma outline_app (tr1 tr2 : list Event) :
  outline (tr1 ++ tr2) = (outline tr1 ++ outline tr2)%list.
Proof. unfold outline. apply flat_map_app. Qed.

Lemma process_records_spec (cfg : Config) (batch : list (string * Row)) :
  forall (w : World) (b : VehicleDataProcessor.BatchSummary),
  exists w' b',
    for_each batch (VehicleDataProcessor.process_record cfg) (w, b)
    = (Ok tt, (w', b'))
    /\ outline (trace w') = (outline (trace w) ++ records_marks batch)%list
    /\ b_counted b' = b_counted b + length batch
    /\ VehicleDataProcessor.b_failed_records b'
       + length (VehicleDataProcessor.b_errors b)
       = VehicleDataProcessor.b_failed_records b
         + length (VehicleDataProcessor.b_errors b').
Proof.
  induction batch as [|rec batch IH]; intros w b.
  - exists w, b. cbn. rewrite app_nil_r. repeat split; lia.
  - cbn [for_each]. unfold bind at 1.
    destruct (process_record_step cfg rec w b)
      as [w1 [b1 [Hstep [Hout1 [Hcnt1 Herr1]]]]].
    rewrite Hstep.
    destruct (IH w1 b1) as [w2 [b2 [Hrest [Hout2 [Hcnt2 Herr2]]]]].
    exists w2, b2. split; [exact Hrest |].
    split; [| split; [cbn [length]; lia | lia]].
    rewrite Hout2, Hout1, <- app_assoc. reflexivity.
Qed.

(** [_process_batch] returns its summary: every record of the batch is
    settled once, in order, and is counted once. *)
Lemma process_batch_spec
    (cfg : Config) (batch : list (string * Row)) (w : World) :
  exists w' b,
    VehicleDataProcessor.process_batch cfg batch w = (Ok b, w')
    /\ outline (trace w') = (outline (trace w) ++ records_marks batch)%list
    /\ b_counted b = length batch
    /\ VehicleDataProcessor.b_failed_records b
       = length (VehicleDataProcessor.b_errors b).
Proof.
  unfold VehicleDataProcessor.process_batch.
  destruct (process_records_spec cfg batch w
              VehicleDataProcessor.empty_batch_summary)
    as [w' [b [Hrun [Hout [Hcnt Herr]]]]].
  rewrite Hrun. exists w', b. cbn [fst snd].
  split; [reflexivity |]. split; [exact Hout |].
  cbn in Hcnt, Herr. split; lia.
Qed.

Lemma batch_turn_spec
    (cfg : Config) (recs : list (string * Row)) (i : nat)
    (w : World) (s : VehicleDataProcessor.Summary) :
  exists w' s',
    VehicleDataProcessor.batch_turn cfg recs i (w, s) = (Ok tt, (w', s'))
    /\ outline (trace w') = (outline (trace w) ++ turn_marks cfg recs i)%list
    /\ counted s' = counted s + length (batch_at cfg recs i)
    /\ VehicleDataProcessor.failed_records s'
       + length (VehicleDataProcessor.errors s)
       = VehicleDataProcessor.failed_records s
         + length (VehicleDataProcessor.errors s')
    /\ VehicleDataProcessor.total_records s'
       = VehicleDataProcessor.total_records s.
Proof.
  unfold VehicleDataProcessor.batch_turn, turn_marks.
  fold (batch_at cfg recs i).
  set (opening := EvBatch (i / BATCH_SIZE cfg + 1)
                    ((length recs + BATCH_SIZE cfg - 1) / BATCH_SIZE cfg)
                    (length (batch_at cfg recs i))).
  destruct (process_batch_spec cfg (batch_at cfg recs i)
              (after (emit opening) w))
    as [w1 [b [Hbatch [Hout [Hcnt Herr]]]]].
  unfold after in Hbatch, Hout.
  run_monad. cbv beta iota.
  cbv [emit modify snd] in Hbatch, Hout. rewrite Hbatch. cbv beta iota.
  cbn [trace] in Hout. rewrite outline_snoc in Hout.
  destruct (i + BATCH_SIZE cfg <? length recs).
  - eexists; eexists; split; [reflexivity |].
    cbn [trace]. rewrite outline_snoc, Hout. cbn [mark_of].
    rewrite <- !app_assoc.
    split; [reflexivity |].
    unfold counted, b_counted in *. cbn. rewrite length_app.
    repeat split; lia.
  - eexists; eexists; split; [reflexivity |].
    rewrite Hout. cbn [mark_of]. rewrite app_nil_r, <- !app_assoc.
    split; [reflexivity |].
    unfold counted, b_counted in *. cbn. rewrite length_app.
    repeat split; lia.
Qed.

Lemma batch_loop_spec
    (cfg : Config) (recs : list (string * Row)) (indices : list nat) :
  forall (w : World) (s : VehicleDataProcessor.Summary),
  exists w' s',
    for_each indices (VehicleDataProcessor.batch_turn cfg recs) (w, s)
    = (Ok tt, (w', s'))
    /\ outline (trace w')
       = (outline (trace w) ++ flat_map (turn_marks cfg recs) indices)%list
    /\ counted s'
       = counted s + length (flat_map (batch_at cfg recs) indices)
    /\ VehicleDataProcessor.failed_records s'
       + length (VehicleDataProcessor.errors s)
       = VehicleDataProcessor.failed_records s
         + length (VehicleDataProcessor.errors s')
    /\ VehicleDataProcessor.total_records s'
       = VehicleDataProcessor.total_records s.
Proof.
  induction indices as [|i indices IH]; intros w s.
  - exists w, s. cbn. rewrite app_nil_r. repeat split; lia.
  - cbn [for_each]. unfold bind at 1.
    destruct (batch_turn_spec cfg recs i w s)
      as [w1 [s1 [Hturn [Hout1 [Hcnt1 [Herr1 Htot1]]]]]].
    rewrite Hturn.
    destruct (IH w1 s1) as [w2 [s2 [Hrest [Hout2 [Hcnt2 [Herr2 Htot2]]]]]].
    exists w2, s2. split; [exact Hrest |].
    cbn [flat_map]. rewrite length_app.
    split; [rewrite Hout2, Hout1, <- app_assoc; reflexivity |].
    repeat split; lia.
Qed.

(** The slices taken at the indices of [range(start, len, size)] are the
    records from [start] on, each once and in order. *)
Lemma batches_partition
    (cfg : Config) (recs : list (string * Row)) :
  0 < BATCH_SIZE cfg ->
  forall fuel start,
    length recs <= start + fuel ->
    flat_map (batch_at cfg recs)
             (range_from fuel start (length recs) (BATCH_SIZE cfg))
    = skipn start recs.
Proof.
  intros Hpos. induction fuel as [|fuel IH]; intros start Hfuel.
  - cbn. symmetry. apply skipn_all2. lia.
  - cbn [range_from].
    destruct (start <? length recs) eqn:Hlt.
    + cbn [flat_map]. rewrite IH by lia.
      unfold batch_at.
      rewrite Nat.add_comm, <- skipn_skipn.
      apply firstn_skipn.
    + apply Nat.ltb_ge in Hlt. cbn. symmetry. apply skipn_all2. exact Hlt.
Qed.



(** The run over the records that were loaded. *)
Lemma run_body_spec
    (cfg : Config) (w : World) (recs : list (string * Row)) :
  0 < BATCH_SIZE cfg ->
  CSVProcessor.get_unprocessed_records (files w) = Ok recs ->
  exists w' s',
    VehicleDataProcessor.run_body cfg
      (w, VehicleDataProcessor.empty_summary)
    = (Ok tt, (w', s'))
    /\ outline (trace w')
       = (outline (trace w)
          ++ flat_map (turn_marks cfg recs)
               (range_from (length recs) 0 (length recs)
                           (BATCH_SIZE cfg)))%list
    /\ VehicleDataProcessor.total_records s' = length recs
    /\ counted s' = length recs
    /\ VehicleDataProcessor.failed_records s'
       = length (VehicleDataProcessor.errors s').
Proof.
  intros Hpos Hload.
  unfold VehicleDataProcessor.run_body.
  cbv [try_except bind on_world on_summary lift_result ret
       get_unprocessed_records fst snd].
  rewrite Hload. cbv beta iota.
  destruct recs as [|rec recs'].
  - eexists; eexists; split; [reflexivity |].
    cbn. rewrite app_nil_r. repeat split.
  - set (recs := rec :: recs') in *.
    unfold py_range.
    destruct (BATCH_SIZE cfg) as [|k] eqn:Hbs; [lia |].
    rewrite <- Hbs.
    destruct (batch_loop_spec cfg recs
                (range_from (length recs) 0 (length recs) (BATCH_SIZE cfg))
                w
                (VehicleDataProcessor.set_total (length recs)
                   VehicleDataProcessor.empty_summary))
      as [w' [s' [Hloop [Hout [Hcnt [Herr Htot]]]]]].
    rewrite Hloop. exists w', s'.
    split; [reflexivity |].
    split; [exact Hout |].
    split; [rewrite Htot; reflexivity |].
    rewrite (batches_partition cfg recs) in Hcnt by lia.
    cbn in Hcnt, Herr.
    split; [exact Hcnt | lia].
Qed.

Lemma process_all_vehicles_of_run_body
    (cfg : Config) (w w' : World) (s' : VehicleDataProcessor.Summary)
    (r : Result unit) :
  VehicleDataProcessor.run_body cfg (w, VehicleDataProcessor.empty_summary)
  = (r, (w', s')) ->
  VehicleDataProcessor.process_all_vehicles cfg w = (s', w').
Proof.
  intros H. unfold VehicleDataProcessor.process_all_vehicles.
  rewrite H. reflexivity.
Qed.




(* ================================================================== *)
(** * Batch pacing *)
(* ================================================================== *)

Lemma pauses_of_records (batch : list (string * Row)) :
  flat_map (fun m => match m with MPause secs => [secs] | _ => [] end)
           (records_marks batch)
  = [].
Proof. induction batch as [|rec batch IH]; cbn; [reflexivity | exact IH]. Qed.

(** C8. Twenty-five unprocessed records and a batch size of ten: the
    run opens batch 1 of 3 with ten records, settles them, pauses one
    second, opens batch 2 of 3 with the next ten, settles them, pauses
    one second, opens batch 3 of 3 with the last five and settles them;
    there is no pause after it. The three batches are the records, each
    once and in order. *)
Theorem C8_three_batches_and_two_pauses
    (cfg : Config) (w : World) (recs : list (string * Row)) :
  BATCH_SIZE cfg = 10 ->
  CSVProcessor.get_unprocessed_records (files w) = Ok recs ->
  length recs = 25 ->
  let out := VehicleDataProcessor.process_all_vehicles cfg w in
  let batch1 := firstn 10 recs in
  let batch2 := firstn 10 (skipn 10 recs) in
  let batch3 := skipn 20 recs in
  outline (trace (snd out))
  = (outline (trace w)
     ++ [MBatch 1 3 10] ++ records_marks batch1 ++ [MPause (PyInt 1)]
     ++ [MBatch 2 3 10] ++ records_marks batch2 ++ [MPause (PyInt 1)]
     ++ [MBatch 3 3 5] ++ records_marks batch3)%list
  /\ pauses (trace (snd out))
     = (pauses (trace w) ++ [PyInt 1; PyInt 1])%list
  /\ (batch1 ++ batch2 ++ batch3)%list = recs
  /\ length batch1 = 10 /\ length batch2 = 10 /\ length batch3 = 5.
Proof.
  intros Hbs Hload Hlen out batch1 batch2 batch3.
  assert (Hpos : 0 < BATCH_SIZE cfg) by lia.
  destruct (run_body_spec cfg w Hpos Hload)
    as [w' [s' [Hrun [Hout _]]]].
  subst out. rewrite (process_all_vehicles_of_run_body cfg w Hrun).
  cbn [fst snd].
  assert (L1 : length batch1 = 10).
  { unfold batch1. rewrite length_firstn. lia. }
  assert (L2 : length batch2 = 10).
  { unfold batch2. rewrite length_firstn, length_skipn. lia. }
  assert (L3 : length batch3 = 5).
  { unfold batch3. rewrite length_skipn. lia. }
  assert (T1 : turn_marks cfg recs 0
               = ([MBatch 1 3 10] ++ records_marks batch1
                  ++ [MPause (PyInt 1)])%list).
  { unfold turn_marks, batch_at. rewrite Hbs, Hlen.
    change (skipn 0 recs) with recs. fold batch1. rewrite L1.
    reflexivity. }
  assert (T2 : turn_marks cfg recs 10
               = ([MBatch 2 3 10] ++ records_marks batch2
                  ++ [MPause (PyInt 1)])%list).
  { unfold turn_marks, batch_at. rewrite Hbs, Hlen.
    fold batch2. rewrite L2. reflexivity. }
  assert (T3 : turn_marks cfg recs 20
               = ([MBatch 3 3 5] ++ records_marks batch3)%list).
  { unfold turn_marks, batch_at. rewrite Hbs, Hlen.
    rewrite (firstn_all2 (n := 10) (skipn 20 recs))
      by (fold batch3; lia).
    fold batch3. rewrite L3. cbn. rewrite app_nil_r. reflexivity. }
  assert (Hmarks :
            outline (trace w')
            = (outline (trace w)
               ++ [MBatch 1 3 10] ++ records_marks batch1
               ++ [MPause (PyInt 1)]
               ++ [MBatch 2 3 10] ++ records_marks batch2
               ++ [MPause (PyInt 1)]
               ++ [MBatch 3 3 5] ++ records_marks batch3)%list).
  { rewrite Hout, Hlen, Hbs.
    change (range_from 25 0 25 10) with [0; 10; 20].
    cbn [flat_map]. rewrite T1, T2, T3, app_nil_r, <- !app_assoc.
    reflexivity. }
  split; [exact Hmarks |].
  split.
  { unfold pauses. rewrite Hmarks.
    repeat (rewrite flat_map_app; cbn [flat_map]).
    rewrite !pauses_of_records. cbn. reflexivity. }
  split.
  { unfold batch1, batch2, batch3.
    replace (skipn 20 recs) with (skipn 10 (skipn 10 recs))
      by (rewrite skipn_skipn; reflexivity).
    rewrite (firstn_skipn 10 (skipn 10 recs)).
    apply firstn_skipn. }
  split; [exact L1 |]. split; [exact L2 | exact L3].
Qed.

Lemma C8_witness :
  let w := Sample.world_of Sample.fleet_files Sample.always_ok in
  pauses (trace (snd (VehicleDataProcessor.process_all_vehicles
                        default_config w)))
  = [PyInt 1; PyInt 1].
Proof.
  assert (Hload :
            CSVProcessor.get_unprocessed_records
              (files (Sample.world_of Sample.fleet_files Sample.always_ok))
            = Ok (map (fun r => (CSVProcessor.create_record_id r, r))
                      Sample.fleet))
    by (vm_compute; reflexivity).
  destruct (@C8_three_batches_and_two_pauses
              default_config
              (Sample.world_of Sample.fleet_files Sample.always_ok)
              _ eq_refl Hload eq_refl)
    as [_ [Hp _]].
  exact Hp.
Defined.

(* ================================================================== *)
(** * Loading, beyond the scenarios above *)
(* ================================================================== *)

Unset Implicit Arguments.

Lemma filter_nil_none {A : Type} (f : A -> bool) (l : list A) :
  filter f l = [] -> forall x, In x l -> f x = false.
Proof.
  intros Hnil x Hin. destruct (f x) eqn:Hfx; [| reflexivity].
  assert (Hx : In x (filter f l)) by (apply filter_In; split; assumption).
  rewrite Hnil in Hx. destruct Hx.
Qed.

Lemma missing_columns_nil (df : DataFrame) :
  filter (fun col => negb (PyStr.mem col (columns df)))
         CSVProcessor.required_columns = []
  <-> has_required_columns df.
Proof.
  split.
  - intros Hnil col Hin.
    pose proof (filter_nil_none _ _ Hnil col Hin) as H.
    apply negb_false_iff in H. apply mem_In. exact H.
  - intros Hcols. apply filter_none. intros col Hin.
    apply Hcols in Hin. apply mem_In in Hin. rewrite Hin. reflexivity.
Qed.

(** X1. [load_csv_data] returns rows exactly when the CSV file can be
    read and has the seven required columns, and then the rows are those
    [dropna] keeps. A file that is not there raises FileNotFoundError
    with the path; a file without some required column raises
    ValueError, and the columns its message names are exactly the
    required columns the file lacks. *)
Theorem X1_load_csv_data_outcomes (fs : Files) :
  (forall rs,
     CSVProcessor.load_csv_data fs = Ok rs <->
     exists df, csv_file fs = Parsed df /\ has_required_columns df
                /\ rs = CSVProcessor.dropna (rows df))
  /\ (csv_file fs = Absent ->
      CSVProcessor.load_csv_data fs
      = Raise (mkExn FileNotFoundError
                 ("Archivo CSV no encontrado: " ++ csv_path fs)))
  /\ (forall df,
        csv_file fs = Parsed df -> ~ has_required_columns df ->
        exists missing,
          missing <> []
          /\ CSVProcessor.load_csv_data fs
             = Raise (mkExn ValueError
                        ("Columnas faltantes en el CSV: "
                         ++ PyStr.repr_list missing))
          /\ forall col,
               In col missing <->
               In col CSVProcessor.required_columns
               /\ ~ In col (columns df)).
Proof.
  split; [| split].
  - intros rs. unfold CSVProcessor.load_csv_data. split.
    + destruct (csv_file fs) as [| e | df]; try discriminate.
      destruct (filter _ CSVProcessor.required_columns) as [| c l] eqn:Hm;
        [| discriminate].
      intros H. injection H as <-. exists df.
      split; [reflexivity |]. split; [| reflexivity].
      apply missing_columns_nil. exact Hm.
    + intros [df [Hf [Hcols ->]]]. rewrite Hf.
      apply missing_columns_nil in Hcols. rewrite Hcols. reflexivity.
  - intros Hf. unfold CSVProcessor.load_csv_data. rewrite Hf. reflexivity.
  - intros df Hf Hnot. unfold CSVProcessor.load_csv_data. rewrite Hf.
    destruct (filter (fun col => negb (PyStr.mem col (columns df)))
                     CSVProcessor.required_columns) as [| c l] eqn:Hm.
    + exfalso. apply Hnot. apply missing_columns_nil. exact Hm.
    + exists (c :: l). split; [discriminate |]. split; [reflexivity |].
      intros col. rewrite <- Hm, filter_In, negb_true_iff.
      split; intros [Hin Hmem]; (split; [exact Hin |]).
      * intros Hc. apply mem_In in Hc. congruence.
      * destruct (PyStr.mem col (columns df)) eqn:Hc; [| reflexivity].
        exfalso. apply Hmem. apply mem_In. exact Hc.
Qed.

Lemma X1_witness :
  CSVProcessor.load_csv_data Sample2.short_csv
  = Raise (mkExn ValueError
             "Columnas faltantes en el CSV: ['Brand', 'VolumeLimit']")
  /\ CSVProcessor.load_csv_data Sample.no_csv
     = Raise (mkExn FileNotFoundError
                "Archivo CSV no encontrado: clases_vehiculos.csv").
Proof.
  split.
  - destruct (proj2 (proj2 (X1_load_csv_data_outcomes Sample2.short_csv))
                _ eq_refl)
      as [missing [_ [Hraise _]]].
    + intros Hcols.
      assert (H : In "Brand"
                     (columns (mkDataFrame
                                 ["IdVehicleType"; "Model";
                                  "TheoricalConsumption"; "IdCompany";
                                  "IdFuelMaster"] [])))
        by (apply Hcols; right; left; reflexivity).
      cbn in H. repeat (destruct H as [H | H]; [discriminate H |]).
      exact H.
    + clear Hraise. reflexivity.
  - exact (proj1 (proj2 (X1_load_csv_data_outcomes Sample.no_csv)) eq_refl).
Defined.

Lemma notna_some (r : RawRow) (v : Row) :
  CSVProcessor.notna r = Some v -> raw_of v = r.
Proof.
  unfold CSVProcessor.notna.
  destruct r as [[a|] [b|] [c|] [d|] [e|] [f|] [g|]]; cbn;
    intros H; try discriminate H.
  injection H as <-. reflexivity.
Qed.

(** X2. [dropna] keeps exactly the rows in which none of the seven
    required values is missing, each once and in the order of the file;
    the other rows are dropped without any trace. *)
Theorem X2_dropna_keeps_the_complete_rows (rs : list RawRow) :
  map raw_of (CSVProcessor.dropna rs) = filter complete rs
  /\ length (CSVProcessor.dropna rs) <= length rs
  /\ forall v, In v (CSVProcessor.dropna rs) <-> In (raw_of v) rs.
Proof.
  assert (Hmap : map raw_of (CSVProcessor.dropna rs) = filter complete rs).
  { induction rs as [| r rs IH]; cbn [CSVProcessor.dropna filter map].
    - reflexivity.
    - unfold complete at 1.
      destruct (CSVProcessor.notna r) as [v |] eqn:Hr.
      + cbn [map]. rewrite IH, (notna_some r v Hr). reflexivity.
      + exact IH. }
  split; [exact Hmap |]. split.
  - rewrite <- (length_map raw_of), Hmap. apply filter_length_le.
  - intros v. split.
    + intros Hin. apply (in_map raw_of) in Hin. rewrite Hmap in Hin.
      apply filter_In in Hin. exact (proj1 Hin).
    + intros Hin.
      assert (Hf : In (raw_of v) (filter complete rs)).
      { apply filter_In. split; [exact Hin |].
        unfold complete. rewrite notna_raw_of. reflexivity. }
      rewrite <- Hmap in Hf. apply in_map_iff in Hf.
      destruct Hf as [v' [Heq Hv']].
      assert (v' = v).
      { pose proof (notna_raw_of v') as H1. rewrite Heq in H1.
        rewrite notna_raw_of in H1. congruence. }
      subst. exact Hv'.
Qed.

Lemma X2_witness :
  CSVProcessor.dropna
    [raw_of Sample.ford_focus; Sample2.gap_row; raw_of Sample.fiat_uno]
  = [Sample.ford_focus; Sample.fiat_uno]
  /\ In Sample.fiat_uno
        (CSVProcessor.dropna
           [raw_of Sample.ford_focus; Sample2.gap_row;
            raw_of Sample.fiat_uno]).
Proof.
  split; [reflexivity |].
  apply (proj2 (proj2 (proj2
           (X2_dropna_keeps_the_complete_rows
              [raw_of Sample.ford_focus; Sample2.gap_row;
               raw_of Sample.fiat_uno]))
           Sample.fiat_uno)).
  right. right. left. reflexivity.
Defined.

Lemma unprocessed_loop_filter (ids : list string) (rs : list Row) :
  CSVProcessor.unprocessed_loop ids rs
  = filter (fun x => negb (PyStr.mem (fst x) ids))
           (map (fun r => (CSVProcessor.create_record_id r, r)) rs).
Proof.
  induction rs as [| r rs IH]; cbn [CSVProcessor.unprocessed_loop map filter].
  - reflexivity.
  - cbn [fst]. rewrite IH. reflexivity.
Qed.

Lemma unprocessed_loop_In
    (ids : list string) (rs : list Row) (rid : string) (row : Row) :
  In (rid, row) (CSVProcessor.unprocessed_loop ids rs)
  <-> In row rs /\ rid = CSVProcessor.create_record_id row
      /\ ~ In rid ids.
Proof.
  rewrite unprocessed_loop_filter, filter_In, in_map_iff. cbn [fst].
  rewrite negb_true_iff. split.
  - intros [[r [Heq Hr]] Hmem]. injection Heq as <- <-.
    split; [exact Hr |]. split; [reflexivity |].
    intros Hin. apply mem_In in Hin. congruence.
  - intros [Hr [-> Hnot]]. split.
    + exists row. split; [reflexivity | exact Hr].
    + destruct (PyStr.mem _ ids) eqn:Hm; [| reflexivity].
      exfalso. apply Hnot. apply mem_In. exact Hm.
Qed.

(** X3. Let the processed ledger be missing, or not readable as JSON,
    or hold its two lists. Then [get_unprocessed_records] fails exactly
    as [load_csv_data] does, with the same exception; otherwise it
    returns, in the order of the file, one entry (id, row) for every
    loaded row whose id is not in the processed ledger, and nothing
    else: no returned id is in the ledger, and every returned id is the
    id of its row. (A ledger that parses but holds something else than
    a list under "processed_ids" is not covered.) *)
Theorem X3_unprocessed_is_loaded_minus_ledger (fs : Files) :
  processed_ledger_ok fs \/ processed_ledger_lost fs ->
  (forall e, CSVProcessor.load_csv_data fs = Raise e ->
             CSVProcessor.get_unprocessed_records fs = Raise e)
  /\ (forall rs,
        CSVProcessor.load_csv_data fs = Ok rs ->
        exists recs,
          CSVProcessor.get_unprocessed_records fs = Ok recs
          /\ recs
             = filter (fun x => negb (PyStr.mem
                                        (fst x)
                                        (CSVProcessor.get_processed_records
                                           fs)))
                      (map (fun r => (CSVProcessor.create_record_id r, r))
                           rs)
          /\ forall rid row,
               In (rid, row) recs <->
               In row rs /\ rid = CSVProcessor.create_record_id row
               /\ ~ In rid (CSVProcessor.get_processed_records fs)).
Proof.
  intros _. split.
  - intros e Hload. unfold CSVProcessor.get_unprocessed_records.
    rewrite Hload. reflexivity.
  - intros rs Hload. eexists. split; [| split].
    + unfold CSVProcessor.get_unprocessed_records. rewrite Hload.
      reflexivity.
    + apply unprocessed_loop_filter.
    + intros rid row. apply unprocessed_loop_In.
Qed.

Lemma X3_witness :
  CSVProcessor.get_unprocessed_records Sample.four_of_ten
  = Ok (map (fun r => (CSVProcessor.create_record_id r, r))
            (skipn 4 Sample.ten_rows))
  /\ CSVProcessor.get_unprocessed_records Sample.no_csv
     = Raise (mkExn FileNotFoundError
                "Archivo CSV no encontrado: clases_vehiculos.csv").
Proof.
  split.
  - destruct (proj2 (X3_unprocessed_is_loaded_minus_ledger
                       Sample.four_of_ten
                       (or_introl
                          (or_intror
                             (ex_intro _ _ (ex_intro _ _ eq_refl)))))
                Sample.ten_rows)
      as [recs [Hrun [Hrecs _]]].
    + vm_compute. reflexivity.
    + rewrite Hrun, Hrecs. vm_compute. reflexivity.
  - exact (proj1 (X3_unprocessed_is_loaded_minus_ledger
                    Sample.no_csv (or_introl (or_introl eq_refl)))
                 _ eq_refl).
Defined.

(* ================================================================== *)
(** * The ledgers, beyond the scenarios above *)
(* ================================================================== *)

Lemma mem_app (x : string) (l1 l2 : list string) :
  PyStr.mem x (l1 ++ l2) = PyStr.mem x l1 || PyStr.mem x l2.
Proof. unfold PyStr.mem. apply existsb_app. Qed.

Lemma save_processed_keeps_csv
    (fs : Files) (now : Timestamp) (rid : string) (data : Row) :
  csv_file (CSVProcessor.save_processed_record now rid data fs)
  = csv_file fs
  /\ csv_path (CSVProcessor.save_processed_record now rid data fs)
     = csv_path fs.
Proof.
  unfold CSVProcessor.save_processed_record.
  destruct (CSVProcessor.save_processed_body now rid data fs);
    split; reflexivity.
Qed.

Lemma save_failed_keeps_others
    (fs : Files) (now : Timestamp) (rid : string) (data : Row)
    (msg : string) :
  csv_file (CSVProcessor.save_failed_record now rid data msg fs)
  = csv_file fs
  /\ csv_path (CSVProcessor.save_failed_record now rid data msg fs)
     = csv_path fs
  /\ processed_file (CSVProcessor.save_failed_record now rid data msg fs)
     = processed_file fs.
Proof.
  unfold CSVProcessor.save_failed_record.
  destruct (CSVProcessor.save_failed_body now rid data msg fs);
    repeat split.
Qed.

Lemma load_csv_data_same (fs fs' : Files) :
  csv_file fs' = csv_file fs -> csv_path fs' = csv_path fs ->
  CSVProcessor.load_csv_data fs' = CSVProcessor.load_csv_data fs.
Proof.
  intros Hf Hp. unfold CSVProcessor.load_csv_data. rewrite Hf, Hp.
  reflexivity.
Qed.

(** On a usable ledger, the ids after a marking are the ids before and
    the marked one. *)
Lemma save_processed_mem
    (fs : Files) (now : Timestamp) (rid : string) (data : Row) (x : string) :
  processed_ledger_ok fs ->
  PyStr.mem x (CSVProcessor.get_processed_records
                 (CSVProcessor.save_processed_record now rid data fs))
  = PyStr.mem x (CSVProcessor.get_processed_records fs)
    || String.eqb x rid.
Proof.
  unfold processed_ledger_ok, CSVProcessor.save_processed_record,
    CSVProcessor.save_processed_body, CSVProcessor.get_processed_records.
  intros [Habs | [ids [recs Hp]]]; [rewrite Habs | rewrite Hp].
  - cbn. rewrite orb_false_r. reflexivity.
  - cbn -[PyStr.mem].
    destruct (PyStr.mem rid ids) eqn:Hm; cbn -[PyStr.mem].
    + destruct (String.eqb x rid) eqn:Hx.
      * apply String.eqb_eq in Hx. rewrite Hx, Hm. reflexivity.
      * rewrite orb_false_r. reflexivity.
    + rewrite mem_app. cbn. rewrite orb_false_r. reflexivity.
Qed.

Lemma filter_filter_and {A : Type} (f g : A -> bool) (l : list A) :
  filter f (filter g l) = filter (fun x => g x && f x) l.
Proof.
  induction l as [| a l IH]; cbn.
  - reflexivity.
  - destruct (g a); cbn; [destruct (f a) |]; rewrite IH; reflexivity.
Qed.

(** X4. Marking and loading compose: on a usable processed ledger,
    after [save_processed_record] for an id the unprocessed records are
    the ones from before without the entries of that id; the entries of
    other ids are all still there, in the same order. *)
Theorem X4_marked_id_is_no_longer_unprocessed
    (fs : Files) (now : Timestamp) (rid : string) (data : Row)
    (recs : list (string * Row)) :
  processed_ledger_ok fs ->
  CSVProcessor.get_unprocessed_records fs = Ok recs ->
  CSVProcessor.get_unprocessed_records
    (CSVProcessor.save_processed_record now rid data fs)
  = Ok (filter (fun x => negb (String.eqb (fst x) rid)) recs).
Proof.
  intros Hok Hrecs.
  unfold CSVProcessor.get_unprocessed_records in *.
  destruct (save_processed_keeps_csv fs now rid data) as [Hf Hp].
  rewrite (load_csv_data_same fs _ Hf Hp).
  destruct (CSVProcessor.load_csv_data fs) as [rs | e]; [| discriminate].
  injection Hrecs as <-. f_equal.
  rewrite !unprocessed_loop_filter, filter_filter_and.
  apply filter_ext. intros x.
  rewrite (save_processed_mem fs now rid data (fst x) Hok), negb_orb.
  reflexivity.
Qed.

Lemma X4_witness :
  CSVProcessor.get_unprocessed_records
    (CSVProcessor.save_processed_record
       "2024-05-01T10:00:00" "T1_FORD_FOCUS_C1_F1" Sample.ford_focus
       Sample.fresh_files)
  = Ok [("T2_FIAT_UNO_C1_F1", Sample.fiat_uno)].
Proof.
  assert (Hok : processed_ledger_ok Sample.fresh_files)
    by (left; reflexivity).
  rewrite (@X4_marked_id_is_no_longer_unprocessed
             Sample.fresh_files "2024-05-01T10:00:00"
             "T1_FORD_FOCUS_C1_F1" Sample.ford_focus
             [("T1_FORD_FOCUS_C1_F1", Sample.ford_focus);
              ("T1_FORD_FOCUS_C1_F1", Sample.FORD_FOCUS);
              ("T2_FIAT_UNO_C1_F1", Sample.fiat_uno)]
             Hok eq_refl).
  reflexivity.
Defined.

(** X5. Recording a failure changes nothing but the failed ledger: what
    is processed and what is unprocessed are as before, whatever state
    the files are in, so a failed record is offered again by the next
    load. *)
Theorem X5_failure_leaves_record_unprocessed
    (fs : Files) (now : Timestamp) (rid : string) (data : Row)
    (msg : string) :
  let fs' := CSVProcessor.save_failed_record now rid data msg fs in
  CSVProcessor.get_processed_records fs'
  = CSVProcessor.get_processed_records fs
  /\ CSVProcessor.get_unprocessed_records fs'
     = CSVProcessor.get_unprocessed_records fs
  /\ processed_entries fs' = processed_entries fs.
Proof.
  intros fs'.
  destruct (save_failed_keeps_others fs now rid data msg)
    as [Hf [Hp Hproc]].
  fold fs' in Hf, Hp, Hproc.
  assert (Hids : CSVProcessor.get_processed_records fs'
                 = CSVProcessor.get_processed_records fs).
  { unfold CSVProcessor.get_processed_records. rewrite Hproc.
    reflexivity. }
  split; [exact Hids |]. split.
  - unfold CSVProcessor.get_unprocessed_records.
    rewrite (load_csv_data_same fs _ Hf Hp), Hids. reflexivity.
  - unfold processed_entries. rewrite Hproc. reflexivity.
Qed.

Lemma NoDup_snoc {A : Type} (l : list A) (x : A) :
  NoDup l -> ~ In x l -> NoDup (l ++ [x]).
Proof.
  induction l as [| a l IH]; cbn; intros Hnd Hx.
  - constructor; [intros [] | constructor].
  - inversion Hnd as [| a' l' Ha Hl]; subst. constructor.
    + intros Hin. apply in_app_or in Hin. destruct Hin as [Hin | [-> | []]].
      * exact (Ha Hin).
      * apply Hx. left. reflexivity.
    + apply IH; [exact Hl |]. intros Hin. apply Hx. right. exact Hin.
Qed.

(** X6. The processed ledger keeps its shape: if it is not there yet,
    or its id list is the list of the ids of its entries and has no id
    twice, the same holds after [save_processed_record]. A ledger
    written by this program alone never holds an id twice and never has
    an id without its entry. *)
Theorem X6_processed_ledger_stays_aligned
    (fs : Files) (now : Timestamp) (rid : string) (data : Row) :
  ledger_aligned fs ->
  let fs' := CSVProcessor.save_processed_record now rid data fs in
  ledger_aligned fs'
  /\ map pe_id (processed_entries fs')
     = CSVProcessor.get_processed_records fs'
  /\ NoDup (CSVProcessor.get_processed_records fs')
  /\ In rid (CSVProcessor.get_processed_records fs').
Proof.
  unfold ledger_aligned, CSVProcessor.save_processed_record,
    CSVProcessor.save_processed_body, processed_entries,
    CSVProcessor.get_processed_records.
  intros [Habs | [ids [recs [Hp [Hmap Hnd]]]]]; [rewrite Habs | rewrite Hp];
    cbn.
  - split; [| split; [reflexivity | split]].
    + right. eexists; eexists. split; [reflexivity |].
      split; [reflexivity |]. constructor; [intros [] | constructor].
    + constructor; [intros [] | constructor].
    + left. reflexivity.
  - destruct (PyStr.mem rid ids) eqn:Hm; cbn.
    + split; [| split; [exact Hmap | split]].
      * right. exists ids, recs. repeat split; assumption.
      * exact Hnd.
      * apply mem_In. exact Hm.
    + assert (Hnot : ~ In rid ids).
      { intros Hin. apply mem_In in Hin. congruence. }
      assert (Hmap' : map pe_id
                        (recs ++ [mkProcessedEntry rid data now])
                      = (ids ++ [rid])%list).
      { rewrite map_app, Hmap. reflexivity. }
      split; [| split; [exact Hmap' | split]].
      * right. eexists; eexists. split; [reflexivity |].
        split; [exact Hmap' | apply NoDup_snoc; assumption].
      * apply NoDup_snoc; assumption.
      * apply in_or_app. right. left. reflexivity.
Qed.

Lemma X6_witness :
  ledger_aligned
    (CSVProcessor.save_processed_record
       "2024-05-02T08:00:00" "T1_FORD_FOCUS_C1_F1" Sample.ford_focus
       Sample.marked_files)
  /\ CSVProcessor.get_processed_records
       (CSVProcessor.save_processed_record
          "2024-05-02T08:00:00" "T1_FORD_FOCUS_C1_F1" Sample.ford_focus
          Sample.marked_files)
     = ["T2_FIAT_UNO_C1_F1"; "T1_FORD_FOCUS_C1_F1"].
Proof.
  assert (Hal : ledger_aligned Sample.marked_files).
  { right. eexists; eexists. split; [reflexivity |].
    split; [reflexivity |].
    constructor; [intros [] | constructor]. }
  split.
  - exact (proj1 (@X6_processed_ledger_stays_aligned
                    Sample.marked_files "2024-05-02T08:00:00"
                    "T1_FORD_FOCUS_C1_F1" Sample.ford_focus Hal)).
  - reflexivity.
Defined.

(** In every state of the ledger file a marking appends at most the id
    and its entry to what the ledger showed. *)
Lemma save_processed_appends
    (fs : Files) (now : Timestamp) (rid : string) (data : Row) :
  exists new_ids new_entries,
    CSVProcessor.get_processed_records
      (CSVProcessor.save_processed_record now rid data fs)
    = (CSVProcessor.get_processed_records fs ++ new_ids)%list
    /\ processed_entries
         (CSVProcessor.save_processed_record now rid data fs)
       = (processed_entries fs ++ new_entries)%list
    /\ (new_ids = [] /\ new_entries = []
        \/ new_ids = [rid]
           /\ new_entries = [mkProcessedEntry rid data now]).
Proof.
  unfold CSVProcessor.save_processed_record,
    CSVProcessor.save_processed_body, processed_entries,
    CSVProcessor.get_processed_records.
  destruct (processed_file fs) as [| e | pd] eqn:Hf; cbn.
  - exists [rid], [mkProcessedEntry rid data now].
    split; [reflexivity |]. split; [reflexivity |]. right. split;
      reflexivity.
  - rewrite Hf. exists [], []. repeat split. left. split; reflexivity.
  - destruct (processed_ids pd) as [ids |] eqn:Hi; cbn.
    + destruct (PyStr.mem rid ids); cbn.
      * rewrite Hi. exists [], []. rewrite !app_nil_r.
        repeat split. left. split; reflexivity.
      * destruct (records pd) as [recs |] eqn:Hr; cbn.
        -- exists [rid], [mkProcessedEntry rid data now].
           repeat split. right. split; reflexivity.
        -- rewrite Hf, Hi, Hr. exists [], []. rewrite !app_nil_r.
           repeat split. left. split; reflexivity.
    + rewrite Hf, Hi. exists [], []. rewrite !app_nil_r.
      repeat split. left. split; reflexivity.
Qed.

(** X7. [save_processed_record] only ever appends: the ids and the
    entries the ledger showed before are still there, in the same
    places, followed by at most the new id and its entry; and neither
    the CSV nor the failed ledger is touched. This holds in every state
    of the ledger file. *)
Theorem X7_processed_ledger_is_append_only
    (fs : Files) (now : Timestamp) (rid : string) (data : Row) :
  let fs' := CSVProcessor.save_processed_record now rid data fs in
  (exists new_ids new_entries,
     CSVProcessor.get_processed_records fs'
     = (CSVProcessor.get_processed_records fs ++ new_ids)%list
     /\ processed_entries fs'
        = (processed_entries fs ++ new_entries)%list
     /\ (new_ids = [] /\ new_entries = []
         \/ new_ids = [rid]
            /\ new_entries = [mkProcessedEntry rid data now]))
  /\ csv_file fs' = csv_file fs
  /\ failed_file fs' = failed_file fs.
Proof.
  intros fs'. split; [apply save_processed_appends |].
  split.
  - apply save_processed_keeps_csv.
  - apply save_processed_keeps_failed_file.
Qed.

(* ================================================================== *)
(** * Sending, beyond the scenarios above *)
(* ================================================================== *)

Ltac attempt_leaf Hreply :=
  eexists; eexists; split; [reflexivity |];
  split; [reflexivity |];
  split;
  [ let H := fresh in
    intros H; first [discriminate H | apply Nat.ltb_lt; assumption]
  | split;
    [ let H := fresh in
      intros ? ? H; first
        [ discriminate H
        | injection H as <- <-; try rewrite Hreply; cbn [accepted];
          split; [assumption | split; [reflexivity | discriminate]] ]
    | let H := fresh in
      intros ? ? H; first
        [ discriminate H
        | injection H as <- <-;
          split; [reflexivity |];
          eexists; split; [reflexivity | cbn; discriminate] ] ] ].

(** What one attempt does: one POST; then either a wait and the next
    attempt (only when an attempt is left), or a result, which reports
    success only for a 200 or 201 answer and otherwise carries a
    message. *)
Lemma attempt_body_shape
    (n_retries : nat) (p : WireRecord) (attempt : nat) (w : World) :
  exists r w',
    ATIONETService.attempt_body n_retries p attempt w = (Ok r, w')
    /\ w' = match r with
            | None =>
                after (time_sleep Backoff (PyInt (2 ^ Z.of_nat attempt)))
                      (after (requests_post p) w)
            | Some _ => after (requests_post p) w
            end
    /\ (r = None -> attempt < n_retries - 1)
    /\ (forall resp err,
          r = Some (true, resp, err) ->
          accepted (endpoint w (posts w) p) = true
          /\ err = None /\ resp <> None)
    /\ (forall resp err,
          r = Some (false, resp, err) ->
          resp = None /\ exists msg, err = Some msg /\ msg <> EmptyString).
Proof.
  unfold ATIONETService.attempt_body, after. run_monad.
  destruct (endpoint w (posts w) p) as [resp | e] eqn:Hreply;
    cbv beta iota.
  - destruct ((status_code resp =? 200) || (status_code resp =? 201))%Z
      eqn:Hacc.
    + destruct (json resp) as [d | e]; cbv beta iota.
      * attempt_leaf Hreply.
      * destruct e as [cls msg]; cbn [exn_class exn_msg];
          destruct cls; cbv beta iota; cbn [exn_class exn_msg];
          destruct (attempt <? n_retries - 1) eqn:Hlt;
          attempt_leaf Hreply.
    + destruct (status_code resp =? 409)%Z; [attempt_leaf Hreply |].
      destruct (status_code resp >=? 400)%Z; [attempt_leaf Hreply |].
      destruct (attempt <? n_retries - 1) eqn:Hlt; attempt_leaf Hreply.
  - destruct e as [cls msg]; cbn [exn_class exn_msg];
      destruct cls; cbv beta iota; cbn [exn_class exn_msg];
      destruct (attempt <? n_retries - 1) eqn:Hlt;
      attempt_leaf Hreply.
Qed.

Lemma posted_snoc (tr : list Event) (e : Event) :
  posted (tr ++ [e])
  = (posted tr ++ match e with EvPost p => [p] | _ => [] end)%list.
Proof.
  unfold posted. rewrite flat_map_app. cbn. rewrite app_nil_r.
  reflexivity.
Qed.

Lemma backoff_waits_snoc (tr : list Event) (e : Event) :
  backoff_waits (tr ++ [e])
  = (backoff_waits tr
     ++ match e with EvSleep Backoff secs => [secs] | _ => [] end)%list.
Proof.
  unfold backoff_waits. rewrite flat_map_app. cbn. rewrite app_nil_r.
  reflexivity.
Qed.

(** What a successful attempt rests on: the POST was answered 200 or
    201, and the response is the JSON of that answer, or the stand-in
    when the answer is not JSON. *)
Lemma attempt_body_success
    (n_retries : nat) (p : WireRecord) (attempt : nat) (w w' : World)
    (resp : option ATIONETService.ResponseData) (err : option string) :
  ATIONETService.attempt_body n_retries p attempt w
  = (Ok (Some (true, resp, err)), w') ->
  exists answer,
    endpoint w (posts w) p = Ok answer
    /\ accepted (Ok answer) = true
    /\ err = None
    /\ ((exists d, json answer = Ok d
                   /\ resp = Some (ATIONETService.FromBody d))
        \/ (exists e, json answer = Raise e
                      /\ exn_class e = JSONDecodeError
                      /\ resp = Some ATIONETService.StatusSuccess)).
Proof.
  unfold ATIONETService.attempt_body. run_monad.
  destruct (endpoint w (posts w) p) as [answer | e]; cbv beta iota.
  - destruct ((status_code answer =? 200) || (status_code answer =? 201))%Z
      eqn:Hacc.
    + destruct (json answer) as [d | e] eqn:Hjson; cbv beta iota.
      * intros H. injection H as <- <- _. exists answer.
        split; [reflexivity |]. split; [exact Hacc |].
        split; [reflexivity |]. left. exists d.
        split; [exact Hjson | reflexivity].
      * destruct e as [cls msg]; cbn [exn_class exn_msg];
          destruct cls; cbv beta iota; cbn [exn_class exn_msg];
          try match goal with
              | |- context [attempt <? n_retries - 1] =>
                  destruct (attempt <? n_retries - 1)
              end;
          intros H; try discriminate H.
        injection H as <- <- _. exists answer.
        split; [reflexivity |]. split; [exact Hacc |].
        split; [reflexivity |]. right. eexists.
        split; [exact Hjson |]. split; reflexivity.
    + destruct (status_code answer =? 409)%Z;
        [intros H; discriminate H |].
      destruct (status_code answer >=? 400)%Z;
        [intros H; discriminate H |].
      destruct (attempt <? n_retries - 1); intros H; discriminate H.
  - destruct e as [cls msg]; cbn [exn_class exn_msg];
      destruct cls; cbv beta iota; cbn [exn_class exn_msg];
      try match goal with
              | |- context [attempt <? n_retries - 1] =>
                  destruct (attempt <? n_retries - 1)
              end;
      intros H; discriminate H.
Qed.

(** The loop over the attempts [a, a+1, ..., a+n-1] when [a + n] is the
    number of attempts allowed. *)
Lemma send_attempts_spec (n_retries : nat) (p : WireRecord) :
  forall (n a : nat) (w : World),
    a + n = n_retries ->
    exists r w' k,
      for_return (seq a n) (ATIONETService.attempt_body n_retries p) w
      = (Ok r, w')
      /\ k <= n /\ (0 < n -> 0 < k)
      /\ posts w' = posts w + k
      /\ endpoint w' = endpoint w
      /\ trace w' = (trace w ++ attempts_trace p a k)%list
      /\ posted (trace w') = (posted (trace w) ++ repeat p k)%list
      /\ backoff_waits (trace w')
         = (backoff_waits (trace w) ++ backoff_series a (k - 1))%list
      /\ (r = None -> n = 0)
      /\ (forall resp err,
            r = Some (true, resp, err) ->
            exists answer,
              endpoint w (posts w + k - 1) p = Ok answer
              /\ accepted (Ok answer) = true
              /\ err = None
              /\ ((exists d, json answer = Ok d
                             /\ resp = Some (ATIONETService.FromBody d))
                  \/ (exists e, json answer = Raise e
                                /\ exn_class e = JSONDecodeError
                                /\ resp
                                   = Some ATIONETService.StatusSuccess)))
      /\ (forall resp err,
            r = Some (false, resp, err) ->
            resp = None
            /\ exists msg, err = Some msg /\ msg <> EmptyString).
Proof.
  induction n as [| m IH]; intros a w Hsum.
  - exists None, w, 0. cbn. rewrite !app_nil_r, Nat.add_0_r.
    repeat split; try lia; intros; discriminate.
  - cbn [seq for_return]. unfold bind at 1.
    destruct (attempt_body_shape n_retries p a w)
      as [r1 [w1 [Hrun [Hw1 [Hnone [_ Hno]]]]]].
    rewrite Hrun. destruct r1 as [res |].
    + exists (Some res), w1, 1.
      assert (Hyes : forall resp err,
                Some res = Some (true, resp, err) ->
                exists answer,
                  endpoint w (posts w + 1 - 1) p = Ok answer
                  /\ accepted (Ok answer) = true
                  /\ err = None
                  /\ ((exists d, json answer = Ok d
                                 /\ resp = Some (ATIONETService.FromBody d))
                      \/ (exists e,
                             json answer = Raise e
                             /\ exn_class e = JSONDecodeError
                             /\ resp = Some ATIONETService.StatusSuccess))).
      { intros resp err H. injection H as ->.
        replace (posts w + 1 - 1) with (posts w) by lia.
        eapply attempt_body_success. exact Hrun. }
      subst w1. unfold after. cbn.
      rewrite posted_snoc, backoff_waits_snoc, app_nil_r.
      split; [reflexivity |]. split; [lia |]. split; [lia |].
      split; [lia |]. split; [reflexivity |]. split; [reflexivity |].
      split; [reflexivity |]. split; [reflexivity |].
      split; [discriminate |].
      split; [exact Hyes | exact Hno].
    + specialize (Hnone eq_refl).
      destruct (IH (S a) w1 ltac:(lia))
        as [r [w' [k [Hrest [Hle [Hpos [Hposts [Hep [Htrace [Hposted
              [Hwaits [Hn [Hy Hf]]]]]]]]]]]]].
      assert (Hk : 0 < k) by (apply Hpos; lia).
      exists r, w', (S k).
      assert (Hp1 : posts w1 = S (posts w)) by (subst w1; reflexivity).
      assert (He1 : endpoint w1 = endpoint w) by (subst w1; reflexivity).
      assert (Ht1 : trace w1
                    = ((trace w ++ [EvPost p])
                       ++ [EvSleep Backoff (PyInt (2 ^ Z.of_nat a))])%list)
        by (subst w1; reflexivity).
      split; [exact Hrest |].
      split; [lia |]. split; [lia |].
      split; [lia |]. split; [congruence |].
      split.
      { rewrite Htrace, Ht1, <- !app_assoc.
        destruct k as [| k']; [lia |]. reflexivity. }
      split.
      { rewrite Hposted, Ht1, !posted_snoc, app_nil_r, <- app_assoc.
        reflexivity. }
      split.
      { rewrite Hwaits, Ht1, !backoff_waits_snoc, app_nil_r,
          <- app_assoc.
        unfold backoff_series.
        replace (S k - 1) with (S (k - 1)) by lia.
        cbn [seq map app]. reflexivity. }
      split; [intros H; specialize (Hn H); lia |].
      split.
      * intros resp err H.
        destruct (Hy resp err H) as [answer [Ha Hrest']].
        exists answer. split; [| exact Hrest'].
        rewrite He1, Hp1 in Ha.
        replace (posts w + S k - 1) with (S (posts w) + k - 1) by lia.
        exact Ha.
      * exact Hf.
Qed.

(** A call of [send_vehicle_data], for any number of attempts allowed:
    what it leaves in the trace and what its triple rests on. *)
Lemma send_vehicle_data_events
    (n_retries : nat) (p : WireRecord) (w : World) :
  exists res w' k,
    ATIONETService.send_vehicle_data n_retries p w = (Ok res, w')
    /\ k <= n_retries /\ (0 < n_retries -> 1 <= k)
    /\ posts w' = posts w + k
    /\ trace w' = (trace w ++ attempts_trace p 0 k)%list
    /\ quiet w w'
    /\ (n_retries = 0 ->
        res = (false, None, Some "Error después de múltiples intentos"))
    /\ (forall resp err,
          res = (true, resp, err) ->
          0 < k
          /\ exists answer,
               endpoint w (posts w + k - 1) p = Ok answer
               /\ accepted (Ok answer) = true
               /\ err = None
               /\ ((exists d, json answer = Ok d
                              /\ resp = Some (ATIONETService.FromBody d))
                   \/ (exists e, json answer = Raise e
                                 /\ exn_class e = JSONDecodeError
                                 /\ resp
                                    = Some ATIONETService.StatusSuccess)))
    /\ (forall resp err,
          res = (false, resp, err) ->
          resp = None /\ exists msg, err = Some msg /\ msg <> EmptyString).
Proof.
  destruct (send_attempts_spec n_retries p n_retries 0 w eq_refl)
    as [r [w' [k [Hrun [Hle [Hpos [Hposts [_ [Htrace [_ [_
          [Hn [Hy Hf]]]]]]]]]]]]].
  destruct (for_return_attempts_quiet n_retries p (seq 0 n_retries) w)
    as [r2 [w2 [Hrun2 Hq]]].
  rewrite Hrun in Hrun2. injection Hrun2 as <- <-.
  unfold ATIONETService.send_vehicle_data. unfold bind at 1.
  rewrite Hrun.
  destruct r as [res |].
  - exists res, w', k. split; [reflexivity |].
    split; [exact Hle |]. split; [exact Hpos |]. split; [exact Hposts |].
    split; [exact Htrace |]. split; [exact Hq |].
    split; [intros ->; cbn in Hrun; discriminate Hrun |].
    split.
    + intros resp err ->. split; [| exact (Hy resp err eq_refl)].
      apply Hpos. destruct n_retries; [| lia].
      cbn in Hrun. discriminate Hrun.
    + intros resp err ->. exact (Hf resp err eq_refl).
  - exists (false, None, Some "Error después de múltiples intentos"), w', k.
    split; [reflexivity |].
    split; [exact Hle |]. split; [exact Hpos |]. split; [exact Hposts |].
    split; [exact Htrace |]. split; [exact Hq |].
    split; [reflexivity |].
    split; [intros resp err H; discriminate H |].
    intros resp err H. injection H as <- <-.
    split; [reflexivity |]. eexists. split; [reflexivity | discriminate].
Qed.

(** The bounds of a call, for any number of attempts allowed. *)
Lemma send_vehicle_data_bounded
    (n_retries : nat) (p : WireRecord) (w : World) :
  exists res w' k,
    ATIONETService.send_vehicle_data n_retries p w = (Ok res, w')
    /\ k <= n_retries /\ (0 < n_retries -> 1 <= k)
    /\ posts w' = posts w + k
    /\ posted (trace w') = (posted (trace w) ++ repeat p k)%list
    /\ backoff_waits (trace w')
       = (backoff_waits (trace w) ++ backoff_series 0 (k - 1))%list
    /\ quiet w w'
    /\ (n_retries = 0 ->
        res = (false, None, Some "Error después de múltiples intentos")).
Proof.
  destruct (send_attempts_spec n_retries p n_retries 0 w eq_refl)
    as [r [w' [k [Hrun [Hle [Hpos [Hposts [_ [_ [Hposted [Hwaits
          [Hn _]]]]]]]]]]]].
  destruct (for_return_attempts_quiet n_retries p (seq 0 n_retries) w)
    as [r2 [w2 [Hrun2 Hq]]].
  rewrite Hrun in Hrun2. injection Hrun2 as <- <-.
  unfold ATIONETService.send_vehicle_data. unfold bind at 1.
  rewrite Hrun.
  destruct r as [res |].
  - exists res, w', k. split; [reflexivity |].
    repeat split; try assumption; try lia.
    + apply Hq. + apply Hq. + apply Hq. + apply Hq. + apply Hq.
    + intros ->. assert (k = 0) by lia. subst k.
      specialize (Hpos). exfalso.
      cbn in Hrun. discriminate Hrun.
  - exists (false, None, Some "Error después de múltiples intentos"), w', k.
    split; [reflexivity |].
    repeat split; try assumption; try lia; apply Hq.
Qed.

(** X8. [send_vehicle_data] always returns its triple and never makes
    more POSTs than the attempts allowed; with at least one attempt
    allowed it makes at least one. What the call adds to the trace is
    exactly this, in this order: a POST of the record, then, as long as
    another POST follows, a wait of 1, 2, 4, ... seconds and the next
    POST of the same record. So a wait stands between two POSTs and
    nowhere else: there is none before the first POST and none after
    the last. Files, clock and ledgers are not touched. With no attempt
    allowed the call adds nothing to the trace and returns its closing
    error. *)
Theorem X8_send_makes_bounded_attempts
    (n_retries : nat) (p : WireRecord) (w : World) :
  exists res w' k,
    ATIONETService.send_vehicle_data n_retries p w = (Ok res, w')
    /\ k <= n_retries /\ (0 < n_retries -> 1 <= k)
    /\ posts w' = posts w + k
    /\ trace w' = (trace w ++ attempts_trace p 0 k)%list
    /\ quiet w w'
    /\ (n_retries = 0 ->
        res = (false, None, Some "Error después de múltiples intentos")).
Proof.
  destruct (send_vehicle_data_events n_retries p w)
    as [res [w' [k [Hrun [Hle [Hpos [Hposts [Htrace [Hq [Hzero _]]]]]]]]]].
  exists res, w', k. repeat (split; [assumption |]). exact Hzero.
Qed.

Lemma X8_witness :
  exists res w',
    ATIONETService.send_vehicle_data 3 Sample.wire
      (Sample.world_of Sample.fresh_files Sample2.always_timeout)
    = (Ok res, w')
    /\ trace w'
       = [EvPost Sample.wire; EvSleep Backoff (PyInt 1);
          EvPost Sample.wire; EvSleep Backoff (PyInt 2);
          EvPost Sample.wire].
Proof.
  destruct (X8_send_makes_bounded_attempts
              3 Sample.wire
              (Sample.world_of Sample.fresh_files Sample2.always_timeout))
    as [res [w' [k [Hrun [Hle [Hpos [Hposts [Htrace _]]]]]]]].
  exists res, w'. split; [exact Hrun |].
  assert (Hk : k = 3).
  { cbn in Hrun. injection Hrun as _ Hw. subst w'. cbn in Hposts.
    symmetry. exact Hposts. }
  rewrite Htrace, Hk. reflexivity.
Defined.

(** X9. What the triple rests on. Success is reported only when the
    last POST of the call was answered 200 or 201; there is then no
    error, and the response is what [response.json()] gave for that
    answer (whatever JSON value the body holds), or the stand-in
    [{"status": "success"}] when the body is not JSON. A failure has no
    response and a message that is not empty. *)
Theorem X9_send_result_is_well_formed
    (n_retries : nat) (p : WireRecord) (w : World) :
  exists success resp err w',
    ATIONETService.send_vehicle_data n_retries p w
    = (Ok (success, resp, err), w')
    /\ (success = true ->
        posts w < posts w'
        /\ exists answer,
             endpoint w (posts w' - 1) p = Ok answer
             /\ accepted (Ok answer) = true
             /\ err = None
             /\ ((exists d, json answer = Ok d
                            /\ resp = Some (ATIONETService.FromBody d))
                 \/ (exists e, json answer = Raise e
                               /\ exn_class e = JSONDecodeError
                               /\ resp
                                  = Some ATIONETService.StatusSuccess)))
    /\ (success = false ->
        resp = None /\ exists msg, err = Some msg /\ msg <> EmptyString).
Proof.
  destruct (send_vehicle_data_events n_retries p w)
    as [[[success resp] err]
          [w' [k [Hrun [_ [_ [Hposts [_ [_ [_ [Hy Hf]]]]]]]]]]].
  exists success, resp, err, w'. split; [exact Hrun |]. split.
  - intros ->. destruct (Hy resp err eq_refl) as [Hk Hanswer].
    rewrite Hposts. split; [lia | exact Hanswer].
  - intros ->. exact (Hf resp err eq_refl).
Qed.

Lemma X9_witness :
  (exists w',
     ATIONETService.send_vehicle_data 3 Sample.wire
       (Sample.world_of Sample.fresh_files Sample.slow_twice)
     = (Ok (true, Some (ATIONETService.FromBody "{}"), None), w')
     /\ posts w' = 3
     /\ Sample.slow_twice 2 Sample.wire
        = Ok (mkResponse 200 "{}" (Ok "{}")))
  /\ (exists w',
        ATIONETService.send_vehicle_data 3 Sample.wire
          (Sample.world_of Sample.fresh_files Sample.reject_first)
        = (Ok (false, None, Some "Error del cliente (400): bad request"),
           w')).
Proof.
  split.
  - destruct (X9_send_result_is_well_formed
                3 Sample.wire
                (Sample.world_of Sample.fresh_files Sample.slow_twice))
      as [success [resp [err [w' [Hrun [Hyes _]]]]]].
    assert (Hs : success = true).
    { cbn in Hrun. injection Hrun as Hs _. symmetry. exact Hs. }
    assert (Hp : posts w' = 3).
    { cbn in Hrun. injection Hrun as _ _ _ Hw. subst w'. reflexivity. }
    destruct (Hyes Hs) as [_ [answer [Ha [_ [He Hresp]]]]].
    rewrite Hp in Ha. cbn in Ha. injection Ha as <-.
    destruct Hresp as [[d [Hd Hr]] | [e [Hd _]]]; [| discriminate Hd].
    cbn in Hd. injection Hd as <-.
    exists w'. subst success resp err.
    split; [exact Hrun |]. split; [exact Hp | reflexivity].
  - destruct (X9_send_result_is_well_formed
                3 Sample.wire
                (Sample.world_of Sample.fresh_files Sample.reject_first))
      as [success [resp [err [w' [Hrun [_ Hfail]]]]]].
    assert (Hs : success = false).
    { cbn in Hrun. injection Hrun as Hs _. symmetry. exact Hs. }
    destruct (Hfail Hs) as [Hresp [msg [Herr _]]].
    assert (Hm : err = Some "Error del cliente (400): bad request").
    { cbn in Hrun. injection Hrun as _ _ Hm _. symmetry. exact Hm. }
    exists w'. subst success resp. rewrite Hm in Hrun. exact Hrun.
Defined.

Lemma attempt_retry
    (n_retries : nat) (p : WireRecord) (attempt : nat) (w : World) :
  retryable (endpoint w (posts w) p) = true ->
  attempt < n_retries - 1 ->
  ATIONETService.attempt_body n_retries p attempt w
  = (Ok None,
     after (time_sleep Backoff (PyInt (2 ^ Z.of_nat attempt)))
           (after (requests_post p) w)).
Proof.
  intros Hre Hlt. apply Nat.ltb_lt in Hlt.
  unfold ATIONETService.attempt_body, after. run_monad.
  unfold retryable in Hre.
  destruct (endpoint w (posts w) p) as [resp | e]; cbv beta iota.
  - apply andb_prop in Hre. destruct Hre as [Hre H400].
    apply andb_prop in Hre. destruct Hre as [H200 H409].
    apply negb_true_iff in H200, H409, H400.
    rewrite H200, H409, H400, Hlt. reflexivity.
  - destruct e as [cls msg]. cbn [exn_class] in *.
    destruct cls; try discriminate Hre; rewrite Hlt; reflexivity.
Qed.

Lemma attempt_give_up
    (n_retries : nat) (p : WireRecord) (attempt : nat) (w : World) :
  retryable (endpoint w (posts w) p) = true ->
  ~ attempt < n_retries - 1 ->
  exists msg,
    ATIONETService.attempt_body n_retries p attempt w
    = (Ok (Some (false, None, Some msg)), after (requests_post p) w)
    /\ (forall e, endpoint w (posts w) p = Raise e ->
                  exn_class e = Timeout ->
                  msg = "Timeout después de múltiples intentos").
Proof.
  intros Hre Hlt.
  assert (Hb : (attempt <? n_retries - 1) = false)
    by (apply Nat.ltb_ge; lia).
  unfold ATIONETService.attempt_body, after. run_monad.
  unfold retryable in Hre.
  destruct (endpoint w (posts w) p) as [resp | e]; cbv beta iota.
  - apply andb_prop in Hre. destruct Hre as [Hre H400].
    apply andb_prop in Hre. destruct Hre as [H200 H409].
    apply negb_true_iff in H200, H409, H400.
    rewrite H200, H409, H400, Hb. eexists. split; [reflexivity |].
    intros e He. discriminate He.
  - destruct e as [cls msg]. cbn [exn_class] in *.
    destruct cls; try discriminate Hre; rewrite Hb;
      (eexists; split; [reflexivity |]);
      intros e He Hc; injection He as <-; cbn in Hc;
      first [reflexivity | discriminate Hc].
Qed.

Lemma attempt_accept
    (n_retries : nat) (p : WireRecord) (attempt : nat) (w : World)
    (resp : Response) (d : string) :
  endpoint w (posts w) p = Ok resp ->
  accepted (Ok resp) = true ->
  json resp = Ok d ->
  ATIONETService.attempt_body n_retries p attempt w
  = (Ok (Some (true, Some (ATIONETService.FromBody d), None)),
     after (requests_post p) w).
Proof.
  intros Hep Hacc Hjson. cbn [accepted] in Hacc.
  unfold ATIONETService.attempt_body, after. run_monad.
  rewrite Hep. cbv beta iota. rewrite Hacc, Hjson. reflexivity.
Qed.

Lemma retries_then_accept (n_retries : nat) (p : WireRecord)
    (resp : Response) (d : string) :
  forall (k n a : nat) (w : World),
    a + n = n_retries -> k < n ->
    (forall i, i < k -> retryable (endpoint w (posts w + i) p) = true) ->
    endpoint w (posts w + k) p = Ok resp ->
    accepted (Ok resp) = true ->
    json resp = Ok d ->
    exists w',
      for_return (seq a n) (ATIONETService.attempt_body n_retries p) w
      = (Ok (Some (true, Some (ATIONETService.FromBody d), None)), w')
      /\ posts w' = posts w + k + 1
      /\ backoff_waits (trace w')
         = (backoff_waits (trace w) ++ backoff_series a k)%list.
Proof.
  induction k as [| k IH]; intros n a w Hsum Hk Hre Hep Hacc Hjson.
  - destruct n as [| m]; [lia |].
    cbn [seq for_return]. unfold bind at 1.
    rewrite Nat.add_0_r in Hep.
    rewrite (attempt_accept n_retries p a w resp d Hep Hacc Hjson).
    eexists. split; [reflexivity |]. unfold after. cbn.
    rewrite backoff_waits_snoc, !app_nil_r. split; [lia | reflexivity].
  - destruct n as [| m]; [lia |].
    cbn [seq for_return]. unfold bind at 1.
    assert (Hre0 : retryable (endpoint w (posts w) p) = true).
    { specialize (Hre 0 ltac:(lia)). rewrite Nat.add_0_r in Hre.
      exact Hre. }
    rewrite (attempt_retry n_retries p a w Hre0 ltac:(lia)).
    set (w1 := after (time_sleep Backoff (PyInt (2 ^ Z.of_nat a)))
                     (after (requests_post p) w)).
    assert (Hp1 : posts w1 = S (posts w)) by reflexivity.
    assert (He1 : endpoint w1 = endpoint w) by reflexivity.
    destruct (IH m (S a) w1 ltac:(lia) ltac:(lia)) as [w' [Hrun [Hposts Hw]]].
    + intros i Hi. rewrite He1, Hp1.
      replace (S (posts w) + i) with (posts w + S i) by lia.
      apply Hre. lia.
    + rewrite He1, Hp1.
      replace (S (posts w) + k) with (posts w + S k) by lia. exact Hep.
    + exact Hacc.
    + exact Hjson.
    + exists w'. split; [exact Hrun |]. split; [lia |].
      rewrite Hw. unfold w1, after. cbn [trace snd time_sleep emit modify
                                          requests_post].
      rewrite !backoff_waits_snoc, app_nil_r, <- app_assoc.
      reflexivity.
Qed.

(** X10. The retry that the code does perform. If the first [k] POSTs
    end in a timeout, a connection error or a status below 400 other
    than 200, 201 and 409, and the next one is accepted (200 or 201)
    with a JSON body, and [k] is less than the attempts allowed, then
    the call succeeds with that body after [k + 1] POSTs, having waited
    1, 2, ..., 2^(k-1) seconds. *)
Theorem X10_transient_failures_are_retried
    (n_retries k : nat) (p : WireRecord) (w : World)
    (resp : Response) (d : string) :
  k < n_retries ->
  (forall i, i < k -> retryable (endpoint w (posts w + i) p) = true) ->
  endpoint w (posts w + k) p = Ok resp ->
  accepted (Ok resp) = true ->
  json resp = Ok d ->
  exists w',
    ATIONETService.send_vehicle_data n_retries p w
    = (Ok (true, Some (ATIONETService.FromBody d), None), w')
    /\ posts w' = posts w + k + 1
    /\ backoff_waits (trace w')
       = (backoff_waits (trace w) ++ backoff_series 0 k)%list.
Proof.
  intros Hk Hre Hep Hacc Hjson.
  destruct (retries_then_accept n_retries p resp d k n_retries 0 w
              eq_refl Hk Hre Hep Hacc Hjson)
    as [w' [Hrun [Hposts Hw]]].
  exists w'. unfold ATIONETService.send_vehicle_data. unfold bind at 1.
  rewrite Hrun. repeat split; assumption.
Qed.

Lemma X10_witness :
  exists w',
    ATIONETService.send_vehicle_data 3 Sample.wire
      (Sample.world_of Sample.fresh_files Sample.slow_twice)
    = (Ok (true, Some (ATIONETService.FromBody "{}"), None), w')
    /\ posts w' = 3
    /\ backoff_waits (trace w') = [PyInt 1; PyInt 2].
Proof.
  destruct (X10_transient_failures_are_retried
              3 2 Sample.wire
              (Sample.world_of Sample.fresh_files Sample.slow_twice)
              (mkResponse 200 "{}" (Ok "{}")) "{}")
    as [w' [Hrun [Hposts Hw]]].
  - lia.
  - intros i Hi. destruct i as [| [| i]]; [reflexivity | reflexivity | lia].
  - reflexivity.
  - reflexivity.
  - reflexivity.
  - exists w'. split; [exact Hrun |]. split; [exact Hposts | exact Hw].
Defined.

Lemma all_retries_fail (n_retries : nat) (p : WireRecord) :
  forall (n a : nat) (w : World),
    a + n = n_retries -> 0 < n ->
    (forall i, i < n -> retryable (endpoint w (posts w + i) p) = true) ->
    exists msg w',
      for_return (seq a n) (ATIONETService.attempt_body n_retries p) w
      = (Ok (Some (false, None, Some msg)), w')
      /\ posts w' = posts w + n
      /\ trace w' = (trace w ++ attempts_trace p a n)%list
      /\ backoff_waits (trace w')
         = (backoff_waits (trace w) ++ backoff_series a (n - 1))%list
      /\ (forall e, endpoint w (posts w + n - 1) p = Raise e ->
                    exn_class e = Timeout ->
                    msg = "Timeout después de múltiples intentos").
Proof.
  induction n as [| m IH]; intros a w Hsum Hpos Hre; [lia |].
  cbn [seq for_return]. unfold bind at 1.
  assert (Hre0 : retryable (endpoint w (posts w) p) = true).
  { specialize (Hre 0 ltac:(lia)). rewrite Nat.add_0_r in Hre. exact Hre. }
  destruct m as [| m'].
  - destruct (attempt_give_up n_retries p a w Hre0 ltac:(lia))
      as [msg [Hrun Hmsg]].
    rewrite Hrun. exists msg, (after (requests_post p) w).
    split; [reflexivity |]. unfold after. cbn.
    rewrite backoff_waits_snoc, !app_nil_r.
    split; [lia |]. split; [reflexivity |]. split; [reflexivity |].
    replace (posts w + 1 - 1) with (posts w) by lia. exact Hmsg.
  - rewrite (attempt_retry n_retries p a w Hre0 ltac:(lia)).
    set (w1 := after (time_sleep Backoff (PyInt (2 ^ Z.of_nat a)))
                     (after (requests_post p) w)).
    assert (Hp1 : posts w1 = S (posts w)) by reflexivity.
    assert (He1 : endpoint w1 = endpoint w) by reflexivity.
    assert (Ht1 : trace w1
                  = ((trace w ++ [EvPost p])
                     ++ [EvSleep Backoff (PyInt (2 ^ Z.of_nat a))])%list)
      by reflexivity.
    destruct (IH (S a) w1 ltac:(lia) ltac:(lia))
      as [msg [w' [Hrun [Hposts [Htrace [Hw Hmsg]]]]]].
    + intros i Hi. rewrite He1, Hp1.
      replace (S (posts w) + i) with (posts w + S i) by lia.
      apply Hre. lia.
    + exists msg, w'. split; [exact Hrun |]. split; [lia |]. split; [| split].
      * rewrite Htrace, Ht1, <- !app_assoc. reflexivity.
      * rewrite Hw, Ht1.
        rewrite !backoff_waits_snoc, app_nil_r, <- app_assoc.
        replace (S (S m') - 1) with (S (S m' - 1)) by lia.
        reflexivity.
      * intros e He Hc. apply (Hmsg e); [| exact Hc].
        rewrite He1, Hp1.
        replace (S (posts w) + S m' - 1) with (posts w + S (S m') - 1)
          by lia.
        exact He.
Qed.

(** X11. When every allowed attempt ends in a timeout, a connection
    error or a status below 400 other than 200, 201 and 409, the call
    fails after exactly the allowed number of POSTs. What it adds to
    the trace is a POST, a wait of one second, a POST, a wait of two
    seconds, and so on, ending with the last POST: after the last
    attempt it does not wait. If the last attempt timed out, the
    message is the timeout one. *)
Theorem X11_retries_are_exhausted
    (n_retries : nat) (p : WireRecord) (w : World) :
  0 < n_retries ->
  (forall i, i < n_retries ->
             retryable (endpoint w (posts w + i) p) = true) ->
  exists msg w',
    ATIONETService.send_vehicle_data n_retries p w
    = (Ok (false, None, Some msg), w')
    /\ posts w' = posts w + n_retries
    /\ trace w' = (trace w ++ attempts_trace p 0 n_retries)%list
    /\ backoff_waits (trace w')
       = (backoff_waits (trace w) ++ backoff_series 0 (n_retries - 1))%list
    /\ (forall e, endpoint w (posts w + n_retries - 1) p = Raise e ->
                  exn_class e = Timeout ->
                  msg = "Timeout después de múltiples intentos").
Proof.
  intros Hpos Hre.
  destruct (all_retries_fail n_retries p n_retries 0 w eq_refl Hpos Hre)
    as [msg [w' [Hrun Hrest]]].
  exists msg, w'. unfold ATIONETService.send_vehicle_data.
  unfold bind at 1. rewrite Hrun. split; [reflexivity | exact Hrest].
Qed.

Lemma X11_witness :
  exists w',
    ATIONETService.send_vehicle_data 3 Sample.wire
      (Sample.world_of Sample.fresh_files Sample2.always_timeout)
    = (Ok (false, None, Some "Timeout después de múltiples intentos"), w')
    /\ posts w' = 3
    /\ trace w'
       = [EvPost Sample.wire; EvSleep Backoff (PyInt 1);
          EvPost Sample.wire; EvSleep Backoff (PyInt 2);
          EvPost Sample.wire].
Proof.
  destruct (X11_retries_are_exhausted
              3 Sample.wire
              (Sample.world_of Sample.fresh_files Sample2.always_timeout))
    as [msg [w' [Hrun [Hposts [Htrace [Hw Hmsg]]]]]].
  - lia.
  - intros i _. reflexivity.
  - exists w'.
    rewrite (Hmsg (mkExn Timeout "Read timed out.") eq_refl eq_refl)
      in Hrun.
    split; [exact Hrun |]. split; [exact Hposts | exact Htrace].
Defined.

(* ================================================================== *)
(** * One record, beyond the scenarios above *)
(* ================================================================== *)

(** X12. [format_vehicle_data] returns a wire record exactly when both
    numeric fields convert to a float, and the record then carries the
    four identity fields unchanged and one fuel entry. When a
    conversion fails the first failing field decides: a ValueError or
    KeyError is raised again as a ValueError whose message has the
    prefix "Error formateando datos de la fila: ", any other exception
    passes through unchanged. *)
Theorem X12_format_vehicle_data_outcomes (row : Row) :
  (forall p,
     ATIONETService.format_vehicle_data row = Ok p <->
     exists c v,
       py_float (TheoricalConsumption row) = Ok c
       /\ py_float (VolumeLimit row) = Ok v
       /\ p = mkWireRecord (IdVehicleType row) (Brand row) (Model row) c
                (IdCompany row) [mkFuelMaster (IdFuelMaster row) v])
  /\ (forall e,
        ATIONETService.format_vehicle_data row = Raise e ->
        exists e0,
          (py_float (TheoricalConsumption row) = Raise e0
           \/ (exists c, py_float (TheoricalConsumption row) = Ok c)
              /\ py_float (VolumeLimit row) = Raise e0)
          /\ (exn_class e0 = ValueError \/ exn_class e0 = KeyError ->
              e = mkExn ValueError
                    ("Error formateando datos de la fila: " ++ exn_msg e0))
          /\ (exn_class e0 <> ValueError -> exn_class e0 <> KeyError ->
              e = e0)).
Proof.
  unfold ATIONETService.format_vehicle_data. split.
  - intros p. split.
    + destruct (py_float (TheoricalConsumption row)) as [c | e0].
      * destruct (py_float (VolumeLimit row)) as [v | e0].
        -- intros H. injection H as <-. exists c, v. repeat split.
        -- destruct (exn_class e0); discriminate.
      * destruct (exn_class e0); discriminate.
    + intros [c [v [Hc [Hv ->]]]]. rewrite Hc, Hv. reflexivity.
  - intros e.
    destruct (py_float (TheoricalConsumption row)) as [c | e0].
    + destruct (py_float (VolumeLimit row)) as [v | e0];
        [discriminate |].
      intros H. exists e0.
      split; [right; split; [exists c |]; reflexivity |].
      destruct (exn_class e0) eqn:Hc; injection H as <-;
        (split; [intros [H1 | H1]; first [reflexivity | discriminate H1]
                | intros H1 H2; first [reflexivity | congruence]]).
    + intros H. exists e0. split; [left; reflexivity |].
      destruct (exn_class e0) eqn:Hc; injection H as <-;
        (split; [intros [H1 | H1]; first [reflexivity | discriminate H1]
                | intros H1 H2; first [reflexivity | congruence]]).
Qed.

Lemma X12_witness :
  ATIONETService.format_vehicle_data Sample.bad_number
  = Raise (mkExn ValueError
             ("Error formateando datos de la fila: "
              ++ "could not convert string to float: 'doce'")).
Proof.
  destruct (proj2 (X12_format_vehicle_data_outcomes Sample.bad_number)
              (mkExn ValueError
                 ("Error formateando datos de la fila: "
                  ++ "could not convert string to float: 'doce'"))
              eq_refl)
    as [e0 [_ _]].
  reflexivity.
Defined.

Lemma quiet_files (w w' : World) : quiet w w' -> files w' = files w.
Proof. intros H. apply H. Qed.

Lemma quiet_clock (w w' : World) :
  quiet w w' -> clock w' (ticks w') = clock w (ticks w).
Proof.
  intros [_ [_ [Hc [Ht _]]]]. rewrite Hc, Ht. reflexivity.
Qed.

(** X13. A row that cannot be formatted is never sent: the loop body
    makes no POST and no wait, writes one entry with the exception's
    message to the failed ledger, adds one to the failed counter and
    the line "Error inesperado procesando <id>: <message>" to the error
    list, and leaves the processed ledger alone. *)
Theorem X13_unformattable_row_is_not_sent
    (cfg : Config) (rid : string) (data : Row) (w : World)
    (b : VehicleDataProcessor.BatchSummary) (e : Exn) :
  ATIONETService.format_vehicle_data data = Raise e ->
  exists w',
    VehicleDataProcessor.process_record cfg (rid, data) (w, b)
    = (Ok tt,
       (w', VehicleDataProcessor.mkBatchSummary
              (VehicleDataProcessor.b_processed_successfully b)
              (VehicleDataProcessor.b_failed_records b + 1)
              (VehicleDataProcessor.b_skipped_duplicates b)
              (VehicleDataProcessor.b_errors b
               ++ [("Error inesperado procesando " ++ rid ++ ": "
                    ++ exn_msg e)%string])%list))
    /\ posts w' = posts w
    /\ trace w' = (trace w ++ [EvSaveFailed rid (exn_msg e)])%list
    /\ files w'
       = CSVProcessor.save_failed_record
           (clock w (ticks w)) rid data (exn_msg e) (files w)
    /\ processed_file (files w') = processed_file (files w).
Proof.
  intros Hfmt.
  rewrite (@process_record_unformattable cfg rid data w b e Hfmt).
  eexists. split; [reflexivity |]. unfold after. cbn.
  repeat split. apply save_failed_keeps_others.
Qed.

Lemma X13_witness :
  exists w',
    VehicleDataProcessor.process_record default_config
      ("T3_SEAT_IBIZA_C1_F1", Sample.bad_number)
      (Sample.world_of Sample.fresh_files Sample.always_ok,
       VehicleDataProcessor.empty_batch_summary)
    = (Ok tt,
       (w', VehicleDataProcessor.mkBatchSummary 0 1 0
              ["Error inesperado procesando T3_SEAT_IBIZA_C1_F1: "
               ++ "Error formateando datos de la fila: "
               ++ "could not convert string to float: 'doce'"]))
    /\ posts w' = 0.
Proof.
  destruct (X13_unformattable_row_is_not_sent
              default_config "T3_SEAT_IBIZA_C1_F1" Sample.bad_number
              (Sample.world_of Sample.fresh_files Sample.always_ok)
              VehicleDataProcessor.empty_batch_summary
              (mkExn ValueError
                 ("Error formateando datos de la fila: "
                  ++ "could not convert string to float: 'doce'"))
              eq_refl)
    as [w' [Hrun [Hposts _]]].
  exists w'. split; [exact Hrun | exact Hposts].
Defined.

(** X14. A record that was sent with success: the orchestrator calls
    [save_processed_record] for it (after which a usable ledger holds
    its id), adds one to the succeeded counter only, writes nothing to
    the failed ledger and adds no error line. *)
Theorem X14_accepted_record_is_marked_processed
    (cfg : Config) (rid : string) (data : Row) (w w1 : World)
    (b : VehicleDataProcessor.BatchSummary) (p : WireRecord)
    (resp : option ATIONETService.ResponseData) (err : option string) :
  ATIONETService.format_vehicle_data data = Ok p ->
  ATIONETService.send_vehicle_data (REQUEST_RETRIES cfg) p w
  = (Ok (true, resp, err), w1) ->
  exists w2,
    VehicleDataProcessor.process_record cfg (rid, data) (w, b)
    = (Ok tt, (w2, VehicleDataProcessor.incr_processed b))
    /\ files w2
       = CSVProcessor.save_processed_record
           (clock w (ticks w)) rid data (files w)
    /\ (processed_ledger_ok (files w) ->
        In rid (CSVProcessor.get_processed_records (files w2)))
    /\ failed_file (files w2) = failed_file (files w)
    /\ trace w2
       = (trace w1 ++ [EvSaveProcessed rid;
                       EvSleep BetweenRecords (PyFlt PyFloat.f0_1)])%list.
Proof.
  intros Hfmt Hsend.
  rewrite (@process_record_sent cfg rid data w w1 b p _ Hfmt Hsend).
  cbn [fst snd].
  destruct (send_vehicle_data_quiet (REQUEST_RETRIES cfg) p w)
    as [res' [w1' [Hsend' Hq]]].
  rewrite Hsend in Hsend'. injection Hsend' as _ <-.
  eexists. split; [reflexivity |].
  assert (Hfiles :
            files (after (time_sleep BetweenRecords (PyFlt PyFloat.f0_1))
                     (after (save_processed_record rid data) w1))
            = CSVProcessor.save_processed_record
                (clock w (ticks w)) rid data (files w)).
  { unfold after. cbn. rewrite (quiet_files w w1 Hq), (quiet_clock w w1 Hq).
    reflexivity. }
  rewrite Hfiles.
  split; [reflexivity |].
  split; [intros Hok; apply save_processed_records_id; exact Hok |].
  split; [apply save_processed_keeps_failed_file |].
  unfold after. cbn. rewrite <- app_assoc. reflexivity.
Qed.

Lemma X14_witness :
  exists w2,
    VehicleDataProcessor.process_record default_config
      ("T1_FORD_FOCUS_C1_F1", Sample.ford_focus)
      (Sample.world_of Sample.fresh_files Sample.always_ok,
       VehicleDataProcessor.empty_batch_summary)
    = (Ok tt, (w2, VehicleDataProcessor.mkBatchSummary 1 0 0 []))
    /\ In "T1_FORD_FOCUS_C1_F1"
          (CSVProcessor.get_processed_records (files w2))
    /\ failed_file (files w2) = Absent.
Proof.
  destruct (X14_accepted_record_is_marked_processed
              default_config "T1_FORD_FOCUS_C1_F1" Sample.ford_focus
              (Sample.world_of Sample.fresh_files Sample.always_ok)
              (after (requests_post Sample.wire)
                     (Sample.world_of Sample.fresh_files Sample.always_ok))
              VehicleDataProcessor.empty_batch_summary
              Sample.wire (Some (ATIONETService.FromBody "{}")) None
              eq_refl eq_refl)
    as [w2 [Hrun [_ [Hin [Hfailed _]]]]].
  exists w2. split; [exact Hrun |].
  split; [apply Hin; left; reflexivity | exact Hfailed].
Defined.

(** A failed call carries a message that is not empty; it is the one
    that goes to the failed ledger. *)
Lemma send_failure_message
    (n_retries : nat) (p : WireRecord) (w w1 : World)
    (resp : option ATIONETService.ResponseData) (err : option string) :
  ATIONETService.send_vehicle_data n_retries p w
  = (Ok (false, resp, err), w1) ->
  exists msg,
    err = Some msg /\ msg <> EmptyString
    /\ VehicleDataProcessor.error_or_unknown err = msg.
Proof.
  intros Hsend.
  destruct (send_vehicle_data_events n_retries p w)
    as [res [w' [k [Hrun [_ [_ [_ [_ [_ [_ [_ Hf]]]]]]]]]]].
  rewrite Hsend in Hrun. injection Hrun as <- _.
  destruct (Hf resp err eq_refl) as [_ [msg [-> Hmsg]]].
  exists msg. split; [reflexivity |]. split; [exact Hmsg |].
  destruct msg; [congruence | reflexivity].
Qed.

(** X15. A record that was sent and failed without being a duplicate.
    The call then carries an error text, which is not empty. The
    orchestrator writes the record to the failed ledger under that very
    text (and right after the call: the write and the pause of 0.1
    seconds are all that follows it in the trace); when the failed
    ledger is missing or readable, the ledger gains exactly one entry,
    at its end, with the id, the row, that text and the time of the
    write. It adds one to the failed counter and the line
    "Error procesando <id>: <that text>" to the error list, and leaves
    the processed ledger alone, so the next load returns the record
    again. *)
Theorem X15_rejected_record_stays_unprocessed
    (cfg : Config) (rid : string) (data : Row) (w w1 : World)
    (b : VehicleDataProcessor.BatchSummary) (p : WireRecord)
    (resp : option ATIONETService.ResponseData) (err : option string) :
  ATIONETService.format_vehicle_data data = Ok p ->
  ATIONETService.send_vehicle_data (REQUEST_RETRIES cfg) p w
  = (Ok (false, resp, err), w1) ->
  VehicleDataProcessor.is_duplicate_error err = false ->
  exists msg w2,
    err = Some msg /\ msg <> EmptyString
    /\ VehicleDataProcessor.process_record cfg (rid, data) (w, b)
       = (Ok tt,
          (w2, VehicleDataProcessor.mkBatchSummary
                 (VehicleDataProcessor.b_processed_successfully b)
                 (VehicleDataProcessor.b_failed_records b + 1)
                 (VehicleDataProcessor.b_skipped_duplicates b)
                 (VehicleDataProcessor.b_errors b
                  ++ [("Error procesando " ++ rid ++ ": " ++ msg)%string]
                 )%list))
    /\ files w2
       = CSVProcessor.save_failed_record
           (clock w (ticks w)) rid data msg (files w)
    /\ trace w2
       = (trace w1
          ++ [EvSaveFailed rid msg;
              EvSleep BetweenRecords (PyFlt PyFloat.f0_1)])%list
    /\ (failed_ledger_ok (files w) ->
        failed_entries (files w2)
        = (failed_entries (files w)
           ++ [mkFailedEntry rid data msg (clock w (ticks w))])%list)
    /\ CSVProcessor.get_processed_records (files w2)
       = CSVProcessor.get_processed_records (files w)
    /\ CSVProcessor.get_unprocessed_records (files w2)
       = CSVProcessor.get_unprocessed_records (files w).
Proof.
  intros Hfmt Hsend Hdup.
  destruct (send_failure_message _ _ _ _ _ _ Hsend)
    as [msg [Herr [Hmsg Hunknown]]].
  exists msg.
  rewrite (@process_record_sent cfg rid data w w1 b p _ Hfmt Hsend).
  cbn [fst snd]. rewrite Hdup, Hunknown.
  destruct (send_vehicle_data_quiet (REQUEST_RETRIES cfg) p w)
    as [res' [w1' [Hsend' Hq]]].
  rewrite Hsend in Hsend'. injection Hsend' as _ <-.
  eexists. split; [exact Herr |]. split; [exact Hmsg |].
  split; [rewrite Herr; reflexivity |].
  assert (Hfiles :
            files (after (time_sleep BetweenRecords (PyFlt PyFloat.f0_1))
                     (after (save_failed_record rid data msg) w1))
            = CSVProcessor.save_failed_record
                (clock w (ticks w)) rid data msg (files w)).
  { unfold after. cbn. rewrite (quiet_files w w1 Hq), (quiet_clock w w1 Hq).
    reflexivity. }
  rewrite Hfiles. split; [reflexivity |].
  split; [unfold after; cbn; rewrite <- app_assoc; reflexivity |].
  split.
  { intros Hok.
    exact (proj1 (@save_failed_appends (files w) (clock w (ticks w))
                    rid data msg Hok)). }
  destruct (save_failed_keeps_others (files w) (clock w (ticks w)) rid data
              msg)
    as [Hf [Hp Hproc]].
  assert (Hids :
            CSVProcessor.get_processed_records
              (CSVProcessor.save_failed_record
                 (clock w (ticks w)) rid data msg (files w))
            = CSVProcessor.get_processed_records (files w)).
  { unfold CSVProcessor.get_processed_records. rewrite Hproc.
    reflexivity. }
  split; [exact Hids |].
  unfold CSVProcessor.get_unprocessed_records.
  rewrite (load_csv_data_same (files w) _ Hf Hp), Hids. reflexivity.
Qed.

Lemma X15_witness :
  exists w2,
    VehicleDataProcessor.process_record default_config
      ("T1_FORD_FOCUS_C1_F1", Sample.ford_focus)
      (Sample.world_of Sample.fresh_files Sample.reject_first,
       VehicleDataProcessor.empty_batch_summary)
    = (Ok tt,
       (w2, VehicleDataProcessor.mkBatchSummary 0 1 0
              ["Error procesando T1_FORD_FOCUS_C1_F1: "
               ++ "Error del cliente (400): bad request"]))
    /\ failed_entries (files w2)
       = [mkFailedEntry "T1_FORD_FOCUS_C1_F1" Sample.ford_focus
            "Error del cliente (400): bad request"
            (Sample.wall_clock 0)]
    /\ trace w2
       = [EvPost Sample.wire;
          EvSaveFailed "T1_FORD_FOCUS_C1_F1"
            "Error del cliente (400): bad request";
          EvSleep BetweenRecords (PyFlt PyFloat.f0_1)]
    /\ CSVProcessor.get_unprocessed_records (files w2)
       = CSVProcessor.get_unprocessed_records Sample.fresh_files.
Proof.
  destruct (X15_rejected_record_stays_unprocessed
              default_config "T1_FORD_FOCUS_C1_F1" Sample.ford_focus
              (Sample.world_of Sample.fresh_files Sample.reject_first)
              (after (requests_post Sample.wire)
                     (Sample.world_of Sample.fresh_files
                                      Sample.reject_first))
              VehicleDataProcessor.empty_batch_summary
              Sample.wire None
              (Some "Error del cliente (400): bad request")
              eq_refl eq_refl eq_refl)
    as [msg [w2 [Herr [_ [Hrun [_ [Htrace [Hentries [_ Hun]]]]]]]]].
  injection Herr as <-.
  exists w2. split; [exact Hrun |].
  split; [exact (Hentries (or_introl eq_refl)) |].
  split; [exact Htrace | exact Hun].
Defined.

Lemma prefix_app (needle s t : string) :
  prefix needle s = true -> prefix needle (s ++ t) = true.
Proof.
  revert s. induction needle as [| a needle IH]; intros s H.
  - destruct (s ++ t); reflexivity.
  - destruct s as [| c s]; [discriminate H |]. cbn in *.
    destruct (ascii_dec a c); [apply IH; exact H | discriminate H].
Qed.

Lemma contains_app (needle s t : string) :
  PyStr.contains needle s = true -> PyStr.contains needle (s ++ t) = true.
Proof.
  induction s as [| c s IH]; intros H.
  - cbn in H. rewrite orb_false_r in H.
    destruct needle; [| discriminate H].
    destruct t; reflexivity.
  - cbn [PyStr.contains] in H. apply orb_prop in H.
    change (String c s ++ t) with (String c (s ++ t)).
    cbn [PyStr.contains]. destruct H as [H | H].
    + change (String c (s ++ t)) with (String c s ++ t).
      rewrite (prefix_app needle (String c s) t H). reflexivity.
    + rewrite (IH H). apply orb_true_r.
Qed.

(** The message made for HTTP 409 always counts as a duplicate. *)
Lemma conflict_message_is_duplicate (body : string) :
  VehicleDataProcessor.is_duplicate_error
    (Some ("Datos duplicados o conflicto: " ++ body)) = true.
Proof.
  apply is_duplicate_error_of_text. right. left.
  destruct (lower_ascii_prefix "Datos duplicados o conflicto: " body
              eq_refl) as [rest ->].
  apply contains_app. vm_compute. reflexivity.
Qed.

(** X16. HTTP 409 end to end. When the first POST for a record is
    answered 409, whatever the body says, the record is not retried: it
    is written to the processed ledger and counted once, as a skipped
    duplicate; nothing goes to the failed ledger and no error line is
    added. *)
Theorem X16_http_409_is_skipped_as_duplicate
    (cfg : Config) (rid : string) (data : Row) (w : World)
    (b : VehicleDataProcessor.BatchSummary) (p : WireRecord)
    (resp : Response) :
  0 < REQUEST_RETRIES cfg ->
  ATIONETService.format_vehicle_data data = Ok p ->
  endpoint w (posts w) p = Ok resp ->
  status_code resp = 409%Z ->
  exists w2,
    VehicleDataProcessor.process_record cfg (rid, data) (w, b)
    = (Ok tt, (w2, VehicleDataProcessor.incr_skipped b))
    /\ trace w2
       = (trace w ++ [EvPost p; EvSaveProcessed rid;
                      EvSleep BetweenRecords (PyFlt PyFloat.f0_1)])%list
    /\ files w2
       = CSVProcessor.save_processed_record
           (clock w (ticks w)) rid data (files w)
    /\ (processed_ledger_ok (files w) ->
        In rid (CSVProcessor.get_processed_records (files w2)))
    /\ failed_file (files w2) = failed_file (files w).
Proof.
  intros Hpos Hfmt Hep Hcode.
  destruct (REQUEST_RETRIES cfg) as [| n] eqn:Hn; [lia |].
  destruct (@send_status_409_returns_at_once n p w resp Hep Hcode)
    as [Hres [_ Htrace]].
  destruct (ATIONETService.send_vehicle_data (S n) p w) as [r w1] eqn:Hsend.
  cbn [fst snd] in Hres, Htrace. subst r.
  destruct (send_vehicle_data_quiet (S n) p w) as [res' [w1' [Hsend' Hq]]].
  rewrite Hsend in Hsend'. injection Hsend' as _ <-.
  rewrite <- Hn in Hsend.
  rewrite (@process_record_sent cfg rid data w w1 b p _ Hfmt Hsend).
  cbn [fst snd]. rewrite conflict_message_is_duplicate.
  eexists. split; [reflexivity |].
  assert (Hfiles :
            files (after (time_sleep BetweenRecords (PyFlt PyFloat.f0_1))
                     (after (save_processed_record rid data) w1))
            = CSVProcessor.save_processed_record
                (clock w (ticks w)) rid data (files w)).
  { unfold after. cbn. rewrite (quiet_files w w1 Hq), (quiet_clock w w1 Hq).
    reflexivity. }
  rewrite Hfiles.
  split.
  { unfold after. cbn. rewrite Htrace, <- !app_assoc. reflexivity. }
  split; [reflexivity |].
  split; [intros Hok; apply save_processed_records_id; exact Hok |].
  apply save_processed_keeps_failed_file.
Qed.

Lemma X16_witness :
  exists w2,
    VehicleDataProcessor.process_record default_config
      ("T1_FORD_FOCUS_C1_F1", Sample.ford_focus)
      (Sample.world_of Sample.fresh_files Sample.always_conflict,
       VehicleDataProcessor.empty_batch_summary)
    = (Ok tt, (w2, VehicleDataProcessor.mkBatchSummary 0 0 1 []))
    /\ posted (trace w2) = [Sample.wire].
Proof.
  destruct (X16_http_409_is_skipped_as_duplicate
              default_config "T1_FORD_FOCUS_C1_F1" Sample.ford_focus
              (Sample.world_of Sample.fresh_files Sample.always_conflict)
              VehicleDataProcessor.empty_batch_summary Sample.wire
              (mkResponse 409 "already exists" (Ok "already exists")))
    as [w2 [Hrun [Htrace _]]].
  - cbn. lia.
  - reflexivity.
  - reflexivity.
  - reflexivity.
  - exists w2. split; [exact Hrun |]. rewrite Htrace. reflexivity.
Defined.

(* ================================================================== *)
(** * The run, beyond the scenarios above *)
(* ================================================================== *)

(** X17. The runs that do nothing. When the records cannot be loaded
    the run ends with all counters at zero and the single error line
    "Error en procesamiento general: <message>"; when nothing is
    unprocessed it ends with all counters at zero and no error; when
    the batch size is zero and there are records it ends with the total
    set and the line about [range]. In all three nothing is sent or
    written and nothing waits: the world is as it was. *)
Theorem X17_runs_that_do_nothing (cfg : Config) (w : World) :
  (forall e,
     CSVProcessor.get_unprocessed_records (files w) = Raise e ->
     VehicleDataProcessor.process_all_vehicles cfg w
     = (VehicleDataProcessor.mkSummary 0 0 0 0
          ["Error en procesamiento general: " ++ exn_msg e], w))
  /\ (CSVProcessor.get_unprocessed_records (files w) = Ok [] ->
      VehicleDataProcessor.process_all_vehicles cfg w
      = (VehicleDataProcessor.mkSummary 0 0 0 0 [], w))
  /\ (forall recs,
        CSVProcessor.get_unprocessed_records (files w) = Ok recs ->
        recs <> [] -> BATCH_SIZE cfg = 0 ->
        VehicleDataProcessor.process_all_vehicles cfg w
        = (VehicleDataProcessor.mkSummary (length recs) 0 0 0
             ["Error en procesamiento general: "
              ++ "range() arg 3 must not be zero"], w)).
Proof.
  unfold VehicleDataProcessor.process_all_vehicles,
    VehicleDataProcessor.run_body.
  split; [| split].
  - intros e Hload.
    cbv [try_except bind on_world on_summary lift_result ret
         get_unprocessed_records fst snd].
    rewrite Hload. reflexivity.
  - intros Hload.
    cbv [try_except bind on_world on_summary lift_result ret
         get_unprocessed_records fst snd].
    rewrite Hload. reflexivity.
  - intros recs Hload Hne Hbs.
    cbv [try_except bind on_world on_summary lift_result ret
         get_unprocessed_records fst snd].
    rewrite Hload. cbv beta iota.
    destruct recs as [| rec recs']; [congruence |].
    unfold py_range. rewrite Hbs. reflexivity.
Qed.

Lemma X17_witness :
  VehicleDataProcessor.process_all_vehicles default_config
    (Sample.world_of Sample.no_csv Sample.always_ok)
  = (VehicleDataProcessor.mkSummary 0 0 0 0
       ["Error en procesamiento general: "
        ++ "Archivo CSV no encontrado: clases_vehiculos.csv"],
     Sample.world_of Sample.no_csv Sample.always_ok).
Proof.
  exact (proj1 (X17_runs_that_do_nothing default_config
                  (Sample.world_of Sample.no_csv Sample.always_ok))
               (mkExn FileNotFoundError
                  "Archivo CSV no encontrado: clases_vehiculos.csv")
               eq_refl).
Defined.

(** ** Batching in general *)

Lemma ceil_div_step (d size : nat) :
  0 < size -> 0 < d ->
  (d + size - 1) / size = S ((d - size + size - 1) / size).
Proof.
  intros Hs Hd.
  destruct (Nat.le_gt_cases size d) as [Hge | Hlt].
  - replace (d + size - 1) with ((d - 1) + 1 * size) by lia.
    rewrite Nat.div_add by lia.
    replace (d - size + size - 1) with (d - 1) by lia. lia.
  - replace (d - size + size - 1) with (size - 1) by lia.
    rewrite (Nat.div_small (size - 1)) by lia.
    replace (d + size - 1) with ((d - 1) + 1 * size) by lia.
    rewrite Nat.div_add by lia.
    rewrite (Nat.div_small (d - 1)) by lia. reflexivity.
Qed.

(** [range(start, stop, size)] is start, start + size, ... with as many
    terms as there are batches for [stop - start] records. *)
Lemma range_from_multiples (stop size : nat) :
  0 < size ->
  forall fuel start,
    stop <= start + fuel ->
    range_from fuel start stop size
    = map (fun j => start + j * size)
          (seq 0 (batch_count (stop - start) size)).
Proof.
  intros Hs. unfold batch_count.
  induction fuel as [| fuel IH]; intros start Hfuel.
  - cbn [range_from]. replace (stop - start) with 0 by lia.
    rewrite (Nat.div_small (0 + size - 1)) by lia. reflexivity.
  - cbn [range_from]. destruct (start <? stop) eqn:Hlt.
    + apply Nat.ltb_lt in Hlt.
      rewrite (ceil_div_step (stop - start) size) by lia.
      cbn [seq map]. rewrite IH by lia.
      replace (stop - (start + size)) with (stop - start - size) by lia.
      rewrite <- seq_shift, map_map.
      f_equal; [lia |]. apply map_ext. intros j. cbn. lia.
    + apply Nat.ltb_ge in Hlt. replace (stop - start) with 0 by lia.
      rewrite (Nat.div_small (0 + size - 1)) by lia. reflexivity.
Qed.

Lemma batches_of_records (batch : list (string * Row)) :
  filter (fun m => match m with MBatch _ _ _ => true | _ => false end)
         (records_marks batch) = [].
Proof. induction batch as [| r b IH]; cbn; [reflexivity | exact IH]. Qed.

Lemma batches_of_turns
    (cfg : Config) (recs : list (string * Row)) (indices : list nat) :
  filter (fun m => match m with MBatch _ _ _ => true | _ => false end)
         (flat_map (turn_marks cfg recs) indices)
  = map (fun i => MBatch (i / BATCH_SIZE cfg + 1)
                         (batch_count (length recs) (BATCH_SIZE cfg))
                         (length (batch_at cfg recs i)))
        indices.
Proof.
  induction indices as [| i indices IH]; cbn [flat_map map].
  - reflexivity.
  - rewrite filter_app, IH. unfold turn_marks at 1.
    rewrite !filter_app, batches_of_records.
    destruct (i + BATCH_SIZE cfg <? length recs); reflexivity.
Qed.

Lemma pauses_of_turns
    (cfg : Config) (recs : list (string * Row)) :
  0 < BATCH_SIZE cfg ->
  forall fuel start,
    length recs <= start + fuel ->
    flat_map (fun m => match m with MPause secs => [secs] | _ => [] end)
             (flat_map (turn_marks cfg recs)
                (range_from fuel start (length recs) (BATCH_SIZE cfg)))
    = repeat (PyInt 1)
             (length (range_from fuel start (length recs) (BATCH_SIZE cfg))
              - 1).
Proof.
  intros Hpos. induction fuel as [| fuel IH]; intros start Hfuel.
  - reflexivity.
  - cbn [range_from]. destruct (start <? length recs) eqn:Hlt;
      [| reflexivity].
    cbn [flat_map length]. rewrite flat_map_app, IH by lia.
    unfold turn_marks. rewrite !flat_map_app, pauses_of_records.
    cbn [flat_map app].
    destruct (start + BATCH_SIZE cfg <? length recs) eqn:Hnext.
    + destruct fuel as [| fuel']; cbn [range_from].
      * apply Nat.ltb_lt in Hnext. lia.
      * rewrite Hnext. cbn. rewrite Nat.sub_0_r. reflexivity.
    + destruct fuel as [| fuel']; cbn [range_from].
      * reflexivity.
      * rewrite Hnext. reflexivity.
Qed.

(** Another batch follows batch [j + 1] exactly when records are left
    after it. *)
Lemma another_batch_follows (j n size : nat) :
  0 < size ->
  (j * size + size <? n) = (j + 1 <? batch_count n size).
Proof.
  intros Hs. unfold batch_count.
  destruct (j * size + size <? n) eqn:Hlt; symmetry.
  - apply Nat.ltb_lt in Hlt. apply Nat.ltb_lt.
    apply (Nat.lt_le_trans _ (j + 2)); [lia |].
    apply Nat.div_le_lower_bound; [lia | nia].
  - apply Nat.ltb_ge in Hlt. apply Nat.ltb_ge.
    apply Nat.lt_succ_r. apply Nat.Div0.div_lt_upper_bound. nia.
Qed.

(** X18. Batching for any number of records and any batch size that is
    not zero. The run opens ceil(n / size) batches, numbered 1, 2, ...
    and each announced with that total; batch j+1 holds the records
    from position j * size on, [size] of them or, in the last batch,
    what is left. The outline of the run is, batch after batch: the
    opening of the batch, its records settled one by one in their
    order, and then, if and only if another batch follows, one pause of
    one second. So there is a pause between every two batches, after
    the records of the one and before the opening of the other, and
    none after the last batch. *)
Theorem X18_batches_in_general
    (cfg : Config) (w : World) (recs : list (string * Row)) :
  0 < BATCH_SIZE cfg ->
  CSVProcessor.get_unprocessed_records (files w) = Ok recs ->
  let out := VehicleDataProcessor.process_all_vehicles cfg w in
  let total := batch_count (length recs) (BATCH_SIZE cfg) in
  outline (trace (snd out))
  = (outline (trace w)
     ++ flat_map
          (fun j =>
             [MBatch (j + 1) total
                     (Nat.min (BATCH_SIZE cfg)
                              (length recs - j * BATCH_SIZE cfg))]
             ++ records_marks
                  (firstn (BATCH_SIZE cfg)
                          (skipn (j * BATCH_SIZE cfg) recs))
             ++ (if j + 1 <? total then [MPause (PyInt 1)] else []))
          (seq 0 total))%list
  /\ batches_opened (trace (snd out))
     = (batches_opened (trace w)
        ++ map (fun j => MBatch (j + 1) total
                           (Nat.min (BATCH_SIZE cfg)
                                    (length recs - j * BATCH_SIZE cfg)))
               (seq 0 total))%list
  /\ pauses (trace (snd out))
     = (pauses (trace w) ++ repeat (PyInt 1) (total - 1))%list.
Proof.
  intros Hpos Hload out total.
  destruct (run_body_spec cfg w Hpos Hload)
    as [w' [s' [Hrun [Hout _]]]].
  subst out. rewrite (process_all_vehicles_of_run_body cfg w Hrun).
  cbn [fst snd].
  assert (Hidx : range_from (length recs) 0 (length recs) (BATCH_SIZE cfg)
                 = map (fun j => 0 + j * BATCH_SIZE cfg) (seq 0 total)).
  { rewrite (range_from_multiples (length recs) (BATCH_SIZE cfg) Hpos)
      by lia.
    unfold total. rewrite Nat.sub_0_r. reflexivity. }
  split; [| split].
  - rewrite Hout, Hidx. f_equal. rewrite flat_map_concat_map, map_map,
      <- flat_map_concat_map.
    apply flat_map_ext. intros j. cbn [Nat.add].
    unfold turn_marks, batch_at.
    rewrite Nat.div_mul by lia.
    rewrite length_firstn, length_skipn.
    rewrite (another_batch_follows j (length recs) (BATCH_SIZE cfg) Hpos).
    reflexivity.
  - unfold batches_opened. rewrite Hout, filter_app, batches_of_turns.
    f_equal. rewrite Hidx, map_map. apply map_ext. intros j.
    cbn [Nat.add].
    rewrite Nat.div_mul by lia.
    unfold batch_at. rewrite length_firstn, length_skipn.
    reflexivity.
  - unfold pauses. rewrite Hout, flat_map_app.
    rewrite (pauses_of_turns cfg recs Hpos) by lia.
    f_equal. rewrite Hidx, length_map, length_seq. reflexivity.
Qed.

Lemma X18_witness :
  let out := VehicleDataProcessor.process_all_vehicles (mkConfig 3 3)
               (Sample.world_of Sample2.small_fleet_files Sample.always_ok)
  in
  outline (trace (snd out))
  = [MBatch 1 3 3;
     MRecord "T1_FIAT_1_C1_F1"; MRecord "T1_FIAT_2_C1_F1";
     MRecord "T1_FIAT_3_C1_F1"; MPause (PyInt 1);
     MBatch 2 3 3;
     MRecord "T1_FIAT_4_C1_F1"; MRecord "T1_FIAT_5_C1_F1";
     MRecord "T1_FIAT_6_C1_F1"; MPause (PyInt 1);
     MBatch 3 3 1;
     MRecord "T1_FIAT_7_C1_F1"]
  /\ batches_opened (trace (snd out))
     = [MBatch 1 3 3; MBatch 2 3 3; MBatch 3 3 1]
  /\ pauses (trace (snd out)) = [PyInt 1; PyInt 1].
Proof.
  assert (Hpos : 0 < BATCH_SIZE (mkConfig 3 3)) by (cbn; lia).
  assert (Hload :
            CSVProcessor.get_unprocessed_records
              (files (Sample.world_of Sample2.small_fleet_files
                                      Sample.always_ok))
            = Ok (map (fun r => (CSVProcessor.create_record_id r, r))
                      (firstn 7 Sample.fleet)))
    by (vm_compute; reflexivity).
  destruct (X18_batches_in_general
              (mkConfig 3 3)
              (Sample.world_of Sample2.small_fleet_files Sample.always_ok)
              _ Hpos Hload)
    as [Ho [Hb Hp]].
  split; [rewrite Ho; vm_compute; reflexivity |].
  split; [exact Hb | exact Hp].
Defined.

(** ** From one run to the next *)

Lemma grown_refl (fs : Files) : grown fs fs.
Proof. unfold grown. repeat split; auto. Qed.

Lemma grown_trans (f1 f2 f3 : Files) :
  grown f1 f2 -> grown f2 f3 -> grown f1 f3.
Proof.
  unfold grown. intros [A1 [A2 [A3 A4]]] [B1 [B2 [B3 B4]]].
  repeat split; try congruence; auto.
Qed.

Lemma save_processed_keeps_ok
    (fs : Files) (now : Timestamp) (rid : string) (data : Row) :
  processed_ledger_ok fs ->
  processed_ledger_ok (CSVProcessor.save_processed_record now rid data fs).
Proof.
  unfold processed_ledger_ok, CSVProcessor.save_processed_record,
    CSVProcessor.save_processed_body.
  intros [Habs | [ids [recs Hp]]]; [rewrite Habs | rewrite Hp]; cbn.
  - right. eexists; eexists. reflexivity.
  - destruct (PyStr.mem rid ids); cbn; right; eexists; eexists;
      reflexivity.
Qed.

Lemma save_processed_grown
    (fs : Files) (now : Timestamp) (rid : string) (data : Row) :
  grown fs (CSVProcessor.save_processed_record now rid data fs).
Proof.
  destruct (save_processed_keeps_csv fs now rid data) as [Hf Hp].
  unfold grown. split; [exact Hp |]. split; [exact Hf |].
  split; [apply save_processed_keeps_ok |].
  intros x Hx.
  destruct (save_processed_appends fs now rid data)
    as [ni [ne [Hids _]]].
  rewrite Hids. apply in_or_app. left. exact Hx.
Qed.

Lemma save_failed_grown
    (fs : Files) (now : Timestamp) (rid : string) (data : Row)
    (msg : string) :
  grown fs (CSVProcessor.save_failed_record now rid data msg fs).
Proof.
  destruct (save_failed_keeps_others fs now rid data msg)
    as [Hf [Hp Hproc]].
  unfold grown, processed_ledger_ok, CSVProcessor.get_processed_records.
  rewrite Hproc. repeat split; auto.
Qed.

(** What the loop body does to the files: the CSV stays, no processed
    id is lost, and unless the failed counter went up the record's id
    is in a usable ledger afterwards. *)
Lemma process_record_grows
    (cfg : Config) (rec : string * Row) (w w' : World)
    (b b' : VehicleDataProcessor.BatchSummary) (r : Result unit) :
  VehicleDataProcessor.process_record cfg rec (w, b) = (r, (w', b')) ->
  grown (files w) (files w')
  /\ VehicleDataProcessor.b_failed_records b
     <= VehicleDataProcessor.b_failed_records b'
  /\ (VehicleDataProcessor.b_failed_records b'
      = VehicleDataProcessor.b_failed_records b ->
      processed_ledger_ok (files w) ->
      In (fst rec) (CSVProcessor.get_processed_records (files w'))).
Proof.
  destruct rec as [rid data]. cbn [fst].
  destruct (ATIONETService.format_vehicle_data data) as [p | e] eqn:Hfmt.
  - destruct (send_vehicle_data_quiet (REQUEST_RETRIES cfg) p w)
      as [res [w1 [Hsend Hq]]].
    rewrite (@process_record_sent cfg rid data w w1 b p res Hfmt Hsend).
    pose proof (quiet_files w w1 Hq) as Hfiles.
    destruct (fst (fst res));
      [| destruct (VehicleDataProcessor.is_duplicate_error (snd res))];
      intros H; injection H as _ <- <-; unfold after; cbn;
      rewrite Hfiles.
    + split; [apply save_processed_grown |]. split; [lia |].
      intros _ Hok. apply save_processed_records_id. exact Hok.
    + split; [apply save_processed_grown |]. split; [lia |].
      intros _ Hok. apply save_processed_records_id. exact Hok.
    + split; [apply save_failed_grown |]. split; [lia |].
      intros Hbad. lia.
  - rewrite (@process_record_unformattable cfg rid data w b e Hfmt).
    intros H. injection H as _ <- <-. unfold after. cbn.
    split; [apply save_failed_grown |]. split; [lia |].
    intros Hbad. lia.
Qed.

Lemma process_records_grow (cfg : Config) (batch : list (string * Row)) :
  forall (w w' : World) (b b' : VehicleDataProcessor.BatchSummary)
         (r : Result unit),
    for_each batch (VehicleDataProcessor.process_record cfg) (w, b)
    = (r, (w', b')) ->
    grown (files w) (files w')
    /\ VehicleDataProcessor.b_failed_records b
       <= VehicleDataProcessor.b_failed_records b'
    /\ (VehicleDataProcessor.b_failed_records b'
        = VehicleDataProcessor.b_failed_records b ->
        processed_ledger_ok (files w) ->
        forall rec, In rec batch ->
          In (fst rec) (CSVProcessor.get_processed_records (files w'))).
Proof.
  induction batch as [| rec0 batch IH]; intros w w' b b' r Hrun.
  - cbn in Hrun. injection Hrun as _ <- <-.
    split; [apply grown_refl |]. split; [lia |].
    intros _ _ rec [].
  - cbn [for_each] in Hrun. unfold bind at 1 in Hrun.
    destruct (process_record_step cfg rec0 w b)
      as [w1 [b1 [Hstep _]]].
    rewrite Hstep in Hrun.
    destruct (process_record_grows cfg rec0 w w1 b b1 (Ok tt) Hstep)
      as [Hg1 [Hle1 Hin1]].
    destruct (IH w1 w' b1 b' r Hrun) as [Hg2 [Hle2 Hin2]].
    split; [exact (grown_trans _ _ _ Hg1 Hg2) |]. split; [lia |].
    intros Heq Hok rec [<- | Hrec].
    + apply Hg2. apply Hin1; [lia | exact Hok].
    + apply Hin2; [lia | apply Hg1; exact Hok | exact Hrec].
Qed.

Lemma batch_turn_grows
    (cfg : Config) (recs : list (string * Row)) (i : nat)
    (w w' : World) (s s' : VehicleDataProcessor.Summary) (r : Result unit) :
  VehicleDataProcessor.batch_turn cfg recs i (w, s) = (r, (w', s')) ->
  grown (files w) (files w')
  /\ VehicleDataProcessor.failed_records s
     <= VehicleDataProcessor.failed_records s'
  /\ (VehicleDataProcessor.failed_records s'
      = VehicleDataProcessor.failed_records s ->
      processed_ledger_ok (files w) ->
      forall rec, In rec (batch_at cfg recs i) ->
        In (fst rec) (CSVProcessor.get_processed_records (files w'))).
Proof.
  unfold VehicleDataProcessor.batch_turn. fold (batch_at cfg recs i).
  set (opening := EvBatch (i / BATCH_SIZE cfg + 1)
                    ((length recs + BATCH_SIZE cfg - 1) / BATCH_SIZE cfg)
                    (length (batch_at cfg recs i))).
  run_monad. cbv beta iota.
  unfold VehicleDataProcessor.process_batch.
  destruct (for_each (batch_at cfg recs i)
              (VehicleDataProcessor.process_record cfg)
              (mkWorld (files w) (endpoint w) (posts w) (clock w) (ticks w)
                       (trace w ++ [opening]),
               VehicleDataProcessor.empty_batch_summary))
    as [r0 [w1 b1]] eqn:Hloop.
  destruct (process_records_grow cfg _ _ _ _ _ _ Hloop)
    as [Hg [_ Hin]].
  cbn [files] in Hg, Hin.
  destruct (process_records_spec cfg (batch_at cfg recs i)
              (mkWorld (files w) (endpoint w) (posts w) (clock w) (ticks w)
                       (trace w ++ [opening]))
              VehicleDataProcessor.empty_batch_summary)
    as [w1' [b1' [Hloop' _]]].
  rewrite Hloop in Hloop'. injection Hloop' as -> <- <-.
  cbn [fst snd]. cbv beta iota.
  destruct (i + BATCH_SIZE cfg <? length recs);
    intros H; injection H as _ <- <-; cbn;
    (split; [exact Hg |]); (split; [lia |]);
    intros Heq Hok rec Hrec; apply Hin; try assumption; cbn; lia.
Qed.

Lemma batch_loop_grows
    (cfg : Config) (recs : list (string * Row)) (indices : list nat) :
  forall (w w' : World) (s s' : VehicleDataProcessor.Summary)
         (r : Result unit),
    for_each indices (VehicleDataProcessor.batch_turn cfg recs) (w, s)
    = (r, (w', s')) ->
    grown (files w) (files w')
    /\ VehicleDataProcessor.failed_records s
       <= VehicleDataProcessor.failed_records s'
    /\ (VehicleDataProcessor.failed_records s'
        = VehicleDataProcessor.failed_records s ->
        processed_ledger_ok (files w) ->
        forall rec, In rec (flat_map (batch_at cfg recs) indices) ->
          In (fst rec) (CSVProcessor.get_processed_records (files w'))).
Proof.
  induction indices as [| i indices IH]; intros w w' s s' r Hrun.
  - cbn in Hrun. injection Hrun as _ <- <-.
    split; [apply grown_refl |]. split; [lia |]. intros _ _ rec [].
  - cbn [for_each] in Hrun. unfold bind at 1 in Hrun.
    destruct (batch_turn_spec cfg recs i w s) as [w1 [s1 [Hturn _]]].
    rewrite Hturn in Hrun.
    destruct (batch_turn_grows cfg recs i w w1 s s1 (Ok tt) Hturn)
      as [Hg1 [Hle1 Hin1]].
    destruct (IH w1 w' s1 s' r Hrun) as [Hg2 [Hle2 Hin2]].
    split; [exact (grown_trans _ _ _ Hg1 Hg2) |]. split; [lia |].
    intros Heq Hok rec Hrec. cbn [flat_map] in Hrec.
    apply in_app_or in Hrec. destruct Hrec as [Hrec | Hrec].
    + apply Hg2. apply Hin1; [lia | exact Hok | exact Hrec].
    + apply Hin2; [lia | apply Hg1; exact Hok | exact Hrec].
Qed.

(** The whole run, on the files. *)
Lemma run_grows
    (cfg : Config) (w : World) (recs : list (string * Row)) :
  0 < BATCH_SIZE cfg ->
  CSVProcessor.get_unprocessed_records (files w) = Ok recs ->
  let out := VehicleDataProcessor.process_all_vehicles cfg w in
  grown (files w) (files (snd out))
  /\ (VehicleDataProcessor.failed_records (fst out) = 0 ->
      processed_ledger_ok (files w) ->
      forall rec, In rec recs ->
        In (fst rec)
           (CSVProcessor.get_processed_records (files (snd out)))).
Proof.
  intros Hpos Hload out. subst out.
  unfold VehicleDataProcessor.process_all_vehicles,
    VehicleDataProcessor.run_body.
  cbv [try_except bind on_world on_summary lift_result ret
       get_unprocessed_records fst snd].
  rewrite Hload. cbv beta iota.
  destruct recs as [| rec0 recs'].
  - cbn. split; [apply grown_refl |]. intros _ _ rec [].
  - set (recs := rec0 :: recs') in *.
    unfold py_range.
    destruct (BATCH_SIZE cfg) as [| k] eqn:Hbs; [lia |].
    rewrite <- Hbs.
    destruct (for_each
                (range_from (length recs) 0 (length recs) (BATCH_SIZE cfg))
                (VehicleDataProcessor.batch_turn cfg recs)
                (w, VehicleDataProcessor.set_total (length recs)
                      VehicleDataProcessor.empty_summary))
      as [r [w' s']] eqn:Hloop.
    destruct (batch_loop_grows cfg recs _ _ _ _ _ _ Hloop)
      as [Hg [_ Hin]].
    destruct (batch_loop_spec cfg recs
                (range_from (length recs) 0 (length recs) (BATCH_SIZE cfg))
                w
                (VehicleDataProcessor.set_total (length recs)
                   VehicleDataProcessor.empty_summary))
      as [w2 [s2 [Hloop' _]]].
    rewrite Hloop in Hloop'. injection Hloop' as -> <- <-.
    cbn [fst snd]. split; [exact Hg |].
    intros Hzero Hok rec Hrec. apply Hin; [exact Hzero | exact Hok |].
    rewrite (batches_partition cfg recs) by lia. exact Hrec.
Qed.

Lemma unprocessed_loop_all_marked (ids : list string) (rs : list Row) :
  (forall row, In row rs -> In (CSVProcessor.create_record_id row) ids) ->
  CSVProcessor.unprocessed_loop ids rs = [].
Proof.
  intros Hall. rewrite unprocessed_loop_filter. apply filter_none.
  intros x Hx. apply in_map_iff in Hx. destruct Hx as [row [<- Hrow]].
  cbn [fst]. specialize (Hall row Hrow). apply mem_In in Hall.
  rewrite Hall. reflexivity.
Qed.

(** X19. Idempotence across runs. After a run in which no record
    failed, started over a usable processed ledger and with a batch
    size that is not zero, the next load finds nothing unprocessed:
    every record the run handled, sent with success or skipped as a
    duplicate, is in the ledger. *)
Theorem X19_clean_run_leaves_nothing_unprocessed
    (cfg : Config) (w : World) (recs : list (string * Row)) :
  0 < BATCH_SIZE cfg ->
  processed_ledger_ok (files w) ->
  CSVProcessor.get_unprocessed_records (files w) = Ok recs ->
  let out := VehicleDataProcessor.process_all_vehicles cfg w in
  VehicleDataProcessor.failed_records (fst out) = 0 ->
  CSVProcessor.get_unprocessed_records (files (snd out)) = Ok []
  /\ forall rec, In rec recs ->
       In (fst rec) (CSVProcessor.get_processed_records (files (snd out))).
Proof.
  intros Hpos Hok Hload out Hzero.
  destruct (run_grows cfg w recs Hpos Hload) as [Hg Hin].
  fold out in Hg, Hin. specialize (Hin Hzero Hok).
  split; [| exact Hin].
  destruct Hg as [Hp [Hf [_ Hmono]]].
  unfold CSVProcessor.get_unprocessed_records in *.
  rewrite (load_csv_data_same (files w) _ Hf Hp).
  destruct (CSVProcessor.load_csv_data (files w)) as [rs | e];
    [| discriminate].
  injection Hload as <-. f_equal.
  apply unprocessed_loop_all_marked. intros row Hrow.
  destruct (PyStr.mem (CSVProcessor.create_record_id row)
              (CSVProcessor.get_processed_records (files w))) eqn:Hm.
  - apply Hmono. apply mem_In. exact Hm.
  - apply (Hin (CSVProcessor.create_record_id row, row)).
    apply unprocessed_loop_In. split; [exact Hrow |].
    split; [reflexivity |]. intros Hc. apply mem_In in Hc. congruence.
Qed.

Lemma X19_witness :
  let out := VehicleDataProcessor.process_all_vehicles default_config
               (Sample.world_of Sample.fresh_files Sample.always_ok) in
  VehicleDataProcessor.failed_records (fst out) = 0
  /\ CSVProcessor.get_unprocessed_records (files (snd out)) = Ok [].
Proof.
  assert (Hzero :
            VehicleDataProcessor.failed_records
              (fst (VehicleDataProcessor.process_all_vehicles
                      default_config
                      (Sample.world_of Sample.fresh_files
                                       Sample.always_ok))) = 0)
    by reflexivity.
  split; [exact Hzero |].
  refine (proj1 (X19_clean_run_leaves_nothing_unprocessed
                   default_config
                   (Sample.world_of Sample.fresh_files Sample.always_ok)
                   [("T1_FORD_FOCUS_C1_F1", Sample.ford_focus);
                    ("T1_FORD_FOCUS_C1_F1", Sample.FORD_FOCUS);
                    ("T2_FIAT_UNO_C1_F1", Sample.fiat_uno)]
                   _ _ eq_refl Hzero)).
  - cbn. lia.
  - left. reflexivity.
Defined.

(** X20. What a run never does. It never changes the CSV, never loses
    an id from the processed ledger, and never makes a usable ledger
    unusable; so the records unprocessed after the run are among the
    ones unprocessed before it, and the next run can only have less to
    do. *)
Theorem X20_run_only_shrinks_the_unprocessed
    (cfg : Config) (w : World) (recs : list (string * Row)) :
  0 < BATCH_SIZE cfg ->
  CSVProcessor.get_unprocessed_records (files w) = Ok recs ->
  let out := VehicleDataProcessor.process_all_vehicles cfg w in
  csv_file (files (snd out)) = csv_file (files w)
  /\ (forall x, In x (CSVProcessor.get_processed_records (files w)) ->
                In x (CSVProcessor.get_processed_records
                        (files (snd out))))
  /\ (processed_ledger_ok (files w) ->
      processed_ledger_ok (files (snd out)))
  /\ exists recs',
       CSVProcessor.get_unprocessed_records (files (snd out)) = Ok recs'
       /\ forall x, In x recs' -> In x recs.
Proof.
  intros Hpos Hload out.
  destruct (run_grows cfg w recs Hpos Hload) as [Hg _].
  fold out in Hg. destruct Hg as [Hp [Hf [Hok Hmono]]].
  split; [exact Hf |]. split; [exact Hmono |]. split; [exact Hok |].
  unfold CSVProcessor.get_unprocessed_records in *.
  rewrite (load_csv_data_same (files w) _ Hf Hp).
  destruct (CSVProcessor.load_csv_data (files w)) as [rs | e];
    [| discriminate].
  injection Hload as <-. eexists. split; [reflexivity |].
  intros [rid row] Hx.
  apply unprocessed_loop_In in Hx. destruct Hx as [Hrow [Hid Hnot]].
  apply unprocessed_loop_In. split; [exact Hrow |].
  split; [exact Hid |]. intros Hc. apply Hnot. apply Hmono. exact Hc.
Qed.

Lemma X20_witness :
  let out := VehicleDataProcessor.process_all_vehicles default_config
               (Sample.world_of Sample.mixed_files Sample.reject_first) in
  csv_file (files (snd out)) = csv_file Sample.mixed_files
  /\ CSVProcessor.get_unprocessed_records (files (snd out))
     = Ok [("T1_FORD_FOCUS_C1_F1", Sample.ford_focus);
           ("T3_SEAT_IBIZA_C1_F1", Sample.bad_number)].
Proof.
  assert (Hpos : 0 < BATCH_SIZE default_config) by (cbn; lia).
  destruct (X20_run_only_shrinks_the_unprocessed
              default_config
              (Sample.world_of Sample.mixed_files Sample.reject_first)
              [("T1_FORD_FOCUS_C1_F1", Sample.ford_focus);
               ("T3_SEAT_IBIZA_C1_F1", Sample.bad_number);
               ("T2_FIAT_UNO_C1_F1", Sample.fiat_uno)]
              Hpos eq_refl)
    as [Hcsv _].
  split; [exact Hcsv | reflexivity].
Defined.

(* ================================================================== *)
(** * The status, the paths and the web routes *)
(* ================================================================== *)

(** X21. Let the processed ledger be missing, or not readable as JSON,
    or hold its two lists. In the status the pending records are at
    most the total ones. When the CSV loads, the pending count is the
    number of loaded rows whose id is not in the processed ledger,
    whatever else the ledger holds: it is zero exactly when every row's
    id is in the ledger, and the processed count is the length of the
    ledger's id list whether or not those ids occur in the CSV. (A
    ledger that parses but holds something else than a list under
    "processed_ids" is not covered.) *)
Theorem X21_status_counts (fs : Files) :
  processed_ledger_ok fs \/ processed_ledger_lost fs ->
  let st := VehicleDataProcessor.get_processing_status fs in
  VehicleDataProcessor.st_pending_records st
  <= VehicleDataProcessor.st_total_records st
  /\ forall rs,
       CSVProcessor.load_csv_data fs = Ok rs ->
       VehicleDataProcessor.st_pending_records st
       = length (filter
                   (fun r => negb (PyStr.mem
                                     (CSVProcessor.create_record_id r)
                                     (CSVProcessor.get_processed_records
                                        fs)))
                   rs)
       /\ (VehicleDataProcessor.st_pending_records st = 0 <->
           forall r, In r rs ->
             In (CSVProcessor.create_record_id r)
                (CSVProcessor.get_processed_records fs))
       /\ VehicleDataProcessor.st_processed_records st
          = length (CSVProcessor.get_processed_records fs).
Proof.
  intros _ st. subst st.
  assert (Hlen : forall ids rs,
            length (CSVProcessor.unprocessed_loop ids rs)
            = length (filter
                        (fun r => negb (PyStr.mem
                                          (CSVProcessor.create_record_id r)
                                          ids)) rs)).
  { intros ids rs. induction rs as [| r rs IH];
      cbn [CSVProcessor.unprocessed_loop filter]; [reflexivity |].
    destruct (negb (PyStr.mem (CSVProcessor.create_record_id r) ids));
      cbn [length]; rewrite IH; reflexivity. }
  split.
  - destruct (CSVProcessor.load_csv_data fs) as [rs | e] eqn:Hload.
    + rewrite (get_processing_status_loaded fs Hload).
      cbn [VehicleDataProcessor.st_pending_records
           VehicleDataProcessor.st_total_records
           VehicleDataProcessor.st_processed_records].
      rewrite Hlen. apply filter_length_le.
    + unfold VehicleDataProcessor.get_processing_status.
      rewrite Hload. cbn. lia.
  - intros rs Hload. rewrite (get_processing_status_loaded fs Hload).
    cbn [VehicleDataProcessor.st_pending_records
           VehicleDataProcessor.st_total_records
           VehicleDataProcessor.st_processed_records].
    split; [apply Hlen |]. split; [| reflexivity].
    rewrite Hlen. split.
    + intros Hzero r Hr.
      apply length_zero_iff_nil in Hzero.
      pose proof (filter_nil_none _ _ Hzero r Hr) as H.
      apply negb_false_iff in H. apply mem_In. exact H.
    + intros Hall. rewrite filter_none; [reflexivity |].
      intros r Hr. apply Hall in Hr. apply mem_In in Hr. rewrite Hr.
      reflexivity.
Qed.

Lemma X21_witness :
  VehicleDataProcessor.st_pending_records
    (VehicleDataProcessor.get_processing_status Sample.four_of_ten) = 6
  /\ VehicleDataProcessor.st_processed_records
       (VehicleDataProcessor.get_processing_status Sample.four_of_ten) = 4.
Proof.
  assert (Hload : CSVProcessor.load_csv_data Sample.four_of_ten
                  = Ok Sample.ten_rows) by (vm_compute; reflexivity).
  destruct (proj2 (X21_status_counts
                     Sample.four_of_ten
                     (or_introl
                        (or_intror (ex_intro _ _ (ex_intro _ _ eq_refl)))))
              Sample.ten_rows Hload)
    as [Hpending [_ Hprocessed]].
  split.
  - rewrite Hpending. vm_compute. reflexivity.
  - rewrite Hprocessed. vm_compute. reflexivity.
Defined.

(** ** The paths of the ledgers *)

Lemma append_empty_r (s : string) : s ++ "" = s.
Proof. induction s as [| c s IH]; cbn; [| rewrite IH]; reflexivity. Qed.

Lemma append_inv_head (s a b : string) : s ++ a = s ++ b -> a = b.
Proof.
  induction s as [| c s IH]; cbn; intros H; [exact H |].
  injection H as H. exact (IH H).
Qed.

Lemma replace_absent (old new s : string) :
  PyStr.contains old s = false -> str_replace old new s = s.
Proof.
  unfold str_replace. induction s as [| c s IH]; intros H.
  - reflexivity.
  - cbn [PyStr.contains] in H. apply orb_false_iff in H.
    destruct H as [Hp Hc]. cbn [replace_from]. rewrite Hp, (IH Hc).
    reflexivity.
Qed.

Lemma prefix_app_false (needle s t : string) :
  prefix needle s = false -> String.length needle <= String.length s ->
  prefix needle (s ++ t) = false.
Proof.
  revert s. induction needle as [| a needle IH]; intros s H Hlen.
  - destruct s; discriminate H.
  - destruct s as [| b s]; [cbn in Hlen; lia |].
    cbn -[ascii_dec] in H |- *.
    destruct (ascii_dec a b); [| reflexivity].
    apply IH; [exact H | cbn in Hlen; lia].
Qed.

(** ".csv" cannot begin inside a string that does not hold it and end
    inside a ".csv" put after it. *)
Lemma csv_does_not_straddle (s : string) :
  s <> "" -> prefix ".csv" s = false -> prefix ".csv" (s ++ ".csv") = false.
Proof.
  intros Hne H.
  destruct s as [| c0 [| c1 [| c2 [| c3 r]]]].
  - congruence.
  - cbn -[ascii_dec]. destruct (ascii_dec "." c0); reflexivity.
  - cbn -[ascii_dec]. destruct (ascii_dec "." c0); [| reflexivity].
    destruct (ascii_dec "c" c1); reflexivity.
  - cbn -[ascii_dec]. destruct (ascii_dec "." c0); [| reflexivity].
    destruct (ascii_dec "c" c1); [| reflexivity].
    destruct (ascii_dec "s" c2); reflexivity.
  - apply prefix_app_false; [exact H | cbn; lia].
Qed.

Lemma replace_csv_suffix (new stem : string) :
  PyStr.contains ".csv" stem = false ->
  str_replace ".csv" new (stem ++ ".csv") = stem ++ new.
Proof.
  unfold str_replace. induction stem as [| c stem IH]; intros H.
  - cbn. rewrite append_empty_r. reflexivity.
  - cbn [PyStr.contains] in H. apply orb_false_iff in H.
    destruct H as [Hp Hc].
    change (String c stem ++ ".csv") with (String c (stem ++ ".csv")).
    cbn [replace_from].
    change (String c (stem ++ ".csv")) with (String c stem ++ ".csv").
    rewrite (csv_does_not_straddle (String c stem)) by
      (try discriminate; exact Hp).
    rewrite (IH Hc). reflexivity.
Qed.

(** X22. The ledger paths of a [CSVProcessor]. For a CSV path that is
    a stem followed by ".csv", the stem holding no ".csv" itself, the
    processed ledger is at the stem followed by "_processed.json" and
    the failed ledger at the stem followed by "_failed.json", and the
    three paths are different. For a path that holds no ".csv" at all,
    both ledger paths are the CSV path itself. *)
Theorem X22_ledger_paths (path : string) :
  (forall stem,
     path = stem ++ ".csv" -> PyStr.contains ".csv" stem = false ->
     CSVProcessor_init path
     = mkPaths path (stem ++ "_processed.json") (stem ++ "_failed.json")
     /\ p_processed_file (CSVProcessor_init path) <> path
     /\ p_failed_file (CSVProcessor_init path) <> path
     /\ p_processed_file (CSVProcessor_init path)
        <> p_failed_file (CSVProcessor_init path))
  /\ (PyStr.contains ".csv" path = false ->
      CSVProcessor_init path = mkPaths path path path).
Proof.
  split.
  - intros stem -> Hstem. unfold CSVProcessor_init.
    rewrite !replace_csv_suffix by exact Hstem. cbn.
    split; [reflexivity |].
    repeat split; intros H; apply append_inv_head in H; discriminate H.
  - intros H. unfold CSVProcessor_init.
    rewrite !replace_absent by exact H. reflexivity.
Qed.

Lemma X22_witness :
  CSVProcessor_init "data/clases_vehiculos.csv"
  = mkPaths "data/clases_vehiculos.csv"
            "data/clases_vehiculos_processed.json"
            "data/clases_vehiculos_failed.json"
  /\ CSVProcessor_init "vehiculos.txt"
     = mkPaths "vehiculos.txt" "vehiculos.txt" "vehiculos.txt".
Proof.
  split.
  - exact (proj1 (proj1 (X22_ledger_paths "data/clases_vehiculos.csv")
                    "data/clases_vehiculos" eq_refl eq_refl)).
  - exact (proj2 (X22_ledger_paths "vehiculos.txt") eq_refl).
Defined.

(** ** The log route *)

Lemma truthy_nonempty (s : string) :
  PyStr.truthy (Some s) = negb (String.eqb s "").
Proof. destruct s; reflexivity. Qed.

Lemma map_filter_swap (lines : list string) :
  map PyStr.strip
      (filter (fun line => PyStr.truthy (Some (PyStr.strip line))) lines)
  = filter (fun l => negb (String.eqb l "")) (map PyStr.strip lines).
Proof.
  induction lines as [| line lines IH]; [reflexivity |].
  cbn [filter map]. rewrite truthy_nonempty.
  destruct (negb (String.eqb (PyStr.strip line) ""));
    cbn [map]; rewrite IH; reflexivity.
Qed.

(** X23. The log route. Without a log file the list is empty, and when
    the file cannot be read the list is the single line
    "Error cargando logs: <message>". Otherwise the list is made from
    the last fifty lines of the file (from all of them when there are
    fewer), in their order: each is stripped, and those that are empty
    once stripped are left out. So the list has at most fifty lines,
    and each of them is not empty and is the text that one of those
    lines has between the whitespace at its two ends, where whitespace
    is what [str.isspace] takes for it (the no-break space, for one,
    as well as the blank). *)
Theorem X23_get_logs (log_file : File (list string)) :
  (log_file = Absent -> App.get_logs log_file = [])
  /\ (forall e, log_file = Unreadable e ->
        App.get_logs log_file = ["Error cargando logs: " ++ exn_msg e])
  /\ (forall lines,
        log_file = Parsed lines ->
        App.get_logs log_file
        = filter (fun l => negb (String.eqb l ""))
                 (map PyStr.strip (py_last 50 lines))
        /\ (exists older, lines = (older ++ py_last 50 lines)%list)
        /\ length (py_last 50 lines) = Nat.min 50 (length lines)
        /\ length (App.get_logs log_file) <= 50
        /\ (forall l, In l (App.get_logs log_file) ->
              l <> ""
              /\ exists line pre cs post,
                   In line (py_last 50 lines)
                   /\ PyStr.decode line = (pre ++ cs ++ post)%list
                   /\ forallb PyStr.isspace pre = true
                   /\ forallb PyStr.isspace post = true
                   /\ trimmed cs = true
                   /\ l = PyStr.encode cs)).
Proof.
  split; [intros ->; reflexivity |].
  split; [intros e ->; reflexivity |].
  intros lines ->. unfold App.get_logs. rewrite map_filter_swap.
  split; [reflexivity |].
  split; [exists (firstn (length lines - 50) lines); unfold py_last;
          symmetry; apply firstn_skipn |].
  split; [unfold py_last; rewrite length_skipn; lia |].
  split.
  - eapply Nat.le_trans; [apply filter_length_le |].
    rewrite length_map. unfold py_last. rewrite length_skipn. lia.
  - intros l Hl. apply filter_In in Hl. destruct Hl as [Hin Hne].
    apply in_map_iff in Hin. destruct Hin as [line [<- Hline]].
    split; [intros Heq; rewrite Heq in Hne; discriminate Hne |].
    destruct (strip_spec line) as [pre [cs [post [Hd [Hpre [Hpost [Ht Hs]]]]]]].
    exists line, pre, cs, post. repeat (split; [assumption |]). exact Hs.
Qed.

Lemma X23_witness :
  length Sample2.long_log = 52
  /\ App.get_logs (Parsed Sample2.long_log)
     = ["2024-05-01 10:00:00 - app - INFO - start";
        "2024-05-01 10:00:01 - app - INFO - done"].
Proof.
  split; [reflexivity |].
  destruct (proj2 (proj2 (X23_get_logs (Parsed Sample2.long_log)))
              Sample2.long_log eq_refl)
    as [Hlogs _].
  rewrite Hlogs. vm_compute. reflexivity.
Defined.

(** ** The status, process and connection routes *)

Lemma service_init_outcomes (env_token : option string) :
  (PyStr.truthy env_token = false ->
   ATIONETService_init env_token
   = Raise (mkExn ValueError
              "ATIONET_TOKEN no encontrado en las variables de entorno"))
  /\ (PyStr.truthy env_token = true ->
      exists service,
        ATIONETService_init env_token = Ok service
        /\ retries service = REQUEST_RETRIES default_config
        /\ In ("Authorization", "Bearer " ++ PyStr.fmt_opt env_token)
              (headers service)).
Proof.
  unfold ATIONETService_init. split; intros H; rewrite H; cbn.
  - reflexivity.
  - eexists. split; [reflexivity |]. split; [reflexivity |].
    left. reflexivity.
Qed.

(** X24. The status and process routes answer HTTP 500 exactly when no
    token is configured (missing or empty), with the message about the
    token, and then nothing is read, sent or written. With a token
    they answer 200 whatever happens to the data: a CSV that cannot be
    loaded comes back as a 200 status whose body carries the error and
    zeros, and as a 200 run summary whose error list carries it. *)
Theorem X24_routes_answer_500_only_without_token
    (env_token : option string) (w : World) :
  (snd (App.get_status env_token (files w)) = 500%Z
   <-> PyStr.truthy env_token = false)
  /\ (snd (fst (App.process_vehicles env_token w)) = 500%Z
      <-> PyStr.truthy env_token = false)
  /\ (PyStr.truthy env_token = false ->
      App.get_status env_token (files w)
      = (App.JsonError
           "ATIONET_TOKEN no encontrado en las variables de entorno",
         500%Z)
      /\ App.process_vehicles env_token w
         = ((App.JsonError
               "ATIONET_TOKEN no encontrado en las variables de entorno",
             500%Z), w))
  /\ (PyStr.truthy env_token = true ->
      App.get_status env_token (files w)
      = (App.Json (VehicleDataProcessor.get_processing_status (files w)),
         200%Z)
      /\ App.process_vehicles env_token w
         = ((App.Json
               (fst (VehicleDataProcessor.process_all_vehicles
                       default_config w)),
             200%Z),
            snd (VehicleDataProcessor.process_all_vehicles
                   default_config w))
      /\ forall e,
           CSVProcessor.load_csv_data (files w) = Raise e ->
           App.get_status env_token (files w)
           = (App.Json (VehicleDataProcessor.mkStatus
                          (Some (exn_msg e)) 0 0 0 (PyInt 0)),
              200%Z)
           /\ App.process_vehicles env_token w
              = ((App.Json
                    (VehicleDataProcessor.mkSummary 0 0 0 0
                       ["Error en procesamiento general: " ++ exn_msg e]),
                  200%Z), w)).
Proof.
  unfold App.get_status, App.process_vehicles, VehicleDataProcessor_init,
    ATIONETService_init.
  destruct (PyStr.truthy env_token) eqn:Ht; cbn.
  - split; [split; intros H; discriminate H |].
    split; [split; intros H; discriminate H |].
    split; [intros H; discriminate H |].
    intros _. split; [reflexivity |]. split; [reflexivity |].
    intros e Hload.
    unfold VehicleDataProcessor.get_processing_status.
    rewrite Hload. split; [reflexivity |].
    unfold VehicleDataProcessor.process_all_vehicles,
      VehicleDataProcessor.run_body.
    cbv [try_except bind on_world on_summary lift_result ret
         get_unprocessed_records fst snd].
    unfold CSVProcessor.get_unprocessed_records. rewrite Hload.
    reflexivity.
  - split; [split; intros; reflexivity |].
    split; [split; intros; reflexivity |].
    split; [intros _; split; reflexivity |].
    intros H. discriminate H.
Qed.

Lemma X24_witness :
  App.get_status (Some "") Sample.fresh_files
  = (App.JsonError
       "ATIONET_TOKEN no encontrado en las variables de entorno", 500%Z)
  /\ App.get_status (Some "secret") Sample.no_csv
     = (App.Json (VehicleDataProcessor.mkStatus
                    (Some "Archivo CSV no encontrado: clases_vehiculos.csv")
                    0 0 0 (PyInt 0)),
        200%Z).
Proof.
  split.
  - exact (proj1 (proj1 (proj2 (proj2
             (X24_routes_answer_500_only_without_token
                (Some "") (Sample.world_of Sample.fresh_files
                                           Sample.always_ok))))
             eq_refl)).
  - exact (proj1 (proj2 (proj2 (proj2 (proj2 (proj2
             (X24_routes_answer_500_only_without_token
                (Some "secret") (Sample.world_of Sample.no_csv
                                                 Sample.always_ok))))
             eq_refl))
             (mkExn FileNotFoundError
                "Archivo CSV no encontrado: clases_vehiculos.csv")
             eq_refl)).
Defined.

(** X25. The connection test. Without a token it answers 500 with
    [connection_test] false and makes no POST. With a token it always
    answers 200 with [connection_test] true, whether the remote side
    accepted the test record or not: it reports the triple of
    [send_vehicle_data] for the test record, after one to three POSTs
    of that record, and touches no file and no ledger. *)
Theorem X25_test_connection (env_token : option string) (w : World) :
  (PyStr.truthy env_token = false ->
   App.test_connection env_token w
   = ((App.mkConnectionTest false None None
         (Some "ATIONET_TOKEN no encontrado en las variables de entorno")
         false, 500%Z), w))
  /\ (PyStr.truthy env_token = true ->
      exists success resp err w' k,
        App.test_connection env_token w
        = ((App.mkConnectionTest true (Some success) resp err true, 200%Z),
           w')
        /\ ATIONETService.send_vehicle_data 3 App.test_data w
           = (Ok (success, resp, err), w')
        /\ 1 <= k <= 3
        /\ posted (trace w') = (posted (trace w)
                                ++ repeat App.test_data k)%list
        /\ files w' = files w
        /\ outline (trace w') = outline (trace w)).
Proof.
  unfold App.test_connection, ATIONETService_init. split; intros Ht;
    rewrite Ht; cbn [negb].
  - reflexivity.
  - cbn [retries REQUEST_RETRIES default_config].
    destruct (send_vehicle_data_bounded 3 App.test_data w)
      as [res [w' [k [Hsend [Hle [Hpos [_ [Hposted [_ [Hq _]]]]]]]]]].
    rewrite Hsend. destruct res as [[success resp] err].
    exists success, resp, err, w', k. cbn [fst snd].
    split; [reflexivity |]. split; [reflexivity |].
    split; [split; [apply Hpos; lia | exact Hle] |].
    split; [exact Hposted |].
    split; [apply Hq | apply Hq].
Qed.

Lemma X25_witness :
  App.test_connection None
    (Sample.world_of Sample.fresh_files Sample.always_ok)
  = ((App.mkConnectionTest false None None
        (Some "ATIONET_TOKEN no encontrado en las variables de entorno")
        false, 500%Z),
     Sample.world_of Sample.fresh_files Sample.always_ok)
  /\ fst (App.test_connection (Some "secret")
            (Sample.world_of Sample.fresh_files Sample.reject_first))
     = (App.mkConnectionTest true (Some false) None
          (Some "Error del cliente (400): bad request") true, 200%Z).
Proof.
  split.
  - exact (proj1 (X25_test_connection
                    None
                    (Sample.world_of Sample.fresh_files Sample.always_ok))
                 eq_refl).
  - destruct (proj2 (X25_test_connection
                       (Some "secret")
                       (Sample.world_of Sample.fresh_files
                                        Sample.reject_first))
                eq_refl)
      as [success [resp [err [w' [k [Hrun _]]]]]].
    clear Hrun. reflexivity.
Defined.

(* ================================================================== *)
(** * Two more facts about one record *)
(* ================================================================== *)

Lemma contains_app_r (needle s t : string) :
  PyStr.contains needle t = true -> PyStr.contains needle (s ++ t) = true.
Proof.
  intros H. induction s as [| c s IH]; [exact H |].
  change (String c s ++ t) with (String c (s ++ t)).
  cbn [PyStr.contains]. rewrite IH. apply orb_true_r.
Qed.

(** The message made for a status of 400 or more counts as a duplicate
    as soon as the body of the answer mentions one. *)
Lemma client_error_message_is_duplicate (code : Z) (body : string) :
  PyStr.contains "duplicate" (PyStr.lower body) = true
  \/ PyStr.contains "conflict" (PyStr.lower body) = true
  \/ PyStr.contains "409" body = true ->
  VehicleDataProcessor.is_duplicate_error
    (Some ("Error del cliente (" ++ PyStr.of_Z code ++ "): " ++ body))
  = true.
Proof.
  intros H. apply is_duplicate_error_of_text.
  assert (Hp : PyStr.isascii
                 ("Error del cliente (" ++ PyStr.of_Z code ++ "): ") = true).
  { apply isascii_app; [reflexivity |].
    apply isascii_app; [apply isascii_of_Z | reflexivity]. }
  replace ("Error del cliente (" ++ PyStr.of_Z code ++ "): " ++ body)
    with (("Error del cliente (" ++ PyStr.of_Z code ++ "): ") ++ body)
    by (rewrite <- !append_assoc3; reflexivity).
  destruct H as [H | [H | H]].
  - left.
    destruct (contains_lower_behind "duplicate" _ body eq_refl Hp H)
      as [rest [-> Hrest]].
    apply contains_app_r. exact Hrest.
  - right. left.
    destruct (contains_lower_behind "conflict" _ body eq_refl Hp H)
      as [rest [-> Hrest]].
    apply contains_app_r. exact Hrest.
  - right. right. apply contains_app_r. exact H.
Qed.

(** X26. An error answer that mentions a duplicate is taken for one.
    When the first POST for a record is answered with a status of 400
    or more other than 409, and the body of the answer contains
    "duplicate" or "conflict" in any case, or "409", the record is
    written to the processed ledger and counted as a skipped duplicate,
    not as failed: later runs will not send it again, although the
    remote side did not accept it. *)
Theorem X26_error_body_naming_a_duplicate_marks_processed
    (cfg : Config) (rid : string) (data : Row) (w : World)
    (b : VehicleDataProcessor.BatchSummary) (p : WireRecord)
    (resp : Response) :
  0 < REQUEST_RETRIES cfg ->
  ATIONETService.format_vehicle_data data = Ok p ->
  endpoint w (posts w) p = Ok resp ->
  (400 <= status_code resp)%Z -> status_code resp <> 409%Z ->
  PyStr.contains "duplicate" (PyStr.lower (text resp)) = true
  \/ PyStr.contains "conflict" (PyStr.lower (text resp)) = true
  \/ PyStr.contains "409" (text resp) = true ->
  exists w2,
    VehicleDataProcessor.process_record cfg (rid, data) (w, b)
    = (Ok tt, (w2, VehicleDataProcessor.incr_skipped b))
    /\ files w2
       = CSVProcessor.save_processed_record
           (clock w (ticks w)) rid data (files w)
    /\ (processed_ledger_ok (files w) ->
        In rid (CSVProcessor.get_processed_records (files w2)))
    /\ failed_file (files w2) = failed_file (files w)
    /\ posted (trace w2) = (posted (trace w) ++ [p])%list.
Proof.
  intros Hpos Hfmt Hep Hge Hne Hbody.
  destruct (REQUEST_RETRIES cfg) as [| n] eqn:Hn; [lia |].
  destruct (@send_status_400_up_returns_at_once n p w resp Hep Hge Hne)
    as [Hres [_ Htrace]].
  destruct (ATIONETService.send_vehicle_data (S n) p w) as [r w1] eqn:Hsend.
  cbn [fst snd] in Hres, Htrace. subst r.
  destruct (send_vehicle_data_quiet (S n) p w) as [res' [w1' [Hsend' Hq]]].
  rewrite Hsend in Hsend'. injection Hsend' as _ <-.
  rewrite <- Hn in Hsend.
  rewrite (@process_record_sent cfg rid data w w1 b p _ Hfmt Hsend).
  cbn [fst snd].
  rewrite (client_error_message_is_duplicate _ _ Hbody).
  eexists. split; [reflexivity |].
  assert (Hfiles :
            files (after (time_sleep BetweenRecords (PyFlt PyFloat.f0_1))
                     (after (save_processed_record rid data) w1))
            = CSVProcessor.save_processed_record
                (clock w (ticks w)) rid data (files w)).
  { unfold after. cbn. rewrite (quiet_files w w1 Hq), (quiet_clock w w1 Hq).
    reflexivity. }
  rewrite Hfiles.
  split; [reflexivity |].
  split; [intros Hok; apply save_processed_records_id; exact Hok |].
  split; [apply save_processed_keeps_failed_file |].
  unfold after. cbn. rewrite !posted_snoc, Htrace, posted_snoc.
  cbn. rewrite !app_nil_r. reflexivity.
Qed.

Lemma X26_witness :
  exists w2,
    VehicleDataProcessor.process_record default_config
      ("T1_FORD_FOCUS_C1_F1", Sample.ford_focus)
      (Sample.world_of Sample.fresh_files
         (fun _ _ => Sample.answer 400 "Duplicate key in request"),
       VehicleDataProcessor.empty_batch_summary)
    = (Ok tt, (w2, VehicleDataProcessor.mkBatchSummary 0 0 1 []))
    /\ In "T1_FORD_FOCUS_C1_F1"
          (CSVProcessor.get_processed_records (files w2)).
Proof.
  destruct (X26_error_body_naming_a_duplicate_marks_processed
              default_config "T1_FORD_FOCUS_C1_F1" Sample.ford_focus
              (Sample.world_of Sample.fresh_files
                 (fun _ _ => Sample.answer 400 "Duplicate key in request"))
              VehicleDataProcessor.empty_batch_summary Sample.wire
              (mkResponse 400 "Duplicate key in request"
                          (Ok "Duplicate key in request")))
    as [w2 [Hrun [_ [Hin _]]]].
  - cbn. lia.
  - reflexivity.
  - reflexivity.
  - cbn. lia.
  - cbn. discriminate.
  - left. reflexivity.
  - exists w2. split; [exact Hrun |]. apply Hin. left. reflexivity.
Defined.

(** X27. Every record that can be formatted is sent, whether or not a
    row before it had the same id: with at least one attempt allowed
    the loop body makes between one and that many POSTs of the record's
    wire form, and it ends with the pause of 0.1 second. *)
Theorem X27_formattable_record_is_sent
    (cfg : Config) (rid : string) (data : Row) (w : World)
    (b : VehicleDataProcessor.BatchSummary) (p : WireRecord) :
  0 < REQUEST_RETRIES cfg ->
  ATIONETService.format_vehicle_data data = Ok p ->
  exists w' b' k tr,
    VehicleDataProcessor.process_record cfg (rid, data) (w, b)
    = (Ok tt, (w', b'))
    /\ 1 <= k <= REQUEST_RETRIES cfg
    /\ posts w' = posts w + k
    /\ posted (trace w') = (posted (trace w) ++ repeat p k)%list
    /\ trace w'
       = (tr ++ [EvSleep BetweenRecords (PyFlt PyFloat.f0_1)])%list.
Proof.
  intros Hpos Hfmt.
  destruct (send_vehicle_data_bounded (REQUEST_RETRIES cfg) p w)
    as [res [w1 [k [Hsend [Hle [Hk [Hposts [Hposted _]]]]]]]].
  rewrite (@process_record_sent cfg rid data w w1 b p res Hfmt Hsend).
  destruct (fst (fst res));
    [| destruct (VehicleDataProcessor.is_duplicate_error (snd res))];
    eexists; eexists; exists k; eexists;
    (split; [reflexivity |]);
    (split; [split; [apply Hk; exact Hpos | exact Hle] |]);
    unfold after; cbn;
    (split; [exact Hposts |]);
    rewrite !posted_snoc, Hposted; cbn; rewrite !app_nil_r;
    (split; reflexivity).
Qed.

Lemma X27_witness :
  exists w' b' k tr,
    VehicleDataProcessor.process_record default_config
      ("T1_FORD_FOCUS_C1_F1", Sample.FORD_FOCUS)
      (Sample.world_of Sample.marked_files Sample.always_ok,
       VehicleDataProcessor.empty_batch_summary)
    = (Ok tt, (w', b'))
    /\ 1 <= k <= 3
    /\ posts w' = k
    /\ trace w'
       = (tr ++ [EvSleep BetweenRecords (PyFlt PyFloat.f0_1)])%list.
Proof.
  destruct (X27_formattable_record_is_sent
              default_config "T1_FORD_FOCUS_C1_F1" Sample.FORD_FOCUS
              (Sample.world_of Sample.marked_files Sample.always_ok)
              VehicleDataProcessor.empty_batch_summary
              (mkWireRecord (Sample.text_cell "T1") (Sample.text_cell "FORD")
                 (Sample.text_cell "FOCUS") (PyFloat.of_Z 12)
                 (Sample.text_cell "C1")
                 [mkFuelMaster (Sample.text_cell "F1") (PyFloat.of_Z 60)]))
    as [w' [b' [k [tr [Hrun [Hk [Hposts [_ Htr]]]]]]]].
  - cbn. lia.
  - reflexivity.
  - exists w', b', k, tr. split; [exact Hrun |].
    split; [exact Hk |]. split; [exact Hposts | exact Htr].
Defined.
